(** * pdf_generator: a shallow embedding of [src/pdf_generator.py]

    The development follows the pipeline of [process_document]:
    [load_data] (RecordLoader), the dispatch on the entity token
    (EntityResolver), the three branches that build the template context
    (Aggregator) and [generate_pdf] (TemplateBinder and DocumentWriter).

    Python values are embedded as an inductive type, dictionaries as
    [gmap string value], exceptions as an error monad, the three
    directories as finite maps, and the interactive menus as the answers
    they return. *)

From Stdlib Require Import ZArith String Ascii List Lia SpecFloat Permutation.
From stdpp Require Import base option list gmap strings pretty sorting.

Local Open Scope Z_scope.

(** ** Exceptions and the error monad *)

(** The exceptions that the modelled code can raise.  The [ValueError]
    of line 352 carries the extension, as its message does; every other
    [ValueError] is [ValueError].  An exception raised inside a library
    call ([open], [json], [pandas], [jinja2], [weasyprint]) is [External],
    with the name of its class. *)
Inductive exn :=
| ExitCommand
| UnsupportedFormat (suffix : string)
| ValueError
| TypeError
| OverflowError
| KeyError (key : string)
| IndexError
| External (class : string).

Inductive result (A : Type) :=
| Ok (a : A)
| Raise (e : exn).
Arguments Ok {A} a.
Arguments Raise {A} e.

(** What a library call gives back. *)
Inductive external (A : Type) :=
| Returned (a : A)
| Failed (class : string).
Arguments Returned {A} a.
Arguments Failed {A} class.

Definition call {A} (r : external A) : result A :=
  match r with
  | Returned a => Ok a
  | Failed class => Raise (External class)
  end.

#[global] Instance result_ret : MRet result := fun A a => Ok a.
#[global] Instance result_bind : MBind result := fun A B f r =>
  match r with
  | Ok a => f a
  | Raise e => Raise e
  end.

(** [[f(x) for x in xs]] with a body that may raise: the first exception,
    in list order, is the one that propagates. *)
Fixpoint comprehension {A B} (f : A -> result B) (xs : list A) : result (list B) :=
  match xs with
  | [] => Ok []
  | x :: rest =>
      y ← f x;
      ys ← comprehension f rest;
      Ok (y :: ys)
  end.

(** ** Python values *)

(** The scalars a flat JSON object or a DataFrame cell can hold. *)
Inductive value :=
| VNone
| VBool (b : bool)
| VInt (z : Z)
| VFloat (f : spec_float)
| VStr (s : string).

(** A record is a [dict] with string keys. *)
Abbreviation record := (gmap string value).

(** The exact numeric value of a number: a dyadic [m * 2^e], an infinity
    or not-a-number. *)
Inductive number :=
| Finite (m e : Z)
| Infinite (negative : bool)
| NotANumber.

Definition number_of_float (f : spec_float) : number :=
  match f with
  | S754_zero _ => Finite 0 0
  | S754_infinity s => Infinite s
  | S754_nan => NotANumber
  | S754_finite s m e => Finite (if s then Z.neg m else Z.pos m) e
  end.

(** [bool] is a subclass of [int]: [True] is 1 and [False] is 0. *)
Definition number_of_value (v : value) : option number :=
  match v with
  | VBool b => Some (Finite (if b then 1 else 0) 0)
  | VInt z => Some (Finite z 0)
  | VFloat f => Some (number_of_float f)
  | VNone | VStr _ => None
  end.

(** Comparison of two dyadics, exact as Python's mixed int/float
    comparison is. *)
Definition dyadic_compare (m1 e1 m2 e2 : Z) : comparison :=
  let e := Z.min e1 e2 in
  Z.compare (m1 * 2 ^ (e1 - e)) (m2 * 2 ^ (e2 - e)).

(** [None] stands for the unordered case (a NaN operand). *)
Definition number_compare (a b : number) : option comparison :=
  match a, b with
  | NotANumber, _ | _, NotANumber => None
  | Finite m1 e1, Finite m2 e2 => Some (dyadic_compare m1 e1 m2 e2)
  | Infinite s1, Infinite s2 =>
      Some (match s1, s2 with
            | true, false => Lt
            | false, true => Gt
            | _, _ => Eq
            end)
  | Infinite s, Finite _ _ => Some (if s then Lt else Gt)
  | Finite _ _, Infinite s => Some (if s then Gt else Lt)
  end.

(** Python's [==] on scalars. *)
Definition py_eq (v w : value) : bool :=
  match v, w with
  | VNone, VNone => true
  | VStr a, VStr b => String.eqb a b
  | _, _ =>
      match number_of_value v, number_of_value w with
      | Some a, Some b =>
          match number_compare a b with
          | Some Eq => true
          | _ => false
          end
      | _, _ => false
      end
  end.

(** Python's [<] on scalars; mixed or [None] operands raise. *)
Definition py_lt (v w : value) : result bool :=
  match v, w with
  | VStr a, VStr b => Ok (String.ltb a b)
  | _, _ =>
      match number_of_value v, number_of_value w with
      | Some a, Some b =>
          Ok (match number_compare a b with
              | Some Lt => true
              | _ => false
              end)
      | _, _ => Raise TypeError
      end
  end.

(** Truth value, as [if x] takes it. *)
Definition py_truthy (v : value) : bool :=
  match v with
  | VNone => false
  | VBool b => b
  | VInt z => negb (z =? 0)
  | VFloat (S754_zero _) => false
  | VFloat _ => true
  | VStr s => negb (String.eqb s "")
  end.

(** *** [int(x)] *)

(** Whitespace of the code points below 128, as [str.isspace] and
    [str.strip] take it. *)
Definition is_py_space (a : ascii) : bool :=
  let n := N_of_ascii a in
  ((9 <=? n) && (n <=? 13) || (28 <=? n) && (n <=? 32))%N.

(** Whitespace that [int] skips around the literal in a string of code
    points below 128: tab to carriage return and the space.  The
    separators 28 to 31 are not skipped: with one of them [int]
    raises. *)
Definition is_c_space (a : ascii) : bool :=
  let n := N_of_ascii a in
  ((9 <=? n) && (n <=? 13) || (n =? 32))%N.

Definition digit_of (a : ascii) : option Z :=
  let n := N_of_ascii a in
  if ((48 <=? n) && (n <=? 57))%N then Some (Z.of_N n - 48) else None.

Fixpoint lstrip (s : string) : string :=
  match s with
  | String a rest => if is_py_space a then lstrip rest else s
  | EmptyString => s
  end.

(** [s.strip()]. *)
Definition strip (s : string) : string :=
  String.rev (lstrip (String.rev (lstrip s))).

Fixpoint int_lstrip (s : string) : string :=
  match s with
  | String a rest => if is_c_space a then int_lstrip rest else s
  | EmptyString => s
  end.

(** The text that [int] parses, its surrounding whitespace skipped. *)
Definition int_strip (s : string) : string :=
  String.rev (int_lstrip (String.rev (int_lstrip s))).

(** Digits of a decimal literal after the first one: a digit, or one
    underscore followed by a digit. *)
Fixpoint digits_from (acc : Z) (s : string) : option Z :=
  match s with
  | EmptyString => Some acc
  | String a rest =>
      match digit_of a with
      | Some d => digits_from (10 * acc + d) rest
      | None =>
          if Ascii.eqb a "_"%char then
            match rest with
            | String b rest' =>
                match digit_of b with
                | Some d => digits_from (10 * acc + d) rest'
                | None => None
                end
            | EmptyString => None
            end
          else None
      end
  end.

Definition unsigned_literal (s : string) : option Z :=
  match s with
  | String a rest =>
      match digit_of a with
      | Some d => digits_from d rest
      | None => None
      end
  | EmptyString => None
  end.

(** [int(s)] for a string of code points below 128: optional surrounding
    whitespace, an optional sign, decimal digits.  A string with other
    code points is outside the model: [int] also reads the decimal
    digits of other scripts. *)
Definition int_of_str (s : string) : option Z :=
  match int_strip s with
  | String "-"%char rest => Z.opp <$> unsigned_literal rest
  | String "+"%char rest => unsigned_literal rest
  | t => unsigned_literal t
  end.

(** Truncation towards zero of the dyadic [m * 2^e]. *)
Definition dyadic_trunc (m e : Z) : Z :=
  if 0 <=? e then m * 2 ^ e else Z.quot m (2 ^ (- e)).

Definition py_int (v : value) : result Z :=
  match v with
  | VNone => Raise TypeError
  | VBool b => Ok (if b then 1 else 0)
  | VInt z => Ok z
  | VFloat f =>
      match number_of_float f with
      | Finite m e => Ok (dyadic_trunc m e)
      | Infinite _ => Raise OverflowError
      | NotANumber => Raise ValueError
      end
  | VStr s =>
      match int_of_str s with
      | Some z => Ok z
      | None => Raise ValueError
      end
  end.

(** *** Dictionaries *)

(** [o.get(k, d)]; [o.get(k)] is [py_get o k VNone]. *)
Definition py_get (o : record) (k : string) (d : value) : value :=
  default d (o !! k).

(** [o[k]]. *)
Definition py_item (o : record) (k : string) : result value :=
  match o !! k with
  | Some v => Ok v
  | None => Raise (KeyError k)
  end.

(** ** Aggregator: order lines of one invoice and their total *)

(** [[o for o in all_orders if o.get("invoice_number") == target]]
    (lines 526 and 585). *)
Definition orders_for_invoice (all_orders : list record) (target : value)
  : list record :=
  List.filter (fun o => py_eq (py_get o "invoice_number" VNone) target) all_orders.

(** [int(o.get("quantity", 0)) * int(o.get("price", 0))]. *)
Definition line_total (o : record) : result Z :=
  q ← py_int (py_get o "quantity" (VInt 0));
  p ← py_int (py_get o "price" (VInt 0));
  Ok (q * p).

(** [sum(...)] over a generator: the accumulator starts at 0 and each
    term is computed, then added, in list order. *)
Fixpoint sum_from (acc : Z) (os : list record) : result Z :=
  match os with
  | [] => Ok acc
  | o :: rest =>
      t ← line_total o;
      sum_from (acc + t) rest
  end.

(** Line 588. *)
Definition total_sum (orders : list record) : result Z := sum_from 0 orders.

(** ** Paths *)

(** Index of the last ['.'] of a file name ([name.rfind('.')]). *)
Fixpoint rfind_dot (s : string) : option nat :=
  match s with
  | EmptyString => None
  | String a rest =>
      match rfind_dot rest with
      | Some i => Some (S i)
      | None => if Ascii.eqb a "."%char then Some 0%nat else None
      end
  end.

(** Where [pathlib] cuts a name into stem and suffix: at the last dot,
    unless that dot is the first or the last character. *)
Definition suffix_start (name : string) : option nat :=
  match rfind_dot name with
  | Some i =>
      if ((0 <? i) && (i <? String.length name - 1))%nat then Some i else None
  | None => None
  end.

(** [Path.suffix]. *)
Definition suffix (name : string) : string :=
  match suffix_start name with
  | Some i => substring i (String.length name - i) name
  | None => ""
  end.

(** [Path.stem]. *)
Definition stem (name : string) : string :=
  match suffix_start name with
  | Some i => substring 0 i name
  | None => name
  end.

(** [str.lower] on the letters A to Z; no other character lowers to a
    letter of the extensions or of the entity tokens. *)
Definition lower_char (a : ascii) : ascii :=
  let n := N_of_ascii a in
  if ((65 <=? n) && (n <=? 90))%N then ascii_of_N (n + 32) else a.

Fixpoint lower (s : string) : string :=
  match s with
  | EmptyString => EmptyString
  | String a rest => String (lower_char a) (lower rest)
  end.

(** [s.split("_")[0]]. *)
Fixpoint first_field (s : string) : string :=
  match s with
  | EmptyString => EmptyString
  | String a rest =>
      if Ascii.eqb a "_"%char then EmptyString else String a (first_field rest)
  end.

(** Line 509. *)
Definition entity_type_of (selected_data_file : string) : string :=
  lower (first_field (stem selected_data_file)).

(** [name] matches the pattern [pre*suf]. *)
Definition glob_match (pre suf name : string) : bool :=
  let n := String.length name in
  let p := String.length pre in
  let s := String.length suf in
  (p + s <=? n)%nat
  && String.eqb (substring 0 p name) pre
  && String.eqb (substring (n - s) s name) suf.

(** [sorted(directory.glob(pattern))] (lines 331 to 333), on the names of
    the entries of one directory; paths of one directory sort by name. *)
Definition list_files {A} (directory : gmap string A) (pre suf : string)
  : list string :=
  merge_sort String.le
    (List.filter (glob_match pre suf) (map_to_list directory).*1).

(** ** Collections of values *)

(** [xs[i]]. *)
Definition list_item {A} (xs : list A) (i : nat) : result A :=
  match xs !! i with
  | Some x => Ok x
  | None => Raise IndexError
  end.

(** Two values are one element of a [set]: they are equal, or both are
    the NaN object of [json]. *)
Definition same_element (v w : value) : bool :=
  py_eq v w ||
  match v, w with
  | VFloat S754_nan, VFloat S754_nan => true
  | _, _ => false
  end.

(** [set(xs)], in the order of first insertion; an element already in the
    set is not replaced. *)
Definition py_set (xs : list value) : list value :=
  fold_left
    (fun acc x => if existsb (same_element x) acc then acc else acc ++ [x])
    xs [].

Fixpoint sorted_insert (x : value) (sorted : list value) : result (list value) :=
  match sorted with
  | [] => Ok [x]
  | y :: rest =>
      b ← py_lt x y;
      if b : bool then Ok (x :: y :: rest)
      else rest' ← sorted_insert x rest; Ok (y :: rest')
  end.

(** [sorted(xs)] for values that [<] orders totally: the ascending list,
    or [TypeError] when strings and numbers are mixed.  With a NaN among
    the elements Python's result depends on the comparisons its sort
    happens to make; nothing below relies on that case. *)
Fixpoint py_sorted (xs : list value) : result (list value) :=
  match xs with
  | [] => Ok []
  | x :: rest =>
      sorted ← py_sorted rest;
      sorted_insert x sorted
  end.

(** Line 576. *)
Definition invoice_numbers_of (all_orders : list record) : result (list value) :=
  py_sorted
    (py_set
       (List.filter py_truthy
          (List.map (fun o => py_get o "invoice_number" VNone) all_orders))).

(** ** RecordLoader *)

(** A [DataFrame]: the number of rows and the columns, each a name and
    its cells, as [pd.read_csv] typed them. *)
Record DataFrame := {
  df_index : nat;
  df_data : list (string * list value)
}.

Definition df_columns (df : DataFrame) : list string := (df_data df).*1.

(** A file of the data directory, seen through the two readers of
    [load_data]: what [json.load] returns on it (an array of flat
    objects) and what [pd.read_csv] returns on it, or the class of the
    exception each raises. *)
Record file := {
  json_load : external (list record);
  read_csv : external DataFrame
}.

(** The record of row [i]; of two columns of one name the first counts. *)
Definition row_at (i : nat) (data : list (string * list value)) : record :=
  foldr
    (fun col r =>
       match col.2 !! i with
       | Some v => <[col.1 := v]> r
       | None => r
       end)
    ∅ data.

(** [df.to_dict("records")]. *)
Definition to_dict_records (df : DataFrame) : list record :=
  (fun i => row_at i (df_data df)) <$> seq 0 (df_index df).

(** [.fillna(0)]. *)
Definition fillna0 (n : number) : number :=
  match n with
  | NotANumber => Finite 0 0
  | _ => n
  end.

(** The integers that the [int] of numpy holds on every platform, where
    it has 32 or 64 bits. *)
Definition in_c_long (z : Z) : bool := (- 2 ^ 31 <=? z) && (z <? 2 ^ 31).

(** [.astype(int)] on one cell: a non-finite number makes pandas raise
    [IntCastingNaNError], a [ValueError]; a finite number is truncated
    towards zero.  When the truncation is beyond the integers that [int]
    holds on every platform, the cast does not raise and its result is
    the platform's: [beyond] stands for it. *)
Definition astype_int (beyond : Z -> Z -> Z) (n : number) : result Z :=
  match n with
  | Finite m e =>
      let z := dyadic_trunc m e in
      Ok (if in_c_long z then z else beyond m e)
  | Infinite _ | NotANumber => Raise ValueError
  end.

(** ** Vocabulary of the statements *)

(** The test of lines 526 and 585 on one record. *)
Definition matches (target : value) (o : record) : bool :=
  py_eq (py_get o "invoice_number" VNone) target.

(** A field that holds an integer; an absent field counts as the 0 that
    [o.get(k, 0)] supplies. *)
Definition integer_field (o : record) (k : string) : bool :=
  match py_get o k (VInt 0) with
  | VInt _ => true
  | _ => false
  end.

(** A field that [int] converts. *)
Definition converts (o : record) (k : string) : bool :=
  match py_int (py_get o k (VInt 0)) with
  | Ok _ => true
  | Raise _ => false
  end.

(** An order line: a record whose quantity and price are integers, or
    values that [int] converts to integers. *)
Definition order_line (o : record) : bool :=
  converts o "quantity" && converts o "price".

(** What [int] makes of a field: the field itself when it is an
    integer, the truncation of a float, and 0 where [int] raises. *)
Definition field_Z (o : record) (k : string) : Z :=
  match py_int (py_get o k (VInt 0)) with
  | Ok z => z
  | Raise _ => 0
  end.

(** The sum of [int(quantity) * int(price)] over the records of
    [all_orders] that carry the invoice number [target]. *)
Definition sigma_matching (target : value) (all_orders : list record) : Z :=
  foldr
    (fun o acc =>
       (if matches target o
        then field_Z o "quantity" * field_Z o "price"
        else 0) + acc)
    0 all_orders.

(** *** The total in the words of the specification *)

(** The sum and the product of two finite numbers, exactly. *)
Definition number_add (a b : number) : option number :=
  match a, b with
  | Finite m1 e1, Finite m2 e2 =>
      let e := Z.min e1 e2 in
      Some (Finite (m1 * 2 ^ (e1 - e) + m2 * 2 ^ (e2 - e)) e)
  | _, _ => None
  end.

Definition number_mul (a b : number) : option number :=
  match a, b with
  | Finite m1 e1, Finite m2 e2 => Some (Finite (m1 * m2) (e1 + e2))
  | _, _ => None
  end.

(** The number that a field of a record holds, when it holds one. *)
Definition number_field (o : record) (k : string) : option number :=
  match o !! k with
  | Some v => number_of_value v
  | None => None
  end.

(** Quantity times price of one record, as the number it is. *)
Definition quantity_times_price (o : record) : option number :=
  match number_field o "quantity", number_field o "price" with
  | Some q, Some p => number_mul q p
  | _, _ => None
  end.

(** Σ(quantity × price) over the records of [all_orders] whose invoice
    number equals [target]: defined when each of these records holds
    finite numbers as its quantity and its price. *)
Fixpoint sigma_quantity_price (target : value) (all_orders : list record)
  : option number :=
  match all_orders with
  | [] => Some (Finite 0 0)
  | o :: rest =>
      if matches target o then
        match quantity_times_price o, sigma_quantity_price target rest with
        | Some x, Some acc => number_add x acc
        | _, _ => None
        end
      else sigma_quantity_price target rest
  end.

(** A record whose quantity and price are both integers. *)
Definition integer_line (o : record) : bool :=
  match o !! "quantity", o !! "price" with
  | Some (VInt _), Some (VInt _) => true
  | _, _ => false
  end.

(** Two values of one Python type ([bool] apart from [int]). *)
Definition same_type (v w : value) : bool :=
  match v, w with
  | VNone, VNone | VBool _, VBool _ | VInt _, VInt _
  | VFloat _, VFloat _ | VStr _, VStr _ => true
  | _, _ => false
  end.

Definition is_number (v : value) : bool :=
  match v with
  | VBool _ | VInt _ | VFloat _ => true
  | VNone | VStr _ => false
  end.

Definition is_integer (v : value) : bool :=
  match v with
  | VInt _ => true
  | _ => false
  end.

Definition non_negative_integer (v : value) : bool :=
  match v with
  | VInt z => 0 <=? z
  | _ => false
  end.

(** The three columns that lines 344 to 349 coerce. *)
Definition coerced_fields : list string := ["quantity"; "price"; "invoice_number"].

(** ** Template contexts and the directories *)

(** The three dictionaries passed to [generate_pdf] (lines 536, 559 and
    596), one constructor per shape, the arguments in the order of the
    keys. *)
Inductive context :=
| InvoiceContext (invoice : record) (orders : list record)
| ProductsContext (products : list record)
| OrderContext (invoice_number : value) (orders : list record) (total : Z).

(** [DATA_DIR], [TEMPLATES_DIR] (name to text) and [OUTPUT_DIR] (name to
    the bytes written). *)
Record world := {
  data_dir : gmap string file;
  templates_dir : gmap string string;
  output_dir : gmap string string
}.

(** ** The interactive layer, by what it returns *)

(** [display_menu] returns an index within range or raises
    [ExitCommand]; an answer out of range is asked again, so the session
    it stands for can only end by the exit command. *)
Inductive answer :=
| Exit
| Choose (i : nat).

Definition display_menu (n : nat) (a : answer) : result nat :=
  match a with
  | Exit => Raise ExitCommand
  | Choose i => if (i <? n)%nat then Ok i else Raise ExitCommand
  end.

(** [display_multi_select_menu]: ["all"], or a non-empty list of indices
    that are all within range. *)
Inductive multi_answer :=
| ExitMulti
| ChooseAll
| ChooseSome (indices : list nat).

Definition display_multi_select_menu (n : nat) (a : multi_answer)
  : result (list nat) :=
  match a with
  | ExitMulti => Raise ExitCommand
  | ChooseAll => Ok (seq 0 n)
  | ChooseSome indices =>
      if negb (Nat.eqb (length indices) 0)
         && forallb (fun i => (i <? n)%nat) indices
      then Ok indices
      else Raise ExitCommand
  end.

(** The answers given during one run of [process_document]. *)
Record answers := {
  data_file_answer : answer;
  template_answer : answer;
  invoice_answer : answer;
  products_answer : multi_answer
}.

(** How [process_document] ends: [return True], [return False] after one
    of its error messages, or an exception that leaves it. *)
Inductive failure :=
| NoDataFiles
| NoTemplates
| LoadFailed (e : exn)
| NoOrderFiles
| UnknownEntity (entity_type : string).

Inductive outcome :=
| ReturnTrue
| ReturnFalse (why : failure)
| Raised (e : exn).

(** ** Vocabulary of the further properties *)

(** A string in which the character [c] does not occur. *)
Fixpoint char_free (c : ascii) (s : string) : bool :=
  match s with
  | EmptyString => true
  | String a rest => negb (Ascii.eqb a c) && char_free c rest
  end.

(** The exceptions that the bounds checks of the menus and the tests on
    the extension keep inside [process_document]. *)
Definition kept_inside (e : exn) : bool :=
  match e with
  | IndexError | UnsupportedFormat _ => true
  | _ => false
  end.

Definition is_text (v : value) : bool :=
  match v with
  | VStr _ => true
  | _ => false
  end.

(** The invoice number that line 576 reads in a record. *)
Definition invoice_number_of (o : record) : value :=
  py_get o "invoice_number" VNone.

(** Insertion of an integer into an ascending list, and the sort it
    gives: what [sorted] returns on integers. *)
Fixpoint insert_Z (x : Z) (sorted : list Z) : list Z :=
  match sorted with
  | [] => [x]
  | y :: rest => if x <? y then x :: y :: rest else y :: insert_Z x rest
  end.

Definition sort_Z (zs : list Z) : list Z := foldr insert_Z [] zs.

(** ** The prompts, line by line *)

(** One call of [input]: it returns a line, or the user interrupts it
    ([KeyboardInterrupt]); on an exhausted input it raises [EOFError].
    A line is the UTF-8 text that was typed; what the prompts print is
    left out. *)
Inductive event :=
| Line (s : string)
| Interrupt.

(** The lines on which the prompts are modelled: at most 4300 bytes, of
    code points below 128 and the lower-case Cyrillic letters а to я
    (the bytes 208 176 to 208 191 and 209 128 to 209 143).  On such a
    line [strip], [lower], [split] and [==] act as on its bytes, the
    Cyrillic letters being lower-case already and neither whitespace
    nor digits, and [int] stays below its limit of digits.  Capital
    Cyrillic letters, digits of other scripts and other whitespace are
    left out. *)
Fixpoint covered_text (s : string) : bool :=
  match s with
  | EmptyString => true
  | String a rest =>
      let n := N_of_ascii a in
      if (n <? 128)%N then covered_text rest
      else
        match rest with
        | String b rest' =>
            let k := N_of_ascii b in
            ((n =? 208) && (176 <=? k) && (k <=? 191)
             || (n =? 209) && (128 <=? k) && (k <=? 143))%N
            && covered_text rest'
        | EmptyString => false
        end
  end.

Definition covered (s : string) : bool :=
  (String.length s <=? 4300)%nat && covered_text s.

(** How a prompt ends: it returns a value and leaves the rest of the
    input, it raises [ExitCommand], it calls [sys.exit(0)], or [input]
    raises [EOFError], which no prompt catches.  [Beyond] stands for a
    line that is not covered: the model says nothing of the prompt
    from there on. *)
Inductive prompt (A : Type) :=
| Answered (a : A) (rest : list event)
| ExitRaised (rest : list event)
| SystemExit
| EndOfInput
| Beyond.

Arguments Answered {A} a rest.
Arguments ExitRaised {A} rest.
Arguments SystemExit {A}.
Arguments EndOfInput {A}.
Arguments Beyond {A}.

(** [s.split(sep)] for a separator of one character. *)
Fixpoint split_on (sep : ascii) (s : string) : list string :=
  match s with
  | EmptyString => [EmptyString]
  | String a rest =>
      if Ascii.eqb a sep then EmptyString :: split_on sep rest
      else
        match split_on sep rest with
        | field :: fields => String a field :: fields
        | [] => [String a EmptyString]
        end
  end.

Definition exit_words : list string := ["exit"; "quit"; "q"; "выход"; "в"].
Definition yes_words : list string := ["да"; "д"; "yes"; "y"].
Definition no_words : list string := ["нет"; "н"; "no"; "n"].

(** [choice in words]. *)
Definition among (words : list string) (choice : string) : bool :=
  existsb (String.eqb choice) words.

(** [0 <= index < len(items)]. *)
Definition within (n : nat) (index : Z) : bool :=
  (0 <=? index) && (index <? Z.of_nat n).

Module Console.

(** Lines 367 to 384: the loop of [display_menu] over the lines typed. *)
Fixpoint display_menu (n : nat) (input : list event) : prompt nat :=
  match input with
  | [] => EndOfInput
  | Interrupt :: _ => SystemExit
  | Line s :: rest =>
      if negb (covered s) then Beyond else
      let choice := lower (strip s) in
      if among exit_words choice then ExitRaised rest
      else
        match int_of_str choice with
        | Some number =>
            let index := number - 1 in
            if within n index then Answered (Z.to_nat index) rest
            else display_menu n rest
        | None => display_menu n rest
        end
  end.

(** Lines 401 to 420: the loop of [display_multi_select_menu]. *)
Fixpoint display_multi_select_menu (n : nat) (input : list event)
  : prompt (list nat) :=
  match input with
  | [] => EndOfInput
  | Interrupt :: _ => SystemExit
  | Line s :: rest =>
      if negb (covered s) then Beyond else
      let choice := lower (strip s) in
      if among exit_words choice then ExitRaised rest
      else if String.eqb choice "all" then Answered (seq 0 n) rest
      else
        match mapM (fun x => int_of_str (strip x)) (split_on "," choice) with
        | Some numbers =>
            let indices := (fun number => number - 1) <$> numbers in
            if forallb (within n) indices
            then Answered (Z.to_nat <$> indices) rest
            else display_multi_select_menu n rest
        | None => display_multi_select_menu n rest
        end
  end.

(** Lines 423 to 440: [ask_continue]; an interruption counts as a no. *)
Fixpoint ask_continue (input : list event) : prompt bool :=
  match input with
  | [] => EndOfInput
  | Interrupt :: rest => Answered false rest
  | Line s :: rest =>
      if negb (covered s) then Beyond else
      let choice := lower (strip s) in
      if among exit_words choice then ExitRaised rest
      else if among yes_words choice then Answered true rest
      else if among no_words choice then Answered false rest
      else ask_continue rest
  end.

End Console.


(** ** Sample inputs *)

Module Sample.

(** A reader of text cells that knows plain decimal integers. *)
Definition text_numeric (s : string) : number :=
  match int_of_str s with
  | Some z => Finite z 0
  | None => NotANumber
  end.

(** The conversion of x86-64 beyond the range: the least integer of 64
    bits. *)
Definition int_cast (m e : Z) : Z := - 2 ^ 63.

(** 3.0 as a binary64 float, and a [repr] that knows it. *)
Definition float_3 : spec_float := S754_finite false 6755399441055744 (-51).

Definition float_repr (f : spec_float) : string :=
  match f with
  | S754_finite false 6755399441055744 (-51) => "3.0"
  | _ => "nan"
  end.

(** A renderer that shows the template text and what it was given. *)
Definition render (content : string) (data : context) : external string :=
  Returned
    (content +:+
     match data with
     | InvoiceContext _ orders => " orders=" +:+ pretty (length orders)
     | ProductsContext products => " products=" +:+ pretty (length products)
     | OrderContext _ orders total =>
         " orders=" +:+ pretty (length orders) +:+ " total=" +:+ pretty total
     end).

Definition a_json_file (records : list record) : file :=
  {| json_load := Returned records; read_csv := Failed "ParserError" |}.

Definition a_csv_file (df : DataFrame) : file :=
  {| json_load := Failed "JSONDecodeError"; read_csv := Returned df |}.

Definition answer_of (data_file template invoice : nat) (products : multi_answer)
  : answers :=
  {| data_file_answer := Choose data_file;
     template_answer := Choose template;
     invoice_answer := Choose invoice;
     products_answer := products |}.

(** The first entry of every menu. *)
Definition first_choices : answers := answer_of 0 0 0 ExitMulti.

(** Scenario A of the specification. *)
Definition line_1 : record :=
  {[ "id" := VInt 1; "product" := VStr "X"; "invoice_number" := VInt 3;
     "quantity" := VInt 2; "price" := VInt 7000 ]}.
Definition line_2 : record :=
  {[ "id" := VInt 2; "product" := VStr "Y"; "invoice_number" := VInt 3;
     "quantity" := VInt 1; "price" := VInt 1500 ]}.
Definition scenario_A : list record := [line_1; line_2].

(** Scenario B: one invoice file and no order file. *)
Definition invoice_4 : record := {[ "id" := VInt 4; "total" := VInt 6000 ]}.
Definition scenario_B : world :=
  {| data_dir := {[ "invoice_1.json" := a_json_file [invoice_4] ]};
     templates_dir := {[ "invoice_template.html" := "<invoice>" ]};
     output_dir := ∅ |}.

(** Scenario C: five catalog items. *)
Definition item (id : Z) (name : string) : record :=
  {[ "id" := VInt id; "name" := VStr name ]}.
Definition five_items : list record :=
  [item 1 "a"; item 2 "b"; item 3 "c"; item 4 "d"; item 5 "e"].
Definition scenario_C : world :=
  {| data_dir := {[ "product_1.json" := a_json_file five_items ]};
     templates_dir := {[ "product_template.html" := "<products>" ]};
     output_dir := ∅ |}.

(** An order file in CSV form whose first quantity is not numeric. *)
Definition orders_frame : DataFrame :=
  {| df_index := 2;
     df_data :=
       [("id", [VInt 1; VInt 2]);
        ("product_name", [VStr "X"; VStr "Y"]);
        ("invoice_number", [VInt 3; VInt 3]);
        ("quantity", [VStr "abc"; VStr "2"]);
        ("price", [VInt 7000; VInt 1500])] |}.

(** An order file in CSV form with a negative quantity. *)
Definition negative_frame : DataFrame :=
  {| df_index := 1;
     df_data :=
       [("id", [VInt 1]); ("invoice_number", [VInt 3]);
        ("quantity", [VInt (-5)]); ("price", [VInt 100])] |}.

(** An order file in JSON form whose quantity is not numeric. *)
Definition text_quantity : record :=
  {[ "id" := VInt 1; "invoice_number" := VInt 3;
     "quantity" := VStr "abc"; "price" := VInt 100 ]}.

Definition loader_dir : gmap string file :=
  {[ "order_1.csv" := a_csv_file orders_frame;
     "order_2.csv" := a_csv_file negative_frame;
     "order_3.json" := a_json_file [text_quantity];
     "notes.txt" := a_json_file [] ]}.

(** Only a JSON order file, with a quantity that is not numeric. *)
Definition json_orders : world :=
  {| data_dir := {[ "order_1.json" := a_json_file [text_quantity] ]};
     templates_dir := {[ "order_template.html" := "<order>" ]};
     output_dir := ∅ |}.

(** Two order files: the selected one is not the one that is read. *)
Definition other_line : record :=
  {[ "id" := VInt 9; "invoice_number" := VInt 8;
     "quantity" := VInt 1; "price" := VInt 10 ]}.
Definition two_order_files : world :=
  {| data_dir :=
       {[ "order_b.csv" := a_csv_file orders_frame;
          "order_a.json" := a_json_file [other_line] ]};
     templates_dir := {[ "order_template.html" := "<order>" ]};
     output_dir := ∅ |}.

(** A file that is no entity of the system. *)
Definition widget_world : world :=
  {| data_dir := {[ "widget_1.json" := a_json_file [invoice_4] ]};
     templates_dir := {[ "invoice_template.html" := "<invoice>" ]};
     output_dir := ∅ |}.

(** An order line whose quantity is the float 2.5. *)
Definition float_2_5 : spec_float := S754_finite false 5629499534213120 (-51).
Definition half_line : record :=
  {[ "id" := VInt 1; "invoice_number" := VInt 3;
     "quantity" := VFloat float_2_5; "price" := VInt 3 ]}.

(** An order line whose invoice number is the float 3.0, and one whose
    invoice number is the text "3". *)
Definition float_line : record :=
  {[ "id" := VInt 1; "invoice_number" := VFloat float_3;
     "quantity" := VInt 1; "price" := VInt 10 ]}.
Definition text_line : record :=
  {[ "id" := VInt 2; "invoice_number" := VStr "3";
     "quantity" := VInt 1; "price" := VInt 10 ]}.

(** An invoice file whose second record has no [id]. *)
Definition no_id : record := {[ "total" := VInt 6000 ]}.
Definition missing_id : world :=
  {| data_dir := {[ "invoice_1.json" := a_json_file [invoice_4; no_id] ]};
     templates_dir := {[ "invoice_template.html" := "<invoice>" ]};
     output_dir := ∅ |}.

(** What a user types at a menu of three entries, and at a menu of five
    where several entries can be chosen. *)
Definition typed_at_menu : list event :=
  [Line "abc"; Line "7"; Line " 2 "; Line "q"].
Definition typed_at_multi_menu : list event :=
  [Line "1,,2"; Line "0,1"; Line "1, 3 ,3"; Line "all"].

End Sample.

Section Pipeline.

(** What [pd.to_numeric] reads in a text cell; [NotANumber] when the
    text is not numeric ([errors="coerce"]). *)
Variable text_to_numeric : string -> number.

(** What the cast of [astype(int)] gives for the number [m * 2^e] when
    its truncation is beyond the 32 bits that every [int] of numpy has:
    the truncation itself where [int] is wide enough for it, and past
    that a value that numpy leaves to the platform. *)
Variable int_cast : Z -> Z -> Z.

(** [repr] of a float, as an f-string formats it. *)
Variable float_repr : spec_float -> string.

(** Jinja rendering of a template text with a context, followed by the
    conversion of the markup to PDF: the bytes, or the exception. *)
Variable render_pdf : string -> context -> external string.

(** *** [load_data] *)

(** [pd.to_numeric(..., errors="coerce")] on one cell. *)
Definition to_numeric (v : value) : number :=
  match v with
  | VStr s => text_to_numeric s
  | VNone => NotANumber
  | VBool b => Finite (if b then 1 else 0) 0
  | VInt z => Finite z 0
  | VFloat f => number_of_float f
  end.

(** [pd.to_numeric(cell, errors="coerce").fillna(0).astype(int)]. *)
Definition coerce_cell (v : value) : result value :=
  z ← astype_int int_cast (fillna0 (to_numeric v));
  Ok (VInt z).

(** How a loaded field relates to the cell that [pd.read_csv] gave. *)
Definition coerced (raw loaded : option value) : Prop :=
  match raw with
  | Some v =>
      ∃ z, astype_int int_cast (fillna0 (to_numeric v)) = Ok z
           ∧ loaded = Some (VInt z)
  | None => loaded = None
  end.

(** A cell that [.astype(int)] accepts: not an infinity. *)
Definition castable (v : value) : Prop := ∀ s, to_numeric v ≠ Infinite s.

(** The cells of a column named [c] are coerced; another column is
    left as it is. *)
Definition coerce_if_named (c : string) (col : string * list value)
  : result (string * list value) :=
  if String.eqb col.1 c then
    cells ← comprehension coerce_cell col.2;
    Ok (col.1, cells)
  else Ok col.

(** Lines 344 to 349, for one column name: the column is replaced by
    its coerced cells when the frame has it. *)
Definition coerce_column (c : string) (df : DataFrame) : result DataFrame :=
  if bool_decide (c ∈ df_columns df) then
    data ← comprehension (coerce_if_named c) (df_data df);
    Ok {| df_index := df_index df; df_data := data |}
  else Ok df.

(** The [.csv] branch after [pd.read_csv] (lines 343 to 350). *)
Definition load_csv (df : DataFrame) : result (list record) :=
  df ← coerce_column "quantity" df;
  df ← coerce_column "price" df;
  df ← coerce_column "invoice_number" df;
  Ok (to_dict_records df).

(** [open(file_path)]. *)
Definition open_file (directory : gmap string file) (name : string) : result file :=
  match directory !! name with
  | Some f => Ok f
  | None => Raise (External "FileNotFoundError")
  end.

(** Lines 336 to 352. *)
Definition load_data (directory : gmap string file) (file_path : string)
  : result (list record) :=
  if String.eqb (lower (suffix file_path)) ".json" then
    f ← open_file directory file_path;
    call (json_load f)
  else if String.eqb (lower (suffix file_path)) ".csv" then
    f ← open_file directory file_path;
    df ← call (read_csv f);
    load_csv df
  else Raise (UnsupportedFormat (suffix file_path)).

(** *** [generate_pdf] *)

(** [str(v)], as an f-string formats a value. *)
Definition py_str (v : value) : string :=
  match v with
  | VNone => "None"
  | VBool b => if b then "True" else "False"
  | VInt z => pretty z
  | VFloat f => float_repr f
  | VStr s => s
  end.

(** Lines 459 to 471: the template is read and rendered, and the PDF is
    written under [output_name], over whatever was there. *)
Definition generate_pdf (template_path : string) (data : context)
    (output_name : string) (w : world) : result world :=
  template_content ←
    match templates_dir w !! template_path with
    | Some t => Ok t
    | None => Raise (External "FileNotFoundError")
    end;
  pdf ← call (render_pdf template_content data);
  Ok {| data_dir := data_dir w;
        templates_dir := templates_dir w;
        output_dir := <[output_name := pdf]> (output_dir w) |}.

(** *** [process_document] *)

(** Lines 520 and 568. *)
Definition order_files_of (w : world) : list string :=
  list_files (data_dir w) "order_" ".csv"
  ++ list_files (data_dir w) "order_" ".json".

(** Lines 531, 551 to 554 and 591. *)
Definition invoice_filename (id : value) : string :=
  "invoice_" +:+ py_str id +:+ ".pdf".

Definition product_filename (selected_products : list record) : result string :=
  match selected_products with
  | [p] => id ← py_item p "id"; Ok ("product_" +:+ py_str id +:+ ".pdf")
  | _ => Ok ("products_" +:+ pretty (length selected_products) +:+ ".pdf")
  end.

Definition order_filename (selected_invoice_number : value) : string :=
  "order_invoice_" +:+ py_str selected_invoice_number +:+ ".pdf".

(** The [try] block of lines 523 to 528: any exception leaves
    [orders] empty. *)
Definition related_orders (w : world) (selected_invoice : record) : list record :=
  match order_files_of w with
  | [] => []
  | first :: _ =>
      match
        all_orders ← load_data (data_dir w) first;
        id ← py_item selected_invoice "id";
        Ok (orders_for_invoice all_orders id)
      with
      | Ok orders => orders
      | Raise _ => []
      end
  end.

(** Lines 514 to 538. *)
Definition process_invoice (w : world) (selected_template : string)
    (all_data : list record) (ans : answers) : result world :=
  invoice_ids ← comprehension (fun item => py_item item "id") all_data;
  invoice_index ← display_menu (length invoice_ids) (invoice_answer ans);
  selected_invoice ← list_item all_data invoice_index;
  let orders := related_orders w selected_invoice in
  id ← py_item selected_invoice "id";
  generate_pdf selected_template
    (InvoiceContext selected_invoice orders) (invoice_filename id) w.

(** Lines 545 to 561. *)
Definition process_product (w : world) (selected_template : string)
    (all_data : list record) (ans : answers) : result world :=
  product_list ← comprehension
    (fun item =>
       id ← py_item item "id";
       name ← py_item item "name";
       Ok (py_str id +:+ " - " +:+ py_str name))
    all_data;
  selected_indices ←
    display_multi_select_menu (length product_list) (products_answer ans);
  selected_products ← comprehension (list_item all_data) selected_indices;
  output_filename ← product_filename selected_products;
  generate_pdf selected_template
    (ProductsContext selected_products) output_filename w.

(** Lines 573 to 598, once an order file is found. *)
Definition process_order (w : world) (selected_template : string)
    (first_order_file : string) (ans : answers) : result world :=
  all_orders ← load_data (data_dir w) first_order_file;
  invoice_numbers ← invoice_numbers_of all_orders;
  invoice_index ← display_menu (length invoice_numbers) (invoice_answer ans);
  selected_invoice_number ← list_item invoice_numbers invoice_index;
  let orders_for := orders_for_invoice all_orders selected_invoice_number in
  total ← total_sum orders_for;
  generate_pdf selected_template
    (OrderContext selected_invoice_number orders_for total)
    (order_filename selected_invoice_number) w.

(** A branch that ran to its end returns [True]; an exception leaves
    [process_document], the directories as they were. *)
Definition finish (w : world) (r : result world) : outcome * world :=
  match r with
  | Ok w' => (ReturnTrue, w')
  | Raise e => (Raised e, w)
  end.

(** Lines 490 to 495: the two menus over the sorted listings. *)
Definition choose_files (w : world) (ans : answers) : result (string * string) :=
  let data_files := list_files (data_dir w) "" "" in
  let template_files := list_files (templates_dir w) "" ".html" in
  data_file_index ← display_menu (length data_files) (data_file_answer ans);
  selected_data_file ← list_item data_files data_file_index;
  template_index ← display_menu (length template_files) (template_answer ans);
  selected_template ← list_item template_files template_index;
  Ok (selected_data_file, selected_template).

(** Lines 474 to 609. *)
Definition process_document (w : world) (ans : answers) : outcome * world :=
  match list_files (data_dir w) "" "" with
  | [] => (ReturnFalse NoDataFiles, w)
  | _ :: _ =>
  match list_files (templates_dir w) "" ".html" with
  | [] => (ReturnFalse NoTemplates, w)
  | _ :: _ =>
  match choose_files w ans with
  | Raise e => (Raised e, w)
  | Ok (selected_data_file, selected_template) =>
  match load_data (data_dir w) selected_data_file with
  | Raise e => (ReturnFalse (LoadFailed e), w)
  | Ok all_data =>
      let entity_type := entity_type_of selected_data_file in
      if String.eqb entity_type "invoice" then
        finish w (process_invoice w selected_template all_data ans)
      else if String.eqb entity_type "product" then
        finish w (process_product w selected_template all_data ans)
      else if String.eqb entity_type "order" then
        match order_files_of w with
        | [] => (ReturnFalse NoOrderFiles, w)
        | first :: _ => finish w (process_order w selected_template first ans)
        end
      else (ReturnFalse (UnknownEntity entity_type), w)
  end end end end.

(** ** The session *)


(** ** Properties of the aggregator *)

Lemma orders_for_invoice_cons (o : record) (rest : list record) (target : value) :
  orders_for_invoice (o :: rest) target =
  if matches target o
  then o :: orders_for_invoice rest target
  else orders_for_invoice rest target.
Proof. reflexivity. Qed.

Lemma elem_of_orders_for_invoice (all_orders : list record) (target : value)
    (o : record) :
  o ∈ orders_for_invoice all_orders target ↔
  o ∈ all_orders ∧ matches target o = true.
Proof.
  unfold orders_for_invoice, matches.
  rewrite !list_elem_of_In, filter_In. reflexivity.
Qed.

Lemma orders_for_invoice_sublist (all_orders : list record) (target : value) :
  orders_for_invoice all_orders target `sublist_of` all_orders.
Proof.
  induction all_orders as [|o rest IH]; [constructor|].
  rewrite orders_for_invoice_cons.
  destruct (matches target o); by constructor.
Qed.

Lemma orders_for_invoice_greatest (all_orders l : list record) (target : value) :
  l `sublist_of` all_orders →
  Forall (fun o => matches target o = true) l →
  l `sublist_of` orders_for_invoice all_orders target.
Proof.
  intros Hsub. induction Hsub as [|o l1 l2 _ IH|o l1 l2 _ IH]; intros Hall.
  - constructor.
  - apply Forall_cons in Hall as [Ho Hl].
    rewrite orders_for_invoice_cons, Ho. constructor. by apply IH.
  - rewrite orders_for_invoice_cons.
    destruct (matches target o); [constructor|]; by apply IH.
Qed.

Lemma orders_for_invoice_idem (all_orders : list record) (target : value) :
  orders_for_invoice (orders_for_invoice all_orders target) target =
  orders_for_invoice all_orders target.
Proof.
  induction all_orders as [|o rest IH]; [done|].
  rewrite orders_for_invoice_cons.
  destruct (matches target o) eqn:Ho; [|done].
  by rewrite orders_for_invoice_cons, Ho, IH.
Qed.

Lemma orders_for_invoice_Permutation (l1 l2 : list record) (target : value) :
  l1 ≡ₚ l2 → orders_for_invoice l1 target ≡ₚ orders_for_invoice l2 target.
Proof.
  induction 1 as [|o l1 l2 _ IH|o1 o2 l|l1 l2 l3 _ IH1 _ IH2].
  - done.
  - rewrite !orders_for_invoice_cons. destruct (matches target o); by rewrite IH.
  - rewrite !orders_for_invoice_cons.
    destruct (matches target o1), (matches target o2); try done. apply perm_swap.
  - by etrans.
Qed.

Lemma sigma_matching_Permutation (l1 l2 : list record) (target : value) :
  l1 ≡ₚ l2 → sigma_matching target l1 = sigma_matching target l2.
Proof.
  induction 1 as [|o l1 l2 _ IH|o1 o2 l|l1 l2 l3 _ IH1 _ IH2]; simpl; lia.
Qed.

Lemma integer_field_converts (o : record) (k : string) :
  integer_field o k = true → converts o k = true.
Proof.
  unfold integer_field, converts. by destruct (py_get o k (VInt 0)).
Qed.

Lemma field_Z_integer (o : record) (k : string) (z : Z) :
  o !! k = Some (VInt z) → field_Z o k = z.
Proof. unfold field_Z, py_get. by intros ->. Qed.

Lemma field_Z_absent (o : record) (k : string) :
  o !! k = None → field_Z o k = 0.
Proof. unfold field_Z, py_get. by intros ->. Qed.

Lemma line_total_order_line (o : record) :
  order_line o = true →
  line_total o = Ok (field_Z o "quantity" * field_Z o "price").
Proof.
  unfold order_line, converts, line_total, field_Z.
  intros [Hq Hp]%andb_prop.
  destruct (py_int (py_get o "quantity" (VInt 0))); [|done].
  destruct (py_int (py_get o "price" (VInt 0))); done.
Qed.

Lemma orders_for_invoice_no_match (all_orders : list record) (target : value) :
  (∀ o, o ∈ all_orders → matches target o = false) →
  orders_for_invoice all_orders target = [].
Proof.
  intros Hnone.
  destruct (orders_for_invoice all_orders target) as [|o l] eqn:Hres; [done|].
  assert (o ∈ orders_for_invoice all_orders target) as Ho
    by (rewrite Hres; left).
  apply elem_of_orders_for_invoice in Ho as [Hin Hm].
  by rewrite (Hnone o Hin) in Hm.
Qed.

Lemma sigma_matching_cons (target : value) (o : record) (rest : list record) :
  sigma_matching target (o :: rest) =
  (if matches target o then field_Z o "quantity" * field_Z o "price" else 0)
  + sigma_matching target rest.
Proof. reflexivity. Qed.

Lemma sum_from_cons (acc : Z) (o : record) (rest : list record) :
  sum_from acc (o :: rest) = t ← line_total o; sum_from (acc + t) rest.
Proof. reflexivity. Qed.

Lemma sum_from_order_lines (orders : list record) (target : value) (acc : Z) :
  forallb order_line (orders_for_invoice orders target) = true →
  sum_from acc (orders_for_invoice orders target) =
  Ok (acc + sigma_matching target orders).
Proof.
  revert acc. induction orders as [|o rest IH]; intros acc Hall.
  - simpl. f_equal. lia.
  - rewrite orders_for_invoice_cons in *. rewrite sigma_matching_cons.
    destruct (matches target o) eqn:Ho.
    + cbn [forallb] in Hall. apply andb_prop in Hall as [Hline Hall].
      rewrite sum_from_cons, line_total_order_line by done.
      cbn [mbind result_bind]. rewrite IH by done. f_equal; lia.
    + rewrite IH by done. f_equal; lia.
Qed.

(** C2: for every list of order records and every target identifier,
    the filter of lines 526 and 585 returns exactly the records whose
    [invoice_number] equals the target: a record is in the result when
    and only when it is in the source and matches; the result is a
    sub-list of the source, so the relative source order is kept, and
    it is the greatest sub-list of matching records, so none is left
    out; with no match the result is the empty list (the function is
    total: there is no error to return). *)
Theorem orders_for_invoice_exact (all_orders : list record) (target : value) :
  (∀ o, o ∈ orders_for_invoice all_orders target ↔
        o ∈ all_orders ∧ py_eq (py_get o "invoice_number" VNone) target = true)
  ∧ orders_for_invoice all_orders target `sublist_of` all_orders
  ∧ (∀ l, l `sublist_of` all_orders →
          Forall (fun o => py_eq (py_get o "invoice_number" VNone) target = true) l →
          l `sublist_of` orders_for_invoice all_orders target)
  ∧ ((∀ o, o ∈ all_orders →
           py_eq (py_get o "invoice_number" VNone) target = false) →
     orders_for_invoice all_orders target = []).
Proof.
  split_and!.
  - intros o. apply elem_of_orders_for_invoice.
  - apply orders_for_invoice_sublist.
  - intros l. apply orders_for_invoice_greatest.
  - apply orders_for_invoice_no_match.
Qed.

Lemma integer_line_fields (o : record) :
  integer_line o = true →
  ∃ q p, o !! "quantity" = Some (VInt q) ∧ o !! "price" = Some (VInt p).
Proof.
  unfold integer_line.
  destruct (o !! "quantity") as [[| |q| |]|]; try done.
  destruct (o !! "price") as [[| |p| |]|]; try done. eauto.
Qed.

Lemma integer_line_order_line (o : record) :
  integer_line o = true → order_line o = true.
Proof.
  intros (q & p & Hq & Hp)%integer_line_fields.
  unfold order_line, converts, py_get. by rewrite Hq, Hp.
Qed.

Lemma integer_line_product (o : record) :
  integer_line o = true →
  quantity_times_price o
  = Some (Finite (field_Z o "quantity" * field_Z o "price") 0).
Proof.
  intros (q & p & Hq & Hp)%integer_line_fields.
  unfold quantity_times_price, number_field.
  rewrite (field_Z_integer _ _ _ Hq), (field_Z_integer _ _ _ Hp).
  by rewrite Hq, Hp.
Qed.

Lemma number_add_integers (a b : Z) :
  number_add (Finite a 0) (Finite b 0) = Some (Finite (a + b) 0).
Proof. unfold number_add. cbn. by rewrite !Z.mul_1_r. Qed.

Lemma sigma_quantity_price_integers (orders : list record) (target : value) :
  forallb integer_line (orders_for_invoice orders target) = true →
  sigma_quantity_price target orders
  = Some (Finite (sigma_matching target orders) 0).
Proof.
  induction orders as [|o rest IH]; intros Hall; [done|].
  rewrite orders_for_invoice_cons in Hall. rewrite sigma_matching_cons.
  cbn [sigma_quantity_price]. destruct (matches target o).
  - cbn [forallb] in Hall. apply andb_prop in Hall as [Hline Hall].
    rewrite (integer_line_product o Hline), (IH Hall).
    apply number_add_integers.
  - rewrite (IH Hall). by rewrite Z.add_0_l.
Qed.

Lemma integer_lines_order_lines (orders : list record) :
  forallb integer_line orders = true → forallb order_line orders = true.
Proof.
  rewrite !forallb_forall. intros Hall o Ho.
  by apply integer_line_order_line, Hall.
Qed.

(** C1, amended: in the OrderLine path, for every list of order records
    and every selected invoice identifier such that the records whose
    [invoice_number] equals the identifier hold integers as quantity
    and price, the total of line 588 is computed and is Σ(quantity ×
    price) over exactly those records, in exact integer arithmetic; a
    permutation of the records gives the same total, and so does
    computing it again on the filtered records. *)
Theorem total_sum_exact (all_orders : list record) (selected : value)
    (Hlines : forallb integer_line (orders_for_invoice all_orders selected) = true) :
  ∃ total,
    total_sum (orders_for_invoice all_orders selected) = Ok total
    ∧ sigma_quantity_price selected all_orders = Some (Finite total 0)
    ∧ (∀ all_orders', all_orders ≡ₚ all_orders' →
         total_sum (orders_for_invoice all_orders' selected) = Ok total
         ∧ sigma_quantity_price selected all_orders' = Some (Finite total 0))
    ∧ total_sum
        (orders_for_invoice (orders_for_invoice all_orders selected) selected)
      = Ok total.
Proof.
  exists (sigma_matching selected all_orders).
  assert (total_sum (orders_for_invoice all_orders selected) =
          Ok (sigma_matching selected all_orders)) as Htotal.
  { unfold total_sum.
    by rewrite sum_from_order_lines by by apply integer_lines_order_lines. }
  split_and!.
  - done.
  - by apply sigma_quantity_price_integers.
  - intros all_orders' Hperm.
    assert (forallb integer_line (orders_for_invoice all_orders' selected)
            = true) as Hlines'.
    { apply forallb_forall. intros o Ho.
      apply (proj1 (forallb_forall _ _) Hlines).
      apply list_elem_of_In. apply list_elem_of_In in Ho.
      by rewrite (orders_for_invoice_Permutation _ _ selected Hperm). }
    rewrite (sigma_matching_Permutation _ _ selected Hperm). split.
    + unfold total_sum.
      by rewrite sum_from_order_lines by by apply integer_lines_order_lines.
    + by apply sigma_quantity_price_integers.
  - by rewrite orders_for_invoice_idem.
Qed.

(** ** Properties of the loader *)

Lemma comprehension_lookup {A B} (f : A → result B) (xs : list A) (ys : list B) :
  comprehension f xs = Ok ys →
  ∀ i, match xs !! i with
       | Some x => ∃ y, f x = Ok y ∧ ys !! i = Some y
       | None => ys !! i = None
       end.
Proof.
  revert ys. induction xs as [|x xs IH]; intros ys Hys i.
  - by inversion Hys.
  - cbn [comprehension mbind result_bind] in Hys.
    destruct (f x) as [y|] eqn:Hy; [|done].
    destruct (comprehension f xs) as [ys'|] eqn:Hrest; [|done].
    inversion Hys; subst. destruct i as [|i]; simpl; [eauto|].
    by apply IH.
Qed.

Lemma comprehension_raise {A B} (f : A → result B) (xs : list A) (e : exn) :
  comprehension f xs = Raise e → ∃ x, x ∈ xs ∧ f x = Raise e.
Proof.
  induction xs as [|x xs IH]; [done|].
  cbn [comprehension mbind result_bind].
  destruct (f x) as [y|e'] eqn:Hy.
  - destruct (comprehension f xs) as [ys'|e'] eqn:Hrest; [done|].
    intros [= <-]. destruct IH as (x' & Hin & Hx'); [done|].
    exists x'. split; [by right|done].
  - intros [= <-]. exists x. split; [by left|done].
Qed.

Lemma comprehension_total {A B} (f : A → result B) (xs : list A) :
  Forall (fun x => ∃ y, f x = Ok y) xs → ∃ ys, comprehension f xs = Ok ys.
Proof.
  induction 1 as [|x xs [y Hy] _ [ys Hys]]; [by exists []|].
  exists (y :: ys). cbn [comprehension mbind result_bind]. by rewrite Hy, Hys.
Qed.

Lemma coerce_cell_Ok (v y : value) :
  coerce_cell v = Ok y →
  ∃ z, astype_int int_cast (fillna0 (to_numeric v)) = Ok z ∧ y = VInt z.
Proof.
  unfold coerce_cell. destruct (astype_int _) as [z|]; [|done].
  intros [= <-]. eauto.
Qed.

Lemma coerce_cell_raise (v : value) (e : exn) :
  coerce_cell v = Raise e → e = ValueError.
Proof.
  unfold coerce_cell, astype_int.
  destruct (fillna0 (to_numeric v)); cbn; congruence.
Qed.

Lemma row_at_cons (i : nat) (col : string * list value)
    (rest : list (string * list value)) :
  row_at i (col :: rest) =
  match col.2 !! i with
  | Some v => <[col.1 := v]> (row_at i rest)
  | None => row_at i rest
  end.
Proof. reflexivity. Qed.

Lemma row_at_absent (i : nat) (data : list (string * list value)) (k : string) :
  k ∉ data.*1 → row_at i data !! k = None.
Proof.
  induction data as [|col rest IH]; intros Hk; [done|].
  rewrite fmap_cons, not_elem_of_cons in Hk. destruct Hk as [Hne Hk].
  rewrite row_at_cons. destruct (col.2 !! i).
  - rewrite lookup_insert_ne by done. by apply IH.
  - by apply IH.
Qed.

Lemma coerce_data_row (c : string) (data data' : list (string * list value)) :
  comprehension (coerce_if_named c) data = Ok data' →
  ∀ i, coerced (row_at i data !! c) (row_at i data' !! c)
       ∧ ∀ k, k ≠ c → row_at i data' !! k = row_at i data !! k.
Proof.
  revert data'. induction data as [|col rest IH]; intros data' Hdata i.
  - inversion Hdata. by split.
  - cbn [comprehension mbind result_bind] in Hdata.
    destruct (coerce_if_named c col) as [col'|] eqn:Hcol; [|done].
    destruct (comprehension (coerce_if_named c) rest) as [rest'|] eqn:Hrest;
      [|done].
    inversion Hdata; subst. destruct (IH rest' eq_refl i) as [IHc IHk].
    rewrite !row_at_cons. unfold coerce_if_named in Hcol.
    destruct (String.eqb_spec col.1 c) as [Hname|Hname].
    + destruct (comprehension coerce_cell col.2) as [cells|] eqn:Hcells; [|done].
      inversion Hcol; subst. cbn [fst snd].
      pose proof (comprehension_lookup _ _ _ Hcells i) as Hi.
      destruct (col.2 !! i) as [v|].
      * destruct Hi as (y & Hy & ->).
        apply coerce_cell_Ok in Hy as (z & Hz & ->). split.
        -- rewrite !lookup_insert_eq. exists z. done.
        -- intros k Hk. rewrite !lookup_insert_ne by done. by apply IHk.
      * rewrite Hi. done.
    + inversion Hcol; subst. destruct (col'.2 !! i) as [v|]; [|done]. split.
      * rewrite !lookup_insert_ne by done. done.
      * intros k Hk. destruct (decide (col'.1 = k)) as [->|Hne].
        -- by rewrite !lookup_insert_eq.
        -- rewrite !lookup_insert_ne by done. by apply IHk.
Qed.

Lemma coerce_column_row (c : string) (df df' : DataFrame) :
  coerce_column c df = Ok df' →
  df_index df' = df_index df
  ∧ ∀ i, coerced (row_at i (df_data df) !! c) (row_at i (df_data df') !! c)
         ∧ ∀ k, k ≠ c →
                row_at i (df_data df') !! k = row_at i (df_data df) !! k.
Proof.
  unfold coerce_column. case_bool_decide as Hc.
  - destruct (comprehension _ _) as [data|] eqn:Hdata; [|done].
    intros [= <-]. split; [done|]. by apply coerce_data_row.
  - intros [= <-]. split; [done|]. intros i. split; [|done].
    unfold df_columns in Hc. by rewrite (row_at_absent _ _ _ Hc).
Qed.

Lemma coerce_column_raise (c : string) (df : DataFrame) (e : exn) :
  coerce_column c df = Raise e → e = ValueError.
Proof.
  unfold coerce_column. case_bool_decide; [|done].
  destruct (comprehension _ _) as [data|e'] eqn:Hdata; [done|].
  intros [= <-]. apply comprehension_raise in Hdata as (col & _ & Hcol).
  unfold coerce_if_named in Hcol. destruct (String.eqb _ _); [|done].
  destruct (comprehension coerce_cell _) as [|e''] eqn:Hcells; [done|].
  injection Hcol as <-.
  apply comprehension_raise in Hcells as (v & _ & Hv).
  by eapply coerce_cell_raise.
Qed.

Lemma coerced_trans (raw loaded loaded' : option value) :
  coerced raw loaded → loaded' = loaded → coerced raw loaded'.
Proof. by intros ? ->. Qed.

Lemma to_dict_records_lookup (df : DataFrame) (i : nat) (r : record) :
  to_dict_records df !! i = Some r →
  (i < df_index df)%nat ∧ r = row_at i (df_data df).
Proof.
  unfold to_dict_records. rewrite list_lookup_fmap.
  destruct (seq 0 (df_index df) !! i) as [j|] eqn:Hj; [|done].
  apply lookup_seq in Hj as [-> ?]. by intros [= <-].
Qed.

(** What the [.csv] branch returns for a frame: one record per row, a
    coerced field the integer of its cell, any other field the cell. *)
Lemma load_csv_rows (df : DataFrame) (recs : list record) :
  load_csv df = Ok recs →
  length recs = df_index df
  ∧ ∀ i r, recs !! i = Some r →
      ∀ k, (k ∈ coerced_fields → coerced (row_at i (df_data df) !! k) (r !! k))
           ∧ (k ∉ coerced_fields → r !! k = row_at i (df_data df) !! k).
Proof.
  unfold load_csv.
  destruct (coerce_column "quantity" df) as [df1|] eqn:H1;
    cbn [mbind result_bind]; [|done].
  destruct (coerce_column "price" df1) as [df2|] eqn:H2;
    cbn [mbind result_bind]; [|done].
  destruct (coerce_column "invoice_number" df2) as [df3|] eqn:H3;
    cbn [mbind result_bind]; [|done].
  intros [= <-].
  apply coerce_column_row in H1 as [Hn1 H1].
  apply coerce_column_row in H2 as [Hn2 H2].
  apply coerce_column_row in H3 as [Hn3 H3].
  split.
  { unfold to_dict_records. rewrite length_fmap, length_seq. congruence. }
  intros i r [_ ->]%to_dict_records_lookup k.
  destruct (H1 i) as [Hq1 Hk1], (H2 i) as [Hp2 Hk2], (H3 i) as [Hi3 Hk3].
  unfold coerced_fields. split.
  - rewrite !elem_of_cons, elem_of_nil. intros [->|[->|[->|[]]]].
    + eapply coerced_trans; [exact Hq1|]. by rewrite Hk3, Hk2.
    + eapply coerced_trans; [|by rewrite Hk3]. by rewrite <- Hk1.
    + by rewrite <- Hk1, <- Hk2.
  - rewrite !not_elem_of_cons. intros (? & ? & ? & _).
    by rewrite Hk3, Hk2, Hk1.
Qed.

Lemma to_dict_records_row (df : DataFrame) (i : nat) :
  (i < df_index df)%nat →
  to_dict_records df !! i = Some (row_at i (df_data df)).
Proof.
  intros Hi. unfold to_dict_records.
  by rewrite list_lookup_fmap, lookup_seq_lt.
Qed.

Lemma load_csv_raise (df : DataFrame) (e : exn) :
  load_csv df = Raise e → e = ValueError.
Proof.
  unfold load_csv.
  destruct (coerce_column "quantity" df) as [df1|] eqn:H1;
    cbn [mbind result_bind];
    [|intros [= <-]; by eapply coerce_column_raise].
  destruct (coerce_column "price" df1) as [df2|] eqn:H2;
    cbn [mbind result_bind];
    [|intros [= <-]; by eapply coerce_column_raise].
  destruct (coerce_column "invoice_number" df2) as [df3|] eqn:H3;
    cbn [mbind result_bind];
    [done|intros [= <-]; by eapply coerce_column_raise].
Qed.

Lemma coerce_cell_castable (v : value) :
  castable v → ∃ y, coerce_cell v = Ok y.
Proof.
  unfold castable, coerce_cell, astype_int. intros Hv.
  destruct (to_numeric v) as [m e|s|]; cbn; eauto.
  by destruct (Hv s).
Qed.

Lemma coerce_if_named_eq (c : string) (col : string * list value) :
  col.1 = c →
  coerce_if_named c col =
  cells ← comprehension coerce_cell col.2; Ok (col.1, cells).
Proof. intros <-. unfold coerce_if_named. by rewrite String.eqb_refl. Qed.

Lemma coerce_if_named_ne (c : string) (col : string * list value) :
  col.1 ≠ c → coerce_if_named c col = Ok col.
Proof.
  intros Hne. unfold coerce_if_named.
  by destruct (String.eqb_spec col.1 c).
Qed.

Lemma coerce_column_total (c : string) (df : DataFrame) :
  (∀ col, col ∈ df_data df → col.1 = c → Forall castable col.2) →
  ∃ df', coerce_column c df = Ok df'
         ∧ ∀ col', col' ∈ df_data df' → col'.1 ≠ c → col' ∈ df_data df.
Proof.
  intros Hcells. unfold coerce_column. case_bool_decide; [|by eauto].
  assert (∀ data : list (string * list value),
            (∀ col, col ∈ data → col.1 = c → Forall castable col.2) →
            ∃ data', comprehension (coerce_if_named c) data = Ok data'
                     ∧ ∀ col', col' ∈ data' → col'.1 ≠ c → col' ∈ data)
    as Hdata.
  { clear. induction data as [|col rest IH]; intros Hcells.
    { exists []. split; [done|]. by intros ? ?%elem_of_nil. }
    destruct IH as (rest' & Hrest & Hkeep).
    { intros col' Hin. apply Hcells. by right. }
    cbn [comprehension].
    destruct (decide (col.1 = c)) as [Hname|Hname].
    - destruct (comprehension_total coerce_cell col.2) as [cells Hcellsok].
      { eapply Forall_impl; [apply Hcells; [by left|done]|].
        apply coerce_cell_castable. }
      rewrite coerce_if_named_eq, Hcellsok, Hrest by done.
      eexists. split; [done|].
      intros col' [->|Hin]%elem_of_cons Hne; [done|].
      right. by apply Hkeep.
    - rewrite coerce_if_named_ne, Hrest by done. eexists. split; [done|].
      intros col' [->|Hin]%elem_of_cons Hne; [by left|].
      right. by apply Hkeep. }
  destruct (Hdata _ Hcells) as (data' & -> & Hkeep).
  eexists. split; [done|]. done.
Qed.

Lemma load_csv_total (df : DataFrame) :
  (∀ col, col ∈ df_data df → col.1 ∈ coerced_fields →
          Forall castable col.2) →
  ∃ recs, load_csv df = Ok recs.
Proof.
  intros Hcells. unfold load_csv, coerced_fields in *.
  destruct (coerce_column_total "quantity" df) as (df1 & -> & Hk1).
  { intros col Hin Hname. apply Hcells; [done|]. rewrite Hname. set_solver. }
  cbn [mbind result_bind].
  destruct (coerce_column_total "price" df1) as (df2 & -> & Hk2).
  { intros col Hin Hname. apply Hcells.
    - apply Hk1; [done|]. by rewrite Hname.
    - rewrite Hname. set_solver. }
  cbn [mbind result_bind].
  destruct (coerce_column_total "invoice_number" df2) as (df3 & -> & Hk3).
  { intros col Hin Hname. apply Hcells.
    - apply Hk1; [|by rewrite Hname]. apply Hk2; [done|]. by rewrite Hname.
    - rewrite Hname. set_solver. }
  cbn [mbind result_bind]. eauto.
Qed.

Lemma load_data_csv (directory : gmap string file) (path : string)
    (f : file) (df : DataFrame) :
  lower (suffix path) = ".csv" →
  directory !! path = Some f →
  read_csv f = Returned df →
  load_data directory path = load_csv df.
Proof.
  intros Hsuffix Hfile Hread. unfold load_data, open_file.
  rewrite Hsuffix, Hfile. simpl (String.eqb _ _). cbn [mbind result_bind].
  by rewrite Hread.
Qed.

Lemma loaded_csv_order_line (df : DataFrame) (recs : list record) (r : record) :
  load_csv df = Ok recs → r ∈ recs → order_line r = true.
Proof.
  intros Hload [i Hi]%list_elem_of_lookup.
  destruct (load_csv_rows _ _ Hload) as [_ Hrows].
  pose proof (Hrows i r Hi) as Hr.
  assert (∀ k, k ∈ coerced_fields → integer_field r k = true) as Hint.
  { intros k Hk. destruct (Hr k) as [Hco _]. specialize (Hco Hk).
    unfold integer_field, py_get, coerced in *.
    destruct (row_at i (df_data df) !! k).
    - destruct Hco as (z & _ & ->). done.
    - by rewrite Hco. }
  unfold order_line.
  rewrite !integer_field_converts; [done|..];
    apply Hint, list_elem_of_In; simpl; auto.
Qed.

(** C3, amended: a JSON source is returned exactly as [json.load]
    parsed it, every field unchanged; for a CSV source there is one
    record per row, every field other than [quantity], [price] and
    [invoice_number] is the cell that [pd.read_csv] gave, and each of
    those three fields, when its column exists, is an integer after
    loading: the integer that [to_numeric], [fillna(0)] and
    [astype(int)] make of its cell, of either sign. *)
Theorem load_data_fields (directory : gmap string file) (path : string)
    (recs : list record)
    (Hload : load_data directory path = Ok recs) :
  (lower (suffix path) = ".json" →
   ∃ f, directory !! path = Some f ∧ json_load f = Returned recs)
  ∧ (lower (suffix path) ≠ ".json" →
     ∃ f df,
       lower (suffix path) = ".csv"
       ∧ directory !! path = Some f
       ∧ read_csv f = Returned df
       ∧ length recs = df_index df
       ∧ ∀ i r, recs !! i = Some r →
           ∃ raw, to_dict_records df !! i = Some raw
             ∧ ∀ k, (k ∉ coerced_fields → r !! k = raw !! k)
                    ∧ (k ∈ coerced_fields →
                       coerced (raw !! k) (r !! k)
                       ∧ ∀ v, r !! k = Some v → is_integer v = true)).
Proof.
  unfold load_data, open_file in Hload. split.
  - intros Hjson. rewrite Hjson in Hload. simpl (String.eqb _ _) in Hload.
    destruct (directory !! path) as [f|]; [|done].
    cbn [mbind result_bind] in Hload. exists f. split; [done|].
    destruct (json_load f); simpl in Hload; congruence.
  - intros Hjson.
    destruct (String.eqb_spec (lower (suffix path)) ".json"); [done|].
    destruct (String.eqb_spec (lower (suffix path)) ".csv") as [Hcsv|]; [|done].
    destruct (directory !! path) as [f|]; [|done].
    cbn [mbind result_bind] in Hload.
    destruct (read_csv f) as [df|] eqn:Hread; [|done].
    cbn [call mbind result_bind] in Hload.
    exists f, df. split_and!; try done.
    { by destruct (load_csv_rows _ _ Hload). }
    destruct (load_csv_rows _ _ Hload) as [Hlen Hrows].
    intros i r Hi. exists (row_at i (df_data df)). split.
    { apply to_dict_records_row. rewrite <- Hlen. by eapply lookup_lt_Some. }
    intros k. destruct (Hrows i r Hi k) as [Hin Hout]. split; [done|].
    intros Hk. specialize (Hin Hk). split; [done|].
    unfold coerced in Hin. intros v Hv.
    destruct (row_at i (df_data df) !! k).
    + destruct Hin as (z & _ & Hr). rewrite Hr in Hv. by injection Hv as <-.
    + congruence.
Qed.

(** C4, amended: for a CSV source, a cell of a [quantity], [price] or
    [invoice_number] column that is not numeric is loaded as 0; such
    cells never make the loader raise (it returns whenever no cell of
    these columns is an infinity), and the total of line 588 over the
    loaded records, for any invoice identifier, is computed without an
    exception. *)
Theorem csv_non_numeric_is_zero (directory : gmap string file) (path : string)
    (f : file) (df : DataFrame)
    (Hsuffix : lower (suffix path) = ".csv")
    (Hfile : directory !! path = Some f)
    (Hread : read_csv f = Returned df) :
  ((∀ col, col ∈ df_data df → col.1 ∈ coerced_fields →
           Forall (fun v => ∀ s, to_numeric v ≠ Infinite s) col.2) →
   ∃ recs, load_data directory path = Ok recs)
  ∧ ∀ recs, load_data directory path = Ok recs →
      (∀ i r k v,
         recs !! i = Some r →
         k ∈ coerced_fields →
         row_at i (df_data df) !! k = Some v →
         to_numeric v = NotANumber →
         r !! k = Some (VInt 0))
      ∧ ∀ target, ∃ total,
          total_sum (orders_for_invoice recs target) = Ok total.
Proof.
  rewrite (load_data_csv _ _ _ _ Hsuffix Hfile Hread). split.
  - apply load_csv_total.
  - intros recs Hload. split.
    + intros i r k v Hi Hk Hraw Hnan.
      destruct (load_csv_rows _ _ Hload) as [_ Hrows].
      destruct (Hrows i r Hi k) as [Hco _]. specialize (Hco Hk).
      unfold coerced in Hco. rewrite Hraw, Hnan in Hco.
      destruct Hco as (z & Hz & ->). by injection Hz as <-.
    + intros target. eexists. unfold total_sum.
      apply sum_from_order_lines. apply forallb_forall.
      intros r [Hin _]%list_elem_of_In%elem_of_orders_for_invoice.
      by eapply loaded_csv_order_line.
Qed.

(** C5: [load_data] raises the error of an unsupported format exactly
    when the extension of the source, lower-cased, is neither [.json]
    nor [.csv]; the error then carries that extension, and for a
    supported extension it is never raised. *)
Theorem unsupported_format_iff (directory : gmap string file) (path : string) :
  ((∃ s, load_data directory path = Raise (UnsupportedFormat s)) ↔
   lower (suffix path) ≠ ".json" ∧ lower (suffix path) ≠ ".csv")
  ∧ (∀ s, load_data directory path = Raise (UnsupportedFormat s) →
          s = suffix path).
Proof.
  assert (∀ s, load_data directory path = Raise (UnsupportedFormat s) →
               lower (suffix path) ≠ ".json" ∧ lower (suffix path) ≠ ".csv"
               ∧ s = suffix path) as Hraise.
  { intros s. unfold load_data, open_file.
    destruct (String.eqb_spec (lower (suffix path)) ".json").
    { destruct (directory !! path) as [f|]; [|done].
      cbn [mbind result_bind]. by destruct (json_load f). }
    destruct (String.eqb_spec (lower (suffix path)) ".csv").
    { destruct (directory !! path) as [f|]; [|done].
      cbn [mbind result_bind]. destruct (read_csv f) as [df|]; [|done].
      cbn [call mbind result_bind]. by intros ?%load_csv_raise. }
    by intros [= <-]. }
  split; [split|].
  - intros [s Hs]. by destruct (Hraise s Hs) as (? & ? & _).
  - intros [Hjson Hcsv]. exists (suffix path). unfold load_data.
    destruct (String.eqb_spec (lower (suffix path)) ".json"); [done|].
    by destruct (String.eqb_spec (lower (suffix path)) ".csv").
  - intros s Hs. by destruct (Hraise s Hs) as (_ & _ & ?).
Qed.

(** C10, amended: matching is Python's [==], with no conversion between
    strings and numbers.  A record matches only when its
    [invoice_number] and the target are of one type or are both
    numbers; two numbers ([int], [float], [bool]) match exactly when
    their numeric values are equal, whatever their types; a string
    matches the same string only, so a string-valued [invoice_number]
    never matches an integer identifier.  When nothing matches, the
    match set is empty and the total is zero, without an error. *)
Theorem matching_is_python_equality (all_orders : list record) (target : value) :
  (∀ o, py_eq (py_get o "invoice_number" VNone) target = true →
        same_type (py_get o "invoice_number" VNone) target = true
        ∨ (is_number (py_get o "invoice_number" VNone) = true
           ∧ is_number target = true))
  ∧ (∀ v a b, number_of_value v = Some a → number_of_value target = Some b →
        (py_eq v target = true ↔ number_compare a b = Some Eq))
  ∧ (∀ s, py_eq (VStr s) target = true ↔ target = VStr s)
  ∧ (∀ o s, py_get o "invoice_number" VNone = VStr s →
            is_number target = true →
            py_eq (py_get o "invoice_number" VNone) target = false)
  ∧ ((∀ o, o ∈ all_orders →
           py_eq (py_get o "invoice_number" VNone) target = false) →
     orders_for_invoice all_orders target = []
     ∧ total_sum (orders_for_invoice all_orders target) = Ok 0).
Proof.
  split_and!.
  - intros o. destruct (py_get o "invoice_number" VNone), target; cbn; auto.
  - intros v a b Hv Hb.
    destruct v; try done; destruct target; try done;
      unfold py_eq; cbv beta iota; rewrite Hv, Hb;
      destruct (number_compare a b) as [[]|]; split; congruence.
  - intros s. destruct target; cbn; try (split; congruence).
    rewrite String.eqb_eq. split; congruence.
  - intros o s -> Hnum. by destruct target.
  - intros Hnone.
    by rewrite (orders_for_invoice_no_match _ _ Hnone).
Qed.

(** ** Properties of the listings *)

Lemma elem_of_list_files {A} (directory : gmap string A) (pre suf n : string) :
  n ∈ list_files directory pre suf ↔
  is_Some (directory !! n) ∧ glob_match pre suf n = true.
Proof.
  unfold list_files. rewrite merge_sort_Permutation.
  rewrite list_elem_of_In, filter_In, <- list_elem_of_In, list_elem_of_fmap.
  split.
  - intros [([n' x] & -> & Hin%elem_of_map_to_list) Hglob]. eauto.
  - intros [[x Hx] Hglob]. split; [|done].
    exists (n, x). split; [done|]. by apply elem_of_map_to_list.
Qed.

Lemma list_files_head_least {A} (directory : gmap string A)
    (pre suf first : string) (rest : list string) :
  list_files directory pre suf = first :: rest →
  ∀ n, n ∈ list_files directory pre suf → String.le first n.
Proof.
  intros Hlist n. rewrite Hlist.
  pose proof (StronglySorted_merge_sort String.le
                (List.filter (glob_match pre suf) (map_to_list directory).*1))
    as Hsorted.
  fold (list_files directory pre suf) in Hsorted. rewrite Hlist in Hsorted.
  apply StronglySorted_inv in Hsorted as [_ Hall].
  intros [->|Hin]%elem_of_cons; [done|].
  by apply (proj1 (Forall_forall _ _) Hall).
Qed.

Lemma display_menu_Ok (n i : nat) (a : answer) :
  display_menu n a = Ok i → a = Choose i ∧ (i < n)%nat.
Proof.
  destruct a as [|j]; [done|]. unfold display_menu.
  destruct (Nat.ltb_spec j n); [|done]. by intros [= <-].
Qed.

Lemma display_menu_Choose (n i : nat) :
  (i < n)%nat → display_menu n (Choose i) = Ok i.
Proof.
  intros Hi. unfold display_menu. destruct (Nat.ltb_spec i n); [done|lia].
Qed.

Lemma list_item_Some {A} (xs : list A) (i : nat) (x : A) :
  xs !! i = Some x → list_item xs i = Ok x.
Proof. unfold list_item. by intros ->. Qed.

Lemma list_item_Ok {A} (xs : list A) (i : nat) (x : A) :
  list_item xs i = Ok x → xs !! i = Some x.
Proof. unfold list_item. destruct (xs !! i); [|done]. by intros [= ->]. Qed.

Lemma comprehension_length {A B} (f : A → result B) (xs : list A) (ys : list B) :
  comprehension f xs = Ok ys → length ys = length xs.
Proof.
  intros Hys. apply Nat.le_antisymm.
  - destruct (decide (length ys ≤ length xs)%nat) as [|Hgt]; [done|].
    pose proof (comprehension_lookup f xs ys Hys (length xs)) as Hi.
    rewrite (lookup_ge_None_2 xs) in Hi by lia.
    apply lookup_ge_None_1 in Hi. lia.
  - destruct (decide (length xs ≤ length ys)%nat) as [|Hgt]; [done|].
    pose proof (comprehension_lookup f xs ys Hys (length ys)) as Hi.
    destruct (xs !! length ys) as [x|] eqn:Hx.
    + destruct Hi as (y & _ & Hy). apply lookup_lt_Some in Hy. lia.
    + apply lookup_ge_None_1 in Hx. lia.
Qed.

(** ** Properties of [process_document] *)

Lemma choose_files_Ok (w : world) (ans : answers) (f t : string) :
  choose_files w ans = Ok (f, t) →
  f ∈ list_files (data_dir w) "" ""
  ∧ t ∈ list_files (templates_dir w) "" ".html".
Proof.
  unfold choose_files.
  destruct (display_menu _ (data_file_answer ans)) as [i|];
    cbn [mbind result_bind]; [|done].
  destruct (list_item _ i) as [f'|] eqn:Hf; cbn [mbind result_bind]; [|done].
  destruct (display_menu _ (template_answer ans)) as [j|];
    cbn [mbind result_bind]; [|done].
  destruct (list_item _ j) as [t'|] eqn:Ht; cbn [mbind result_bind]; [|done].
  intros [= <- <-].
  apply list_item_Ok in Hf, Ht. split; by eapply list_elem_of_lookup_2.
Qed.

(** Once both menus are answered, [process_document] loads the selected
    file and dispatches on its entity token. *)
Lemma process_document_selected (w : world) (ans : answers) (f t : string) :
  choose_files w ans = Ok (f, t) →
  process_document w ans =
  match load_data (data_dir w) f with
  | Raise e => (ReturnFalse (LoadFailed e), w)
  | Ok all_data =>
      if String.eqb (entity_type_of f) "invoice" then
        finish w (process_invoice w t all_data ans)
      else if String.eqb (entity_type_of f) "product" then
        finish w (process_product w t all_data ans)
      else if String.eqb (entity_type_of f) "order" then
        match order_files_of w with
        | [] => (ReturnFalse NoOrderFiles, w)
        | first :: _ => finish w (process_order w t first ans)
        end
      else (ReturnFalse (UnknownEntity (entity_type_of f)), w)
  end.
Proof.
  intros Hchoose. unfold process_document. rewrite Hchoose.
  apply choose_files_Ok in Hchoose as [Hf Ht].
  destruct (list_files (data_dir w) "" ""); [by apply elem_of_nil in Hf|].
  destruct (list_files (templates_dir w) "" ".html");
    [by apply elem_of_nil in Ht|].
  done.
Qed.

(** C6: when the token of the selected source, lower-cased, is none of
    [invoice], [product] and [order], [process_document] ends with its
    unknown-entity failure (it returns [False] after the message of
    line 604), and no directory is written: the attempt produces no
    artifact.  A source that cannot even be loaded fails earlier, also
    without an artifact. *)
Theorem unknown_entity_aborts (w : world) (ans : answers) (f t : string)
    (Hchoose : choose_files w ans = Ok (f, t))
    (Hunknown : lower (first_field (stem f)) ∉ ["invoice"; "product"; "order"]) :
  (process_document w ans).2 = w
  ∧ (∃ why, (process_document w ans).1 = ReturnFalse why)
  ∧ (∀ all_data, load_data (data_dir w) f = Ok all_data →
       process_document w ans =
       (ReturnFalse (UnknownEntity (lower (first_field (stem f)))), w)).
Proof.
  rewrite (process_document_selected _ _ _ _ Hchoose).
  rewrite !not_elem_of_cons in Hunknown. destruct Hunknown as (Hi & Hp & Ho & _).
  unfold entity_type_of.
  destruct (String.eqb_spec (lower (first_field (stem f))) "invoice"); [done|].
  destruct (String.eqb_spec (lower (first_field (stem f))) "product"); [done|].
  destruct (String.eqb_spec (lower (first_field (stem f))) "order"); [done|].
  destruct (load_data (data_dir w) f) as [all_data|e]; split_and!;
    try done; eauto.
Qed.

Lemma generate_pdf_Ok (t name content pdf : string) (data : context) (w : world) :
  templates_dir w !! t = Some content →
  render_pdf content data = Returned pdf →
  generate_pdf t data name w =
  Ok {| data_dir := data_dir w;
        templates_dir := templates_dir w;
        output_dir := <[name := pdf]> (output_dir w) |}.
Proof. intros Ht Hpdf. unfold generate_pdf. by rewrite Ht; cbn; rewrite Hpdf. Qed.

Lemma generate_pdf_inv (t name : string) (data : context) (w w' : world) :
  generate_pdf t data name w = Ok w' →
  ∃ content pdf,
    templates_dir w !! t = Some content
    ∧ render_pdf content data = Returned pdf
    ∧ data_dir w' = data_dir w
    ∧ templates_dir w' = templates_dir w
    ∧ output_dir w' = <[name := pdf]> (output_dir w).
Proof.
  unfold generate_pdf. destruct (templates_dir w !! t) as [content|]; [|done].
  cbn [mbind result_bind].
  destruct (render_pdf content data) as [pdf|] eqn:Hpdf; [|done].
  cbn [call mbind result_bind]. intros [= <-]. by exists content, pdf.
Qed.

Lemma process_invoice_run (w : world) (t : string) (all_data : list record)
    (ans : answers) (ids : list value) (i : nat) (inv : record) (id : value) :
  comprehension (fun item => py_item item "id") all_data = Ok ids →
  invoice_answer ans = Choose i →
  all_data !! i = Some inv →
  inv !! "id" = Some id →
  process_invoice w t all_data ans =
  generate_pdf t (InvoiceContext inv (related_orders w inv)) (invoice_filename id) w.
Proof.
  intros Hids Hans Hinv Hid. unfold process_invoice.
  rewrite Hids, Hans. cbn [mbind result_bind].
  rewrite display_menu_Choose.
  2:{ rewrite (comprehension_length _ _ _ Hids). by eapply lookup_lt_Some. }
  cbn [mbind result_bind]. rewrite (list_item_Some _ _ _ Hinv).
  cbn [mbind result_bind]. unfold py_item. by rewrite Hid.
Qed.

Lemma related_orders_loaded (w : world) (inv : record) (id : value)
    (first : string) (rest : list string) (all_orders : list record) :
  order_files_of w = first :: rest →
  load_data (data_dir w) first = Ok all_orders →
  inv !! "id" = Some id →
  related_orders w inv = orders_for_invoice all_orders id.
Proof.
  intros Hfiles Hload Hid. unfold related_orders, py_item.
  by rewrite Hfiles, Hload; cbn; rewrite Hid.
Qed.

Lemma related_orders_unavailable (w : world) (inv : record) :
  order_files_of w = []
  ∨ (∃ first rest e,
       order_files_of w = first :: rest
       ∧ load_data (data_dir w) first = Raise e) →
  related_orders w inv = [].
Proof.
  unfold related_orders. intros [->|(first & rest & e & -> & ->)]; done.
Qed.

(** C7: in the Invoice path, when no order file is available or the
    order file cannot be loaded, [process_document] goes on: it calls
    [generate_pdf] with the selected invoice and an empty list of
    orders, and ends as that call ends, the failure of the order file
    not being propagated; the template it renders exists, and when the
    rendering returns, the artifact [invoice_<id>.pdf] is written and
    [process_document] returns [True]. *)
Theorem invoice_without_orders (w : world) (ans : answers) (f t : string)
    (all_data : list record) (ids : list value) (i : nat)
    (inv : record) (id : value)
    (Hchoose : choose_files w ans = Ok (f, t))
    (Hload : load_data (data_dir w) f = Ok all_data)
    (Hkind : entity_type_of f = "invoice")
    (Hids : comprehension (fun item => py_item item "id") all_data = Ok ids)
    (Hans : invoice_answer ans = Choose i)
    (Hinv : all_data !! i = Some inv)
    (Hid : inv !! "id" = Some id)
    (Hsource : order_files_of w = []
               ∨ ∃ first rest e,
                   order_files_of w = first :: rest
                   ∧ load_data (data_dir w) first = Raise e) :
  process_document w ans =
    finish w (generate_pdf t (InvoiceContext inv []) (invoice_filename id) w)
  ∧ ∃ content,
      templates_dir w !! t = Some content
      ∧ ∀ pdf, render_pdf content (InvoiceContext inv []) = Returned pdf →
          process_document w ans =
          (ReturnTrue,
           {| data_dir := data_dir w;
              templates_dir := templates_dir w;
              output_dir := <[invoice_filename id := pdf]> (output_dir w) |}).
Proof.
  assert (process_document w ans =
          finish w (generate_pdf t (InvoiceContext inv []) (invoice_filename id) w))
    as Hrun.
  { rewrite (process_document_selected _ _ _ _ Hchoose), Hload, Hkind.
    simpl (String.eqb _ _).
    rewrite (process_invoice_run _ _ _ _ _ _ _ _ Hids Hans Hinv Hid).
    by rewrite (related_orders_unavailable _ _ Hsource). }
  split; [done|].
  apply choose_files_Ok in Hchoose as [_ Ht].
  apply elem_of_list_files in Ht as [[content Hcontent] _].
  exists content. split; [done|]. intros pdf Hpdf.
  by rewrite Hrun, (generate_pdf_Ok _ _ _ _ _ _ Hcontent Hpdf).
Qed.

Lemma process_product_run (w : world) (t : string) (all_data : list record)
    (ans : answers) (labels : list string) (indices : list nat)
    (selected : list record) :
  comprehension
    (fun item =>
       id ← py_item item "id";
       name ← py_item item "name";
       Ok (py_str id +:+ " - " +:+ py_str name))
    all_data = Ok labels →
  display_multi_select_menu (length all_data) (products_answer ans) = Ok indices →
  comprehension (list_item all_data) indices = Ok selected →
  process_product w t all_data ans =
  (name ← product_filename selected;
   generate_pdf t (ProductsContext selected) name w).
Proof.
  intros Hlabels Hmenu Hsel. unfold process_product.
  rewrite Hlabels. cbn [mbind result_bind].
  rewrite (comprehension_length _ _ _ Hlabels), Hmenu. cbn [mbind result_bind].
  by rewrite Hsel.
Qed.

Lemma process_order_run (w : world) (t first : string) (ans : answers)
    (all_orders : list record) (numbers : list value) (i : nat)
    (selected : value) (total : Z) :
  load_data (data_dir w) first = Ok all_orders →
  invoice_numbers_of all_orders = Ok numbers →
  invoice_answer ans = Choose i →
  numbers !! i = Some selected →
  total_sum (orders_for_invoice all_orders selected) = Ok total →
  process_order w t first ans =
  generate_pdf t
    (OrderContext selected (orders_for_invoice all_orders selected) total)
    (order_filename selected) w.
Proof.
  intros Hload Hnumbers Hans Hsel Htotal. unfold process_order.
  rewrite Hload. cbn [mbind result_bind]. rewrite Hnumbers, Hans.
  cbn [mbind result_bind].
  rewrite display_menu_Choose by by eapply lookup_lt_Some.
  cbn [mbind result_bind]. rewrite (list_item_Some _ _ _ Hsel).
  cbn [mbind result_bind]. by rewrite Htotal.
Qed.

(** C8, amended: the name of the artifact is fixed by the branch.  The
    Invoice path writes [invoice_<id>.pdf], with the [id] of the
    selected invoice; the CatalogItem path writes [product_<id>.pdf]
    when exactly one item is selected and [products_<count>.pdf] for
    any other number of selected items; the OrderLine path writes
    [order_invoice_<n>.pdf], with the selected invoice number.  Each
    call of [generate_pdf] that returns has written exactly that
    name. *)
Theorem artifact_names (w : world) (t : string) (all_data : list record)
    (ans : answers) :
  (∀ ids i inv id,
     comprehension (fun item => py_item item "id") all_data = Ok ids →
     invoice_answer ans = Choose i →
     all_data !! i = Some inv →
     inv !! "id" = Some id →
     process_invoice w t all_data ans =
     generate_pdf t (InvoiceContext inv (related_orders w inv))
       ("invoice_" +:+ py_str id +:+ ".pdf") w)
  ∧ (∀ labels indices selected,
       comprehension
         (fun item =>
            id ← py_item item "id";
            name ← py_item item "name";
            Ok (py_str id +:+ " - " +:+ py_str name))
         all_data = Ok labels →
       display_multi_select_menu (length all_data) (products_answer ans)
         = Ok indices →
       comprehension (list_item all_data) indices = Ok selected →
       (∀ p id, selected = [p] → p !! "id" = Some id →
          process_product w t all_data ans =
          generate_pdf t (ProductsContext selected)
            ("product_" +:+ py_str id +:+ ".pdf") w)
       ∧ (length selected ≠ 1%nat →
          process_product w t all_data ans =
          generate_pdf t (ProductsContext selected)
            ("products_" +:+ pretty (length selected) +:+ ".pdf") w))
  ∧ (∀ first all_orders numbers i selected total,
       load_data (data_dir w) first = Ok all_orders →
       invoice_numbers_of all_orders = Ok numbers →
       invoice_answer ans = Choose i →
       numbers !! i = Some selected →
       total_sum (orders_for_invoice all_orders selected) = Ok total →
       process_order w t first ans =
       generate_pdf t
         (OrderContext selected (orders_for_invoice all_orders selected) total)
         ("order_invoice_" +:+ py_str selected +:+ ".pdf") w)
  ∧ (∀ data name w',
       generate_pdf t data name w = Ok w' →
       ∃ pdf, output_dir w' = <[name := pdf]> (output_dir w)
              ∧ data_dir w' = data_dir w
              ∧ templates_dir w' = templates_dir w).
Proof.
  split_and!.
  - intros ids i inv id. apply process_invoice_run.
  - intros labels indices selected Hlabels Hmenu Hsel.
    rewrite (process_product_run _ _ _ _ _ _ _ Hlabels Hmenu Hsel). split.
    + intros p id -> Hid. unfold product_filename, py_item. by rewrite Hid.
    + intros Hlen. unfold product_filename.
      destruct selected as [|p [|q rest]]; done.
  - intros first all_orders numbers i selected total.
    apply process_order_run.
  - intros data name w' (content & pdf & _ & _ & ? & ? & ?)%generate_pdf_inv.
    by exists pdf.
Qed.

Lemma process_order_answer (w : world) (t first : string) (ans ans' : answers) :
  invoice_answer ans = invoice_answer ans' →
  process_order w t first ans = process_order w t first ans'.
Proof. intros Hans. unfold process_order. by rewrite Hans. Qed.

Lemma process_document_order (w : world) (ans : answers) (f t first : string)
    (rest : list string) (all_data : list record) :
  choose_files w ans = Ok (f, t) →
  load_data (data_dir w) f = Ok all_data →
  entity_type_of f = "order" →
  order_files_of w = first :: rest →
  process_document w ans = finish w (process_order w t first ans).
Proof.
  intros Hchoose Hload Hkind Hfiles.
  rewrite (process_document_selected _ _ _ _ Hchoose), Hload, Hkind, Hfiles.
  done.
Qed.

(** C9: the order records come from the first order file, whatever
    data file was selected.  As soon as the data directory has an entry
    matching [order_*.csv] or [order_*.json] there is a first order
    file, an entry of the data directory: when some entry matches
    [order_*.csv] it is the least of those in name order, also when an
    entry matching [order_*.json] has a smaller name, and only when none
    does is it the least entry matching [order_*.json].  The Invoice
    path renders the selected invoice with the records loaded from that
    file that carry its [id].  The OrderLine path builds its menu, its
    lines and its total from the records loaded from that file, not
    from those of the selected file, and fails as the load of that file
    fails; so two selections of order files, with the same template and
    the same invoice picked, end alike. *)
Theorem order_source_is_first_order_file (w : world) (n : string)
    (Hentry : is_Some (data_dir w !! n))
    (Hmatch : glob_match "order_" ".csv" n = true
              ∨ glob_match "order_" ".json" n = true) :
  ∃ first rest,
    order_files_of w = first :: rest
    ∧ is_Some (data_dir w !! first)
    ∧ ((∃ c, is_Some (data_dir w !! c) ∧ glob_match "order_" ".csv" c = true) →
       glob_match "order_" ".csv" first = true
       ∧ ∀ c, is_Some (data_dir w !! c) → glob_match "order_" ".csv" c = true →
              String.le first c)
    ∧ ((∀ c, is_Some (data_dir w !! c) → glob_match "order_" ".csv" c = false) →
       glob_match "order_" ".json" first = true
       ∧ ∀ j, is_Some (data_dir w !! j) → glob_match "order_" ".json" j = true →
              String.le first j)
    ∧ (∀ inv id all_orders,
         inv !! "id" = Some id →
         load_data (data_dir w) first = Ok all_orders →
         related_orders w inv = orders_for_invoice all_orders id)
    ∧ (∀ ans f t all_data ids i inv id all_orders,
         choose_files w ans = Ok (f, t) →
         load_data (data_dir w) f = Ok all_data →
         entity_type_of f = "invoice" →
         comprehension (fun item => py_item item "id") all_data = Ok ids →
         invoice_answer ans = Choose i →
         all_data !! i = Some inv →
         inv !! "id" = Some id →
         load_data (data_dir w) first = Ok all_orders →
         process_document w ans =
         finish w
           (generate_pdf t
              (InvoiceContext inv (orders_for_invoice all_orders id))
              (invoice_filename id) w))
    ∧ (∀ ans f t all_data,
         choose_files w ans = Ok (f, t) →
         load_data (data_dir w) f = Ok all_data →
         entity_type_of f = "order" →
         (∀ e, load_data (data_dir w) first = Raise e →
               process_document w ans = (Raised e, w))
         ∧ (∀ all_orders numbers i selected total,
              load_data (data_dir w) first = Ok all_orders →
              invoice_numbers_of all_orders = Ok numbers →
              invoice_answer ans = Choose i →
              numbers !! i = Some selected →
              total_sum (orders_for_invoice all_orders selected) = Ok total →
              process_document w ans =
              finish w
                (generate_pdf t
                   (OrderContext selected
                      (orders_for_invoice all_orders selected) total)
                   (order_filename selected) w)))
    ∧ (∀ ans ans' f f' t all_data all_data',
         choose_files w ans = Ok (f, t) →
         choose_files w ans' = Ok (f', t) →
         load_data (data_dir w) f = Ok all_data →
         load_data (data_dir w) f' = Ok all_data' →
         entity_type_of f = "order" →
         entity_type_of f' = "order" →
         invoice_answer ans = invoice_answer ans' →
         process_document w ans = process_document w ans').
Proof.
  assert (n ∈ order_files_of w) as Hn.
  { unfold order_files_of. apply elem_of_app.
    destruct Hmatch as [Hcsv|Hjson]; [left|right]; by apply elem_of_list_files. }
  destruct (order_files_of w) as [|first rest] eqn:Hfirst;
    [by apply elem_of_nil in Hn|].
  exists first, rest. split; [done|]. clear n Hentry Hmatch Hn.
  unfold order_files_of in Hfirst.
  assert (match list_files (data_dir w) "order_" ".csv" with
          | [] => list_files (data_dir w) "order_" ".json" = first :: rest
          | c :: _ => c = first
          end) as Hhead.
  { destruct (list_files (data_dir w) "order_" ".csv"); [done|].
    by injection Hfirst. }
  split_and!.
  - destruct (list_files (data_dir w) "order_" ".csv") as [|c cs] eqn:Hcsv.
    + assert (first ∈ list_files (data_dir w) "order_" ".json") as Hin
        by (rewrite Hhead; left).
      by apply elem_of_list_files in Hin as [? _].
    + subst c.
      assert (first ∈ list_files (data_dir w) "order_" ".csv") as Hin
        by (rewrite Hcsv; left).
      by apply elem_of_list_files in Hin as [? _].
  - intros (n & Hn & Hglob).
    assert (n ∈ list_files (data_dir w) "order_" ".csv") as Hin
      by by apply elem_of_list_files.
    destruct (list_files (data_dir w) "order_" ".csv") as [|c cs] eqn:Hcsv;
      [by apply elem_of_nil in Hin|]. subst c. split.
    + assert (first ∈ list_files (data_dir w) "order_" ".csv") as Hf
        by (rewrite Hcsv; left).
      by apply elem_of_list_files in Hf as [_ ?].
    + intros m Hm Hmglob. eapply list_files_head_least; [exact Hcsv|].
      by apply elem_of_list_files.
  - intros Hnone.
    destruct (list_files (data_dir w) "order_" ".csv") as [|c cs] eqn:Hcsv.
    + split.
      * assert (first ∈ list_files (data_dir w) "order_" ".json") as Hf
          by (rewrite Hhead; left).
        by apply elem_of_list_files in Hf as [_ ?].
      * intros m Hm Hmglob. eapply list_files_head_least; [exact Hhead|].
        by apply elem_of_list_files.
    + assert (c ∈ list_files (data_dir w) "order_" ".csv") as Hc
        by (rewrite Hcsv; left).
      apply elem_of_list_files in Hc as [Hc Hglob].
      by rewrite (Hnone c Hc) in Hglob.
  - intros inv id all_orders Hid Hload.
    by eapply related_orders_loaded.
  - intros ans f t all_data ids i inv id all_orders
      Hchoose Hload Hkind Hids Hans Hinv Hid Hfirst_load.
    rewrite (process_document_selected _ _ _ _ Hchoose), Hload, Hkind.
    simpl (String.eqb _ _).
    rewrite (process_invoice_run _ _ _ _ _ _ _ _ Hids Hans Hinv Hid).
    by rewrite (related_orders_loaded _ _ _ _ _ _ Hfirst Hfirst_load Hid).
  - intros ans f t all_data Hchoose Hload Hkind.
    rewrite (process_document_order _ _ _ _ _ _ _ Hchoose Hload Hkind Hfirst).
    split.
    + intros e Hfails. unfold process_order. by rewrite Hfails.
    + intros all_orders numbers i selected total Hl Hnum Hans Hsel Htotal.
      by rewrite (process_order_run _ _ _ _ _ _ _ _ _ Hl Hnum Hans Hsel Htotal).
  - intros ans ans' f f' t all_data all_data' Hc Hc' Hl Hl' Hk Hk' Hans.
    rewrite (process_document_order _ _ _ _ _ _ _ Hc Hl Hk Hfirst).
    rewrite (process_document_order _ _ _ _ _ _ _ Hc' Hl' Hk' Hfirst).
    by rewrite (process_order_answer _ _ _ _ _ Hans).
Qed.


(** ** Further properties of the listings and of the names *)

(** X1: a listing is in ascending name order, names no entry twice, and
    holds exactly the entries of the directory that match the pattern. *)
Theorem list_files_sorted_exact {A} (directory : gmap string A)
    (pre suf : string) :
  StronglySorted String.le (list_files directory pre suf)
  ∧ NoDup (list_files directory pre suf)
  ∧ ∀ n, n ∈ list_files directory pre suf ↔
         is_Some (directory !! n) ∧ glob_match pre suf n = true.
Proof.
  split_and!.
  - apply (StronglySorted_merge_sort String.le).
  - unfold list_files. rewrite merge_sort_Permutation.
    apply NoDup_ListNoDup, List.NoDup_filter, NoDup_ListNoDup.
    apply NoDup_fst_map_to_list.
  - intros n. apply elem_of_list_files.
Qed.

Lemma app_cons (a : ascii) (s t : string) :
  String a s +:+ t = String a (s +:+ t).
Proof. reflexivity. Qed.

Lemma app_assoc_string (a b c : string) : a +:+ b +:+ c = (a +:+ b) +:+ c.
Proof. induction a as [|x a IH]; [done|]. by rewrite !app_cons, IH. Qed.

Lemma app_length (s t : string) :
  String.length (s +:+ t) = (String.length s + String.length t)%nat.
Proof. induction s as [|a s IH]; [done|]. rewrite app_cons. simpl. by rewrite IH. Qed.

Lemma substring_app_l (s t : string) :
  substring 0 (String.length s) (s +:+ t) = s.
Proof.
  induction s as [|a s IH]; [by destruct t|]. rewrite app_cons. simpl.
  by rewrite IH.
Qed.

Lemma substring_app_r (s t : string) :
  substring (String.length s) (String.length t) (s +:+ t) = t.
Proof.
  induction s as [|a s IH]; [|by rewrite app_cons].
  change (EmptyString +:+ t) with t. simpl.
  induction t as [|b t IHt]; [done|]. simpl. by rewrite IHt.
Qed.

Lemma substring_split (s : string) (k : nat) :
  (k ≤ String.length s)%nat →
  s = substring 0 k s +:+ substring k (String.length s - k) s.
Proof.
  revert k. induction s as [|a s IH]; intros k Hk.
  - by destruct k.
  - destruct k as [|k].
    + change (substring 0 0 (String a s)) with EmptyString.
      change (EmptyString +:+ ?x) with x.
      rewrite Nat.sub_0_r. symmetry.
      apply (substring_app_r EmptyString (String a s)).
    + simpl in Hk. simpl. rewrite app_cons. f_equal. apply IH. lia.
Qed.

Lemma rfind_dot_app (s t : string) :
  rfind_dot (s +:+ t) =
  match rfind_dot t with
  | Some i => Some (String.length s + i)%nat
  | None => rfind_dot s
  end.
Proof.
  induction s as [|a s IH].
  - change (EmptyString +:+ t) with t. by destruct (rfind_dot t).
  - rewrite app_cons. cbn [rfind_dot]. rewrite IH.
    destruct (rfind_dot t); [done|]. done.
Qed.

Lemma rfind_dot_free (s : string) :
  char_free "." s = true → rfind_dot s = None.
Proof.
  induction s as [|a s IH]; [done|]. cbn [char_free rfind_dot].
  intros [Ha Hs]%andb_prop. rewrite (IH Hs).
  by destruct (Ascii.eqb a ".").
Qed.

Lemma first_field_app (s t : string) :
  char_free "_" s = true → first_field (s +:+ "_" +:+ t) = s.
Proof.
  induction s as [|a s IH]; [done|]. cbn [char_free].
  intros [Ha Hs]%andb_prop. rewrite app_cons. cbn [first_field].
  destruct (Ascii.eqb a "_"); [done|]. by rewrite (IH Hs).
Qed.

(** A name made of a body, a dot and an extension without a dot. *)
Lemma suffix_stem_app (body ext : string) :
  body ≠ "" → ext ≠ "" → char_free "." ext = true →
  suffix (body +:+ "." +:+ ext) = "." +:+ ext
  ∧ stem (body +:+ "." +:+ ext) = body.
Proof.
  intros Hbody Hext Hfree.
  assert (suffix_start (body +:+ "." +:+ ext) = Some (String.length body))
    as Hstart.
  { unfold suffix_start. rewrite rfind_dot_app.
    change ("." +:+ ext) with (String "." ext). cbn [rfind_dot].
    rewrite (rfind_dot_free _ Hfree). simpl (Ascii.eqb _ _). cbv iota.
    rewrite Nat.add_0_r, app_length. cbn [String.length].
    destruct (Nat.ltb_spec 0 (String.length body)) as [|Hzero].
    2:{ destruct body; [done|]. cbn [String.length] in Hzero. lia. }
    destruct (Nat.ltb_spec (String.length body)
                (String.length body + S (String.length ext) - 1)) as [|Hlast];
      [done|].
    destruct ext; [done|]. cbn [String.length] in Hlast. lia. }
  unfold suffix, stem. rewrite Hstart. split.
  - rewrite app_length.
    replace (String.length body + String.length ("." +:+ ext)
             - String.length body)%nat
      with (String.length ("." +:+ ext)) by lia.
    apply substring_app_r.
  - apply substring_app_l.
Qed.

(** X2: the token that line 509 reads in a file name returns the entity
    from which the name was made.  A name [<entity>_<rest>.<ext>], as
    [generate_test_data] forms them, with no underscore in the entity
    and no dot in the non-empty extension, has the lower-cased entity as
    its entity type, its stem is [<entity>_<rest>] and its suffix
    [.<ext>]. *)
Theorem entity_type_of_name (entity rest ext : string)
    (Hentity : char_free "_" entity = true)
    (Hext : char_free "." ext = true)
    (Hnonempty : ext ≠ "") :
  entity_type_of (entity +:+ "_" +:+ rest +:+ "." +:+ ext) = lower entity
  ∧ stem (entity +:+ "_" +:+ rest +:+ "." +:+ ext) = entity +:+ "_" +:+ rest
  ∧ suffix (entity +:+ "_" +:+ rest +:+ "." +:+ ext) = "." +:+ ext.
Proof.
  destruct (suffix_stem_app (entity +:+ "_" +:+ rest) ext) as [Hsuffix Hstem];
    [|done..|].
  { by destruct entity. }
  rewrite <- !app_assoc_string in Hsuffix, Hstem. split_and!; [|done..].
  unfold entity_type_of. rewrite Hstem. by rewrite first_field_app.
Qed.

Lemma substring_prefix_app (s t : string) (k : nat) :
  (k ≤ String.length s)%nat → substring 0 k (s +:+ t) = substring 0 k s.
Proof.
  revert k. induction s as [|a s IH]; intros k Hk.
  - cbn [String.length] in Hk. assert (k = 0%nat) as -> by lia. by destruct t.
  - destruct k as [|k]; [done|]. rewrite app_cons. simpl. f_equal.
    apply IH. cbn [String.length] in Hk. lia.
Qed.

Lemma glob_match_parts (pre suf name : string) :
  glob_match pre suf name = true →
  ∃ mid, name = pre +:+ mid +:+ suf.
Proof.
  unfold glob_match.
  intros [[Hlen Hpre%String.eqb_eq]%andb_prop Hsuf%String.eqb_eq]%andb_prop.
  apply Nat.leb_le in Hlen.
  pose proof (substring_split name (String.length name - String.length suf)
                ltac:(lia)) as Hsplit.
  replace (String.length name - (String.length name - String.length suf))%nat
    with (String.length suf) in Hsplit by lia.
  rewrite Hsuf in Hsplit.
  set (front := substring 0 (String.length name - String.length suf) name)
    in *.
  assert (String.length front = String.length name - String.length suf)%nat
    as Hfront.
  { pose proof (f_equal String.length Hsplit) as Hl.
    rewrite app_length in Hl. lia. }
  pose proof (substring_split front (String.length pre) ltac:(lia)) as Hfsplit.
  assert (substring 0 (String.length pre) front = pre) as Hfpre.
  { etrans; [|exact Hpre].
    rewrite <- (substring_prefix_app front suf) by lia. by rewrite <- Hsplit. }
  rewrite Hfpre in Hfsplit.
  exists (substring (String.length pre)
            (String.length front - String.length pre) front).
  rewrite app_assoc_string, <- Hfsplit. exact Hsplit.
Qed.

Lemma load_data_supported (directory : gmap string file) (path : string) :
  lower (suffix path) = ".csv" ∨ lower (suffix path) = ".json" →
  ∀ e, load_data directory path = Raise e →
       e = ValueError ∨ ∃ class, e = External class.
Proof.
  intros Hsuffix e. unfold load_data, open_file.
  destruct Hsuffix as [-> | ->]; simpl (String.eqb _ _); cbv iota.
  - destruct (directory !! path) as [f|]; cbn [mbind result_bind].
    + destruct (read_csv f) as [df|class]; cbn [call mbind result_bind].
      * intros ->%load_csv_raise. by left.
      * intros [= <-]. eauto.
    + intros [= <-]. eauto.
  - destruct (directory !! path) as [f|]; cbn [mbind result_bind].
    + destruct (json_load f) as [recs|class]; cbn [call]; [done|].
      intros [= <-]. eauto.
    + intros [= <-]. eauto.
Qed.

Lemma order_files_supported (w : world) (n : string) :
  n ∈ order_files_of w →
  is_Some (data_dir w !! n)
  ∧ entity_type_of n = "order"
  ∧ (suffix n = ".csv" ∨ suffix n = ".json").
Proof.
  intros Hn. unfold order_files_of in Hn.
  assert (is_Some (data_dir w !! n)
          ∧ ∃ mid ext, (ext = "csv" ∨ ext = "json")
                       ∧ n = "order" +:+ "_" +:+ mid +:+ "." +:+ ext)
    as [Hentry (mid & ext & Hext & ->)].
  { apply elem_of_app in Hn as [Hn|Hn];
      apply elem_of_list_files in Hn as [Hentry Hglob];
      apply glob_match_parts in Hglob as [mid ->];
      (split; [done|]); exists mid; [exists "csv"|exists "json"]; auto. }
  assert (ext ≠ "" ∧ char_free "." ext = true) as [Hne Hfree]
    by by destruct Hext as [-> | ->].
  destruct (suffix_stem_app ("order_" +:+ mid) ext) as [Hsuffix Hstem];
    [done..|].
  rewrite <- !app_assoc_string in Hsuffix, Hstem.
  split_and!; [done| |].
  - unfold entity_type_of.
    change ("order" +:+ "_" +:+ mid +:+ "." +:+ ext)
      with ("order_" +:+ mid +:+ "." +:+ ext).
    rewrite Hstem. change ("order_" +:+ mid) with ("order" +:+ "_" +:+ mid).
    by rewrite first_field_app.
  - change ("order" +:+ "_" +:+ mid +:+ "." +:+ ext)
      with ("order_" +:+ mid +:+ "." +:+ ext).
    rewrite Hsuffix. by destruct Hext as [-> | ->]; [left|right].
Qed.

(** X3: every file that lines 520 and 568 find is an entry of the data
    directory whose entity type is [order] and whose extension
    [load_data] supports, so loading it never raises the error of an
    unsupported format: it raises [ValueError] or an exception of a
    library, or returns. *)
Theorem order_files_are_order_sources (w : world) (n : string)
    (Hn : n ∈ order_files_of w) :
  is_Some (data_dir w !! n)
  ∧ entity_type_of n = "order"
  ∧ (suffix n = ".csv" ∨ suffix n = ".json")
  ∧ ∀ e, load_data (data_dir w) n = Raise e →
         e = ValueError ∨ ∃ class, e = External class.
Proof.
  destruct (order_files_supported w n Hn) as (Hentry & Htype & Hsuffix).
  split_and!; [done..|].
  apply load_data_supported.
  by destruct Hsuffix as [-> | ->]; [left|right].
Qed.

(** ** Further properties of [process_document] *)

Lemma bind_Ok {A B} (m : result A) (k : A → result B) (b : B) :
  m ≫= k = Ok b → ∃ a, m = Ok a ∧ k a = Ok b.
Proof. destruct m as [a|e]; [eauto|done]. Qed.

Lemma bind_Raise {A B} (m : result A) (k : A → result B) (e : exn) :
  m ≫= k = Raise e → m = Raise e ∨ ∃ a, m = Ok a ∧ k a = Raise e.
Proof. destruct m as [a|e']; [eauto|]. intros [= <-]. by left. Qed.






Lemma display_menu_Raise (n : nat) (a : answer) (e : exn) :
  display_menu n a = Raise e → e = ExitCommand.
Proof.
  destruct a as [|i]; unfold display_menu; [by intros [= <-]|].
  destruct (i <? n)%nat; [done|]. by intros [= <-].
Qed.

Lemma display_multi_select_menu_Raise (n : nat) (a : multi_answer) (e : exn) :
  display_multi_select_menu n a = Raise e → e = ExitCommand.
Proof.
  destruct a as [| |indices]; unfold display_multi_select_menu;
    [by intros [= <-]|done|].
  destruct (_ && _); [done|]. by intros [= <-].
Qed.

Lemma display_multi_select_menu_Ok (n : nat) (a : multi_answer)
    (indices : list nat) :
  display_multi_select_menu n a = Ok indices →
  Forall (fun i => (i < n)%nat) indices
  ∧ (a = ChooseAll ∧ indices = seq 0 n ∨ a = ChooseSome indices ∧ indices ≠ []).
Proof.
  destruct a as [| |chosen]; unfold display_multi_select_menu; [done| |].
  - intros [= <-]. split; [|by left].
    apply Forall_forall. intros i Hi%elem_of_seq. lia.
  - destruct (negb (length chosen =? 0)%nat) eqn:Hlen; [|done].
    destruct (forallb _ chosen) eqn:Hall; [|done].
    cbn [andb]. intros [= <-]. split.
    + apply Forall_forall. intros i Hi%list_elem_of_In.
      apply (proj1 (forallb_forall _ _) Hall) in Hi. by apply Nat.ltb_lt.
    + right. split; [done|]. by destruct chosen.
Qed.

Lemma py_item_Raise (o : record) (k : string) (e : exn) :
  py_item o k = Raise e → e = KeyError k ∧ o !! k = None.
Proof. unfold py_item. destruct (o !! k); [done|]. by intros [= <-]. Qed.

Lemma generate_pdf_Raise (t name : string) (data : context) (w : world) (e : exn) :
  generate_pdf t data name w = Raise e → ∃ class, e = External class.
Proof.
  unfold generate_pdf. destruct (templates_dir w !! t) as [content|];
    cbn [mbind result_bind]; [|intros [= <-]; eauto].
  destruct (render_pdf content data) as [pdf|class];
    cbn [call mbind result_bind]; [done|]. intros [= <-]. eauto.
Qed.

Lemma py_int_Raise (v : value) (e : exn) :
  py_int v = Raise e → e = TypeError ∨ e = OverflowError ∨ e = ValueError.
Proof.
  destruct v as [|b|z|f|s]; cbn [py_int]; try done.
  - intros [= <-]. auto.
  - destruct (number_of_float f); [done|intros [= <-]; auto..].
  - destruct (int_of_str s); [done|]. intros [= <-]. auto.
Qed.

Lemma line_total_Raise (o : record) (e : exn) :
  line_total o = Raise e → e = TypeError ∨ e = OverflowError ∨ e = ValueError.
Proof.
  unfold line_total.
  intros [Hq|(q & _ & [Hp|(p & _ & ?)]%bind_Raise)]%bind_Raise;
    [by eapply py_int_Raise..|done].
Qed.

Lemma sum_from_Raise (orders : list record) (acc : Z) (e : exn) :
  sum_from acc orders = Raise e →
  ∃ o, o ∈ orders ∧ line_total o = Raise e.
Proof.
  revert acc. induction orders as [|o rest IH]; intros acc; [done|].
  rewrite sum_from_cons.
  intros [Ho|(t & _ & (o' & Hin & Ho')%IH)]%bind_Raise.
  - exists o. split; [left|done].
  - exists o'. split; [by right|done].
Qed.

Lemma py_lt_Raise (v w : value) (e : exn) : py_lt v w = Raise e → e = TypeError.
Proof.
  unfold py_lt.
  destruct v, w; cbn; try done; by intros [= <-].
Qed.

Lemma sorted_insert_Raise (x : value) (sorted : list value) (e : exn) :
  sorted_insert x sorted = Raise e → e = TypeError.
Proof.
  induction sorted as [|y rest IH]; [done|]. cbn [sorted_insert].
  intros [Hlt|(b & _ & Hrest)]%bind_Raise; [by eapply py_lt_Raise|].
  destruct b; [done|].
  by apply bind_Raise in Hrest as [?%IH|(? & _ & ?)].
Qed.

Lemma py_sorted_Raise (xs : list value) (e : exn) :
  py_sorted xs = Raise e → e = TypeError.
Proof.
  induction xs as [|x rest IH]; [done|]. cbn [py_sorted].
  intros [?%IH|(sorted & _ & ?%sorted_insert_Raise)]%bind_Raise; done.
Qed.

Lemma comprehension_in_range {A} (xs : list A) (indices : list nat) :
  Forall (fun i => (i < length xs)%nat) indices →
  ∃ selected, comprehension (list_item xs) indices = Ok selected.
Proof.
  intros Hall. apply comprehension_total.
  eapply Forall_impl; [exact Hall|]. intros i Hi. cbn in Hi.
  destruct (lookup_lt_is_Some_2 xs i Hi) as [x Hx].
  exists x. by apply list_item_Some.
Qed.

Lemma process_invoice_Raise (w : world) (t : string) (all_data : list record)
    (ans : answers) (e : exn) :
  process_invoice w t all_data ans = Raise e → kept_inside e = false.
Proof.
  unfold process_invoice. intros [Hids|(ids & Hids & Hrest)]%bind_Raise.
  { apply comprehension_raise in Hids as (o & _ & [-> _]%py_item_Raise). done. }
  apply bind_Raise in Hrest as [->%display_menu_Raise|(i & Hi & Hrest)]; [done|].
  apply display_menu_Ok in Hi as [_ Hi].
  rewrite (comprehension_length _ _ _ Hids) in Hi.
  destruct (lookup_lt_is_Some_2 all_data i Hi) as [inv Hinv].
  rewrite (list_item_Some _ _ _ Hinv) in Hrest. cbn [mbind result_bind] in Hrest.
  apply bind_Raise in Hrest as [[-> _]%py_item_Raise|(id & _ & Hrun)]; [done|].
  by apply generate_pdf_Raise in Hrun as [class ->].
Qed.

Lemma process_product_Raise (w : world) (t : string) (all_data : list record)
    (ans : answers) (e : exn) :
  process_product w t all_data ans = Raise e → kept_inside e = false.
Proof.
  unfold process_product. intros [Hlabels|(labels & Hlabels & Hrest)]%bind_Raise.
  { apply comprehension_raise in Hlabels as (o & _ & Ho).
    apply bind_Raise in Ho as [[-> _]%py_item_Raise|(id & _ & Ho)]; [done|].
    by apply bind_Raise in Ho as [[-> _]%py_item_Raise|(name & _ & ?)]. }
  apply bind_Raise in Hrest
    as [->%display_multi_select_menu_Raise|(ixs & Hixs & Hrest)]; [done|].
  apply display_multi_select_menu_Ok in Hixs as [Hixs _].
  rewrite (comprehension_length _ _ _ Hlabels) in Hixs.
  destruct (comprehension_in_range _ _ Hixs) as [selected Hsel].
  rewrite Hsel in Hrest. cbn [mbind result_bind] in Hrest.
  apply bind_Raise in Hrest as [Hname|(name & _ & Hrun)].
  - unfold product_filename in Hname.
    destruct selected as [|p [|q rest]]; try done.
    by apply bind_Raise in Hname as [[-> _]%py_item_Raise|(id & _ & ?)].
  - by apply generate_pdf_Raise in Hrun as [class ->].
Qed.

Lemma process_order_Raise (w : world) (t first : string) (ans : answers)
    (e : exn) :
  first ∈ order_files_of w →
  process_order w t first ans = Raise e → kept_inside e = false.
Proof.
  intros Hfirst. unfold process_order.
  intros [Hload|(all_orders & _ & Hrest)]%bind_Raise.
  { apply order_files_supported in Hfirst as (_ & _ & Hsuffix).
    assert (lower (suffix first) = ".csv" ∨ lower (suffix first) = ".json")
      as Hlower by by destruct Hsuffix as [-> | ->]; [left|right].
    destruct (load_data_supported _ _ Hlower e Hload) as [->|[class ->]];
      done. }
  apply bind_Raise in Hrest as [Hnums|(nums & _ & Hrest)].
  { unfold invoice_numbers_of in Hnums. by apply py_sorted_Raise in Hnums as ->. }
  apply bind_Raise in Hrest as [->%display_menu_Raise|(i & Hi & Hrest)]; [done|].
  apply display_menu_Ok in Hi as [_ Hi].
  destruct (lookup_lt_is_Some_2 nums i Hi) as [sel Hsel].
  rewrite (list_item_Some _ _ _ Hsel) in Hrest. cbn [mbind result_bind] in Hrest.
  apply bind_Raise in Hrest as [Htotal|(total & _ & Hrun)].
  - apply sum_from_Raise in Htotal as (o & _ & Ho).
    by apply line_total_Raise in Ho as [->|[->| ->]].
  - by apply generate_pdf_Raise in Hrun as [class ->].
Qed.

Lemma choose_files_Raise (w : world) (ans : answers) (e : exn) :
  choose_files w ans = Raise e → e = ExitCommand.
Proof.
  unfold choose_files.
  intros [?%display_menu_Raise|(i & Hi & Hrest)]%bind_Raise; [done|].
  apply display_menu_Ok in Hi as [_ Hi].
  destruct (lookup_lt_is_Some_2 _ i Hi) as [f Hf].
  rewrite (list_item_Some _ _ _ Hf) in Hrest. cbn [mbind result_bind] in Hrest.
  apply bind_Raise in Hrest as [?%display_menu_Raise|(j & Hj & Hrest)]; [done|].
  apply display_menu_Ok in Hj as [_ Hj].
  destruct (lookup_lt_is_Some_2 _ j Hj) as [t Ht].
  by rewrite (list_item_Some _ _ _ Ht) in Hrest.
Qed.

(** X6: the exceptions that can leave [process_document] are the exit
    command, [KeyError], [TypeError], [ValueError], [OverflowError] and
    exceptions of the libraries.  The index that a menu returns is always
    within the list it indexes, so no [IndexError] leaves, and the error
    of an unsupported format never leaves either: for the selected file
    it is turned into [return False], and an order file found by the
    patterns always has a supported extension. *)
Theorem process_document_exceptions (w w' : world) (ans : answers) (e : exn)
    (Hraised : process_document w ans = (Raised e, w')) :
  kept_inside e = false.
Proof.
  unfold process_document in Hraised.
  destruct (list_files (data_dir w) "" ""); [done|].
  destruct (list_files (templates_dir w) "" ".html"); [done|].
  destruct (choose_files w ans) as [[f t]|e'] eqn:Hchoose.
  2:{ injection Hraised as <- _. by apply choose_files_Raise in Hchoose as ->. }
  destruct (load_data (data_dir w) f) as [all_data|]; [|done]. cbv zeta in Hraised.
  assert (∀ r, finish w r = (Raised e, w') → r = Raise e) as Hfinish.
  { intros [w''|e'']; cbn [finish]; congruence. }
  destruct (String.eqb (entity_type_of f) "invoice").
  { apply Hfinish in Hraised. by eapply process_invoice_Raise. }
  destruct (String.eqb (entity_type_of f) "product").
  { apply Hfinish in Hraised. by eapply process_product_Raise. }
  destruct (String.eqb (entity_type_of f) "order"); [|done].
  destruct (order_files_of w) as [|first rest] eqn:Hfiles; [done|].
  apply Hfinish in Hraised. eapply process_order_Raise; [|done].
  rewrite Hfiles. left.
Qed.

Lemma comprehension_first_raise {A B} (f : A → result B) (xs : list A) :
  (∃ x e, x ∈ xs ∧ f x = Raise e) →
  ∃ x e, x ∈ xs ∧ f x = Raise e ∧ comprehension f xs = Raise e.
Proof.
  induction xs as [|x xs IH]; intros (x' & e & Hin & Hx').
  { by apply elem_of_nil in Hin. }
  cbn [comprehension]. destruct (f x) as [y|e0] eqn:Hx.
  - apply elem_of_cons in Hin as [->|Hin]; [congruence|].
    destruct IH as (x'' & e'' & Hin'' & Hx'' & Hraise); [by eauto|].
    exists x'', e''. split_and!; [by right|done|].
    cbn [mbind result_bind]. by rewrite Hraise.
  - exists x, e0. split_and!; [by left|done..].
Qed.

(** X7: a [KeyError] leaves [process_document] only for a record of the
    selected file that lacks the key, and the key is [id] or [name].  In
    the Invoice path a record without [id] always makes it raise
    [KeyError] for [id], before any menu, whatever the answers; in the
    CatalogItem path so does a record without [id] or without [name].
    Nothing is written. *)
Theorem missing_key_raises (w : world) (ans : answers) (f t : string)
    (all_data : list record)
    (Hchoose : choose_files w ans = Ok (f, t))
    (Hload : load_data (data_dir w) f = Ok all_data) :
  (entity_type_of f = "invoice" →
   (∃ item, item ∈ all_data ∧ item !! "id" = None) →
   process_document w ans = (Raised (KeyError "id"), w))
  ∧ (entity_type_of f = "product" →
     (∃ item, item ∈ all_data ∧ (item !! "id" = None ∨ item !! "name" = None)) →
     ∃ k, (k = "id" ∨ k = "name")
          ∧ process_document w ans = (Raised (KeyError k), w))
  ∧ (∀ k w', process_document w ans = (Raised (KeyError k), w') →
       (k = "id" ∨ k = "name")
       ∧ ∃ item, item ∈ all_data ∧ item !! k = None).
Proof.
  rewrite (process_document_selected _ _ _ _ Hchoose), Hload. split_and!.
  - intros -> (item & Hin & Hid). simpl (String.eqb _ _). cbv iota.
    destruct (comprehension_first_raise (fun item => py_item item "id") all_data)
      as (x & e & _ & [-> _]%py_item_Raise & Hraise).
    { exists item, (KeyError "id"). split; [done|].
      unfold py_item. by rewrite Hid. }
    unfold process_invoice. by rewrite Hraise.
  - intros -> (item & Hin & Hkey). simpl (String.eqb _ _). cbv iota.
    destruct (comprehension_first_raise
                (fun item =>
                   id ← py_item item "id";
                   name ← py_item item "name";
                   Ok (py_str id +:+ " - " +:+ py_str name))
                all_data) as (x & e & _ & Hx & Hraise).
    { unfold py_item. destruct (item !! "id") as [id|] eqn:Hid.
      - destruct Hkey as [|Hname]; [done|].
        exists item, (KeyError "name"). split; [done|].
        by rewrite Hid; cbn [mbind result_bind]; rewrite Hname.
      - exists item, (KeyError "id"). split; [done|]. by rewrite Hid. }
    unfold process_product. rewrite Hraise. cbn [mbind result_bind finish].
    apply bind_Raise in Hx as [[-> _]%py_item_Raise|(id & _ & Hx)]; [eauto|].
    apply bind_Raise in Hx as [[-> _]%py_item_Raise|(name & _ & ?)]; [eauto|done].
  - intros k w'.
    assert (∀ r, finish w r = (Raised (KeyError k), w') → r = Raise (KeyError k))
      as Hfinish.
    { intros [w''|e'']; cbn [finish]; congruence. }
    destruct (String.eqb (entity_type_of f) "invoice").
    { intros Hrun%Hfinish. unfold process_invoice in Hrun.
      apply bind_Raise in Hrun as [Hids|(ids & Hids & Hrest)].
      { apply comprehension_raise in Hids as (o & Hin & [[= ->] Ho]%py_item_Raise).
        eauto. }
      apply bind_Raise in Hrest as [?%display_menu_Raise|(i & Hi & Hrest)];
        [done|].
      apply bind_Raise in Hrest as [Hitem|(inv & Hinv%list_item_Ok & Hrest)].
      { unfold list_item in Hitem. by destruct (all_data !! i). }
      apply bind_Raise in Hrest as [[[= ->] Ho]%py_item_Raise|(id & _ & Hrun)].
      - split; [by left|]. exists inv. split; [|done].
        by eapply list_elem_of_lookup_2.
      - by apply generate_pdf_Raise in Hrun as [class ?]. }
    destruct (String.eqb (entity_type_of f) "product").
    { intros Hrun%Hfinish. unfold process_product in Hrun.
      apply bind_Raise in Hrun as [Hlabels|(labels & Hlabels & Hrest)].
      { apply comprehension_raise in Hlabels as (o & Hin & Ho).
        apply bind_Raise in Ho as [[[= ->] Ho]%py_item_Raise|(id & _ & Ho)];
          [by eauto|].
        apply bind_Raise in Ho as [[[= ->] Ho]%py_item_Raise|(name & _ & ?)];
          [by eauto|done]. }
      apply bind_Raise in Hrest
        as [?%display_multi_select_menu_Raise|(ixs & Hixs & Hrest)]; [done|].
      apply bind_Raise in Hrest as [Hsel|(selected & Hsel & Hrest)].
      { apply comprehension_raise in Hsel as (i & _ & Hitem).
        unfold list_item in Hitem. by destruct (all_data !! i). }
      apply bind_Raise in Hrest as [Hname|(name & _ & Hrun)].
      - unfold product_filename in Hname.
        destruct selected as [|p [|q rest]] eqn:Hselected; try done.
        apply bind_Raise in Hname as [[[= ->] Hp]%py_item_Raise|(id & _ & ?)];
          [|done].
        split; [by left|]. exists p. split; [|done].
        destruct ixs as [|i ixs]; [done|].
        cbn [comprehension] in Hsel.
        apply bind_Ok in Hsel as (p' & Hp'%list_item_Ok & Hsel).
        apply bind_Ok in Hsel as (ps & _ & [= -> _]).
        by eapply list_elem_of_lookup_2.
      - by apply generate_pdf_Raise in Hrun as [class ?]. }
    destruct (String.eqb (entity_type_of f) "order"); [|done].
    destruct (order_files_of w) as [|first rest] eqn:Hfiles; [done|].
    intros Hrun%Hfinish. unfold process_order in Hrun.
    apply bind_Raise in Hrun as [Hl|(all_orders & _ & Hrest)].
    { assert (first ∈ order_files_of w) as Hfirst by (rewrite Hfiles; left).
      apply order_files_supported in Hfirst as (_ & _ & Hsuffix).
      assert (lower (suffix first) = ".csv" ∨ lower (suffix first) = ".json")
        as Hlower by by destruct Hsuffix as [-> | ->]; [left|right].
      by destruct (load_data_supported _ _ Hlower _ Hl) as [?|[class ?]]. }
    apply bind_Raise in Hrest as [?%py_sorted_Raise|(nums & _ & Hrest)]; [done|].
    apply bind_Raise in Hrest as [?%display_menu_Raise|(i & _ & Hrest)]; [done|].
    apply bind_Raise in Hrest as [Hitem|(sel & _ & Hrest)].
    { unfold list_item in Hitem. by destruct (nums !! i). }
    apply bind_Raise in Hrest as [Htotal|(total & _ & Hrun)].
    + apply sum_from_Raise in Htotal as (o & _ & Ho).
      by apply line_total_Raise in Ho as [?|[?|?]].
    + by apply generate_pdf_Raise in Hrun as [class ?].
Qed.

(** ** Further properties of the comparison and of the invoice menu *)

Lemma dyadic_compare_refl (m e : Z) : dyadic_compare m e m e = Eq.
Proof. unfold dyadic_compare. apply Z.compare_refl. Qed.

Lemma dyadic_compare_sym (m1 e1 m2 e2 : Z) :
  dyadic_compare m1 e1 m2 e2 = Eq → dyadic_compare m2 e2 m1 e1 = Eq.
Proof.
  unfold dyadic_compare. rewrite (Z.min_comm e2 e1).
  rewrite !Z.compare_eq_iff. congruence.
Qed.

Lemma number_compare_sym (a b : number) :
  number_compare a b = Some Eq → number_compare b a = Some Eq.
Proof.
  destruct a as [m1 e1|[]|], b as [m2 e2|[]|]; cbn; try done.
  intros [= H]. by rewrite (dyadic_compare_sym _ _ _ _ H).
Qed.

Lemma py_eq_sym (v w : value) : py_eq v w = py_eq w v.
Proof.
  assert (∀ a b, match number_compare a b with Some Eq => true | _ => false end
                 = match number_compare b a with Some Eq => true | _ => false end)
    as Hnum.
  { intros a b.
    destruct (number_compare a b) as [[]|] eqn:Hab;
      destruct (number_compare b a) as [[]|] eqn:Hba; try done.
    all: first [ apply number_compare_sym in Hab; congruence
               | apply number_compare_sym in Hba; congruence ]. }
  destruct v, w; unfold py_eq; cbv beta iota; cbn [number_of_value];
    try done; try apply Hnum. apply String.eqb_sym.
Qed.

Lemma py_eq_refl (v : value) : v ≠ VFloat S754_nan → py_eq v v = true.
Proof.
  destruct v as [|b|z|f|s]; unfold py_eq; cbv beta iota;
    cbn [number_of_value number_of_float number_compare];
    rewrite ?dyadic_compare_refl; try done.
  - destruct f as [s|s| |s m e];
      cbn [number_of_value number_of_float number_compare];
      rewrite ?dyadic_compare_refl; try done.
    by destruct s.
  - intros _. apply String.eqb_refl.
Qed.

Lemma same_element_refl (v : value) : same_element v v = true.
Proof.
  unfold same_element.
  destruct v as [|b|z|[s|s| |s m e]|s]; try done; by rewrite py_eq_refl.
Qed.

Lemma same_element_sym (v w : value) : same_element v w = same_element w v.
Proof.
  unfold same_element. rewrite (py_eq_sym v w). f_equal.
  destruct v as [| | |[]|], w as [| | |[]|]; done.
Qed.

Lemma number_compare_eq_zero (a b : number) :
  number_compare a b = Some Eq →
  match a, b with
  | Finite m1 _, Finite m2 _ => m1 = 0 ↔ m2 = 0
  | Infinite _, Infinite _ => True
  | _, _ => False
  end.
Proof.
  destruct a as [m1 e1|[]|], b as [m2 e2|[]|]; cbn; try done.
  unfold dyadic_compare. intros [= Hc%Z.compare_eq_iff].
  assert (∀ k, 0 ≤ k → 0 < 2 ^ k) as Hpos by (intros; by apply Z.pow_pos_nonneg).
  pose proof (Hpos (e1 - Z.min e1 e2) ltac:(lia)).
  pose proof (Hpos (e2 - Z.min e1 e2) ltac:(lia)).
  split; intros ->; nia.
Qed.

Lemma py_truthy_number (v : value) (a : number) :
  number_of_value v = Some a →
  py_truthy v = match a with Finite m _ => negb (m =? 0) | _ => true end.
Proof.
  destruct v as [|b|z|f|s]; try done; intros [= <-].
  - by destruct b.
  - done.
  - by destruct f as [?|?| |[] ? ?].
Qed.

Lemma same_element_kind (v w : value) :
  same_element v w = true →
  is_text v = is_text w ∧ is_number v = is_number w
  ∧ py_truthy v = py_truthy w.
Proof.
  clear text_to_numeric int_cast render_pdf float_repr.
  unfold same_element. intros [Heq|Hnan]%orb_prop.
  2:{ destruct v as [| | |[]|], w as [| | |[]|]; done. }
  destruct v as [|b|z|f|s], w as [|b'|z'|f'|s'];
    try done; try (by cbn in Heq).
  all: try (cbn [py_eq] in Heq; apply String.eqb_eq in Heq as ->; done).
  all: split_and!; [done..|].
  all: unfold py_eq in Heq; cbv beta iota in Heq.
  all: match type of Heq with
       | context [number_of_value ?x] =>
           rewrite (py_truthy_number x _ eq_refl)
       end.
  all: match goal with
       | |- _ = py_truthy ?y => rewrite (py_truthy_number y _ eq_refl)
       end.
  all: cbn [number_of_value] in Heq |- *.
  all: match type of Heq with
       | context [number_compare ?a ?b] =>
           destruct (number_compare a b) as [[]|] eqn:Hc; try done;
           apply number_compare_eq_zero in Hc;
           destruct a as [m1 e1|s1|] eqn:HA, b as [m2 e2|s2|] eqn:HB;
           try done
       end.
  all: repeat match goal with
         | H : Finite _ _ = Finite _ _ |- _ => injection H as ? ?; subst
         end.
  all: repeat match goal with
         | |- context [?x =? 0] => destruct (Z.eqb_spec x 0)
         end; cbn [negb]; try done; tauto.
Qed.

Lemma py_set_fold (xs acc : list value) :
  let step := fun acc x =>
    if existsb (same_element x) acc then acc else acc ++ [x] in
  (∀ y, y ∈ fold_left step xs acc → y ∈ acc ∨ y ∈ xs)
  ∧ (∀ y, y ∈ acc → y ∈ fold_left step xs acc)
  ∧ (∀ x, x ∈ xs →
       ∃ y, y ∈ fold_left step xs acc ∧ same_element x y = true)
  ∧ (NoDup acc →
     (∀ v w, v ∈ acc → w ∈ acc → same_element v w = true → v = w) →
     NoDup (fold_left step xs acc)
     ∧ ∀ v w, v ∈ fold_left step xs acc → w ∈ fold_left step xs acc →
              same_element v w = true → v = w).
Proof.
  intros step. revert acc. induction xs as [|x xs IH]; intros acc.
  { cbn [fold_left]. split_and!; [auto|done| |done].
    by intros x ?%elem_of_nil. }
  cbn [fold_left]. destruct (IH (step acc x)) as (Hsub & Hkeep & Hrep & Hdist).
  assert (∀ y, y ∈ acc → y ∈ step acc x) as Hgrow.
  { intros y Hy. unfold step. destruct (existsb _ acc); [done|].
    apply elem_of_app. by left. }
  assert (∃ y, y ∈ step acc x ∧ same_element x y = true) as (y0 & Hy0 & Hxy0).
  { unfold step. destruct (existsb (same_element x) acc) eqn:Hex.
    - apply existsb_exists in Hex as (y & Hy%list_elem_of_In & Hxy). eauto.
    - exists x. split; [|apply same_element_refl].
      apply elem_of_app. right. left. }
  split_and!.
  - intros y Hy. destruct (Hsub y Hy) as [Hstep|Hin]; [|right; by right].
    unfold step in Hstep. destruct (existsb _ acc); [by left|].
    apply elem_of_app in Hstep as [?| ->%list_elem_of_singleton];
      [by left|right; left].
  - intros y Hy. by apply Hkeep, Hgrow.
  - intros x' [->|Hin]%elem_of_cons; [|by apply Hrep].
    exists y0. split; [by apply Hkeep|done].
  - intros Hnodup Hacc. apply Hdist.
    + unfold step. destruct (existsb (same_element x) acc) eqn:Hex; [done|].
      apply NoDup_app. split_and!; [done| |apply NoDup_singleton].
      intros y Hy Hyx%list_elem_of_singleton. subst y.
      assert (existsb (same_element x) acc = true) as Htrue; [|congruence].
      apply existsb_exists. exists x.
      split; [by apply list_elem_of_In|apply same_element_refl].
    + unfold step. destruct (existsb (same_element x) acc) eqn:Hex; [done|].
      assert (∀ y, y ∈ acc → same_element x y = false) as Hfresh.
      { intros y Hy. destruct (same_element x y) eqn:Hxy; [|done].
        assert (existsb (same_element x) acc = true) as Htrue; [|congruence].
        apply existsb_exists. exists y. split; [by apply list_elem_of_In|done]. }
      intros v w [Hv| ->%list_elem_of_singleton]%elem_of_app
        [Hw| ->%list_elem_of_singleton]%elem_of_app Hvw; [by auto| | |done].
      * rewrite same_element_sym, (Hfresh v Hv) in Hvw. done.
      * by rewrite (Hfresh w Hw) in Hvw.
Qed.

Lemma sorted_insert_Permutation (x : value) (sorted sorted' : list value) :
  sorted_insert x sorted = Ok sorted' → sorted' ≡ₚ x :: sorted.
Proof.
  revert sorted'. induction sorted as [|y rest IH]; intros sorted'.
  { by intros [= <-]. }
  cbn [sorted_insert]. intros (b & _ & Hb)%bind_Ok.
  destruct b; [by injection Hb as <-|].
  apply bind_Ok in Hb as (rest' & Hrest%IH & [= <-]).
  rewrite Hrest. apply perm_swap.
Qed.

Lemma py_sorted_Permutation (xs ys : list value) :
  py_sorted xs = Ok ys → ys ≡ₚ xs.
Proof.
  revert ys. induction xs as [|x rest IH]; intros ys; [by intros [= <-]|].
  cbn [py_sorted]. intros (sorted & Hs%IH & Hins%sorted_insert_Permutation)%bind_Ok.
  by rewrite Hins, Hs.
Qed.

(** X8: when the menu of line 576 is built, each of its entries is a
    truthy invoice number of some record, every truthy invoice number of
    a record is in it, up to [==], and no two of its entries are equal:
    [set] has merged the numbers that compare equal, so 3 and 3.0 give
    one entry. *)
Theorem invoice_numbers_complete (all_orders : list record)
    (numbers : list value)
    (Hnumbers : invoice_numbers_of all_orders = Ok numbers) :
  (∀ v, v ∈ numbers →
        py_truthy v = true
        ∧ ∃ o, o ∈ all_orders ∧ py_get o "invoice_number" VNone = v)
  ∧ (∀ o, o ∈ all_orders →
          py_truthy (py_get o "invoice_number" VNone) = true →
          ∃ v, v ∈ numbers
               ∧ same_element (py_get o "invoice_number" VNone) v = true)
  ∧ NoDup numbers
  ∧ (∀ v w, v ∈ numbers → w ∈ numbers → py_eq v w = true → v = w).
Proof.
  unfold invoice_numbers_of in Hnumbers.
  apply py_sorted_Permutation in Hnumbers.
  set (truthy := List.filter py_truthy
                   (List.map (fun o => py_get o "invoice_number" VNone)
                      all_orders)) in *.
  destruct (py_set_fold truthy []) as (Hsub & _ & Hrep & Hdist).
  fold (py_set truthy) in Hsub, Hrep, Hdist.
  assert (∀ v, v ∈ truthy ↔
               py_truthy v = true
               ∧ ∃ o, o ∈ all_orders ∧ py_get o "invoice_number" VNone = v)
    as Htruthy.
  { intros v. unfold truthy.
    rewrite list_elem_of_In, filter_In, in_map_iff. split.
    - intros [(o & <- & Ho%list_elem_of_In) Hyes]. eauto.
    - intros [Hyes (o & Ho & <-)]. split; [|done].
      exists o. split; [done|]. by apply list_elem_of_In. }
  destruct Hdist as [Hnodup Hone]; [apply NoDup_nil_2|by intros ? ? ?%elem_of_nil|].
  split_and!.
  - intros v Hv. rewrite Hnumbers in Hv.
    destruct (Hsub v Hv) as [?%elem_of_nil|Hin]; [done|]. by apply Htruthy.
  - intros o Ho Hyes.
    destruct (Hrep (py_get o "invoice_number" VNone)) as (v & Hv & Hsame).
    { apply Htruthy. eauto. }
    exists v. split; [by rewrite Hnumbers|done].
  - by rewrite Hnumbers.
  - intros v w Hv Hw Heq. rewrite Hnumbers in Hv, Hw.
    apply (Hone v w Hv Hw). unfold same_element. by rewrite Heq.
Qed.

Lemma py_lt_kind (v w : value) (b : bool) :
  py_lt v w = Ok b →
  is_text v = true ∧ is_text w = true
  ∨ is_number v = true ∧ is_number w = true.
Proof. destruct v, w; cbn; try done; auto. Qed.

Lemma py_lt_same_kind (v w : value) :
  is_text v = true ∧ is_text w = true
  ∨ is_number v = true ∧ is_number w = true →
  ∃ b, py_lt v w = Ok b.
Proof. destruct v, w; cbn; intros [[??]|[??]]; try done; eauto. Qed.

Lemma text_not_number (v : value) :
  is_text v = true → is_number v = true → False.
Proof. by destruct v. Qed.

Lemma py_sorted_uniform (xs ys : list value) :
  py_sorted xs = Ok ys →
  (length xs ≤ 1)%nat
  ∨ Forall (fun v => is_text v = true) xs
  ∨ Forall (fun v => is_number v = true) xs.
Proof.
  revert ys. induction xs as [|x rest IH]; intros ys; [left; cbn; lia|].
  cbn [py_sorted]. intros (sorted & Hsorted & Hins)%bind_Ok.
  pose proof (py_sorted_Permutation _ _ Hsorted) as Hperm.
  destruct sorted as [|y sorted'].
  { apply Permutation_nil_l in Hperm as <-. left. cbn. lia. }
  cbn [sorted_insert] in Hins. apply bind_Ok in Hins as (b & Hkind%py_lt_kind & _).
  assert (y ∈ rest) as Hy by (rewrite <- Hperm; left).
  right. destruct (IH _ Hsorted) as [Hlen|[Htext|Hnum]].
  - destruct rest as [|y' [|? ?]]; [by apply elem_of_nil in Hy| |cbn in Hlen; lia].
    apply list_elem_of_singleton in Hy as ->.
    destruct Hkind as [[??]|[??]]; [left|right]; by repeat constructor.
  - left. constructor; [|done].
    destruct Hkind as [[??]|[? Hnum]]; [done|].
    destruct (text_not_number y); [|done].
    by apply (proj1 (Forall_forall _ _) Htext).
  - right. constructor; [|done].
    destruct Hkind as [[? Htext]|[??]]; [|done].
    destruct (text_not_number y); [done|].
    by apply (proj1 (Forall_forall _ _) Hnum).
Qed.

Lemma sorted_insert_total (x : value) (sorted : list value) :
  (∀ y, y ∈ sorted → ∃ b, py_lt x y = Ok b) →
  ∃ sorted', sorted_insert x sorted = Ok sorted'.
Proof.
  induction sorted as [|y rest IH]; intros Hall; [by eexists|].
  cbn [sorted_insert]. destruct (Hall y) as [b ->]; [left|].
  cbn [mbind result_bind]. destruct b; [by eexists|].
  destruct IH as [rest' ->]; [|by eexists].
  intros y' Hy'. apply Hall. by right.
Qed.

Lemma py_sorted_total (xs : list value) :
  Forall (fun v => is_text v = true) xs
  ∨ Forall (fun v => is_number v = true) xs →
  ∃ ys, py_sorted xs = Ok ys.
Proof.
  induction xs as [|x rest IH]; intros Hkind; [by eexists|].
  cbn [py_sorted]. destruct IH as [sorted Hsorted].
  { destruct Hkind as [Hk|Hk]; apply Forall_cons in Hk as [_ ?]; auto. }
  rewrite Hsorted. cbn [mbind result_bind].
  apply sorted_insert_total. intros y Hy.
  rewrite (py_sorted_Permutation _ _ Hsorted) in Hy.
  apply py_lt_same_kind.
  destruct Hkind as [Hk|Hk]; apply Forall_cons in Hk as [Hx Hrest];
    [left|right]; (split; [done|]);
    by apply (proj1 (Forall_forall _ _) Hrest).
Qed.

Lemma forallb_false_elem {A} (f : A → bool) (l : list A) :
  forallb f l = false → ∃ x, x ∈ l ∧ f x = false.
Proof.
  induction l as [|x l IH]; [done|]. cbn [forallb].
  destruct (f x) eqn:Hx.
  - intros (y & Hy & Hfy)%IH. exists y. split; [by right|done].
  - intros _. exists x. split; [left|done].
Qed.

(** X9: building the menu of line 576 either returns or raises
    [TypeError], and it raises exactly when the records hold both a
    non-empty text and a truthy number as invoice numbers: [sorted]
    cannot order a string against a number.  A JSON order file with
    ["3"] in one record and [3] in another stops the OrderLine path
    there. *)
Theorem invoice_numbers_type_error (all_orders : list record) :
  ((∃ numbers, invoice_numbers_of all_orders = Ok numbers)
   ∨ invoice_numbers_of all_orders = Raise TypeError)
  ∧ (invoice_numbers_of all_orders = Raise TypeError ↔
     (∃ o, o ∈ all_orders
           ∧ is_text (invoice_number_of o) = true
           ∧ py_truthy (invoice_number_of o) = true)
     ∧ (∃ o, o ∈ all_orders
             ∧ is_number (invoice_number_of o) = true
             ∧ py_truthy (invoice_number_of o) = true)).
Proof.

  assert ((∃ numbers, invoice_numbers_of all_orders = Ok numbers)
          ∨ invoice_numbers_of all_orders = Raise TypeError) as Hcases.
  { destruct (invoice_numbers_of all_orders) as [numbers|e] eqn:Hn; [by eauto|].
    right. unfold invoice_numbers_of in Hn. by apply py_sorted_Raise in Hn as ->. }
  split; [done|].
  unfold invoice_numbers_of, invoice_number_of in *.
  set (truthy := List.filter py_truthy
                   (List.map (fun o => py_get o "invoice_number" VNone)
                      all_orders)) in *.
  destruct (py_set_fold truthy []) as (Hsub & _ & Hrep & _).
  fold (py_set truthy) in Hsub, Hrep.
  assert (∀ v, v ∈ truthy ↔
               py_truthy v = true
               ∧ ∃ o, o ∈ all_orders ∧ py_get o "invoice_number" VNone = v)
    as Htruthy.
  { intros v. unfold truthy.
    rewrite list_elem_of_In, filter_In, in_map_iff. split.
    - intros [(o & <- & Ho%list_elem_of_In) Hyes]. eauto.
    - intros [Hyes (o & Ho & <-)]. split; [|done].
      exists o. split; [done|]. by apply list_elem_of_In. }
  assert (∀ v, v ∈ py_set truthy →
               py_truthy v = true
               ∧ ∃ o, o ∈ all_orders ∧ py_get o "invoice_number" VNone = v)
    as Hset.
  { intros v Hv. destruct (Hsub v Hv) as [?%elem_of_nil|Hin]; [done|].
    by apply Htruthy. }
  split.
  - intros Hraise.
    destruct (forallb is_text (py_set truthy)) eqn:Htext.
    { destruct (py_sorted_total (py_set truthy)) as [ys Hys]; [|congruence].
      left. apply Forall_forall. intros v Hv%list_elem_of_In.
      by apply (proj1 (forallb_forall _ _) Htext). }
    destruct (forallb is_number (py_set truthy)) eqn:Hnum.
    { destruct (py_sorted_total (py_set truthy)) as [ys Hys]; [|congruence].
      right. apply Forall_forall. intros v Hv%list_elem_of_In.
      by apply (proj1 (forallb_forall _ _) Hnum). }
    apply forallb_false_elem in Htext as (n & Hn & Hntext).
    apply forallb_false_elem in Hnum as (s & Hs & Hsnum).
    destruct (Hset n Hn) as (Hnyes & on & Hon & Hnval).
    destruct (Hset s Hs) as (Hsyes & os & Hos & Hsval).
    split.
    + exists os. rewrite Hsval. split_and!; [done| |done].
      by destruct s.
    + exists on. rewrite Hnval. split_and!; [done| |done].
      by destruct n.
  - intros [(os & Hos & Hst & Hsy) (on & Hon & Hnn & Hny)].
    destruct Hcases as [[numbers Hok]|Hraise]; [|done].
    destruct (Hrep (py_get os "invoice_number" VNone)) as (s & Hs & Hss).
    { apply Htruthy. eauto. }
    destruct (Hrep (py_get on "invoice_number" VNone)) as (n & Hn & Hnn').
    { apply Htruthy. eauto. }
    apply same_element_kind in Hss as (Hstext & _ & _).
    apply same_element_kind in Hnn' as (_ & Hnnum & _).
    rewrite Hst in Hstext. rewrite Hnn in Hnnum.
    destruct (py_sorted_uniform _ _ Hok) as [Hlen|[Htext|Hnum]].
    + destruct (py_set truthy) as [|a [|b rest]];
        [by apply elem_of_nil in Hs| |cbn in Hlen; lia].
      apply list_elem_of_singleton in Hs as ->.
      apply list_elem_of_singleton in Hn as ->.
      by destruct (text_not_number a).
    + destruct (text_not_number n); [|done].
      by apply (proj1 (Forall_forall _ _) Htext).
    + destruct (text_not_number s); [done|].
      by apply (proj1 (Forall_forall _ _) Hnum).
Qed.

Lemma dyadic_compare_int (a b : Z) : dyadic_compare a 0 b 0 = (a ?= b).
Proof.
  unfold dyadic_compare. cbv zeta.
  by rewrite Z.min_id, Z.sub_diag, Z.pow_0_r, !Z.mul_1_r.
Qed.

Lemma py_lt_int (a b : Z) : py_lt (VInt a) (VInt b) = Ok (a <? b).
Proof.
  cbn [py_lt number_of_value number_compare]. by rewrite dyadic_compare_int.
Qed.

Lemma py_eq_int (a b : Z) : py_eq (VInt a) (VInt b) = (a =? b).
Proof.
  unfold py_eq. cbn [number_of_value number_compare].
  rewrite dyadic_compare_int.
  destruct (Z.compare_spec a b), (Z.eqb_spec a b); try done; lia.
Qed.

Lemma sorted_insert_int (x : Z) (sorted : list Z) :
  sorted_insert (VInt x) (VInt <$> sorted) = Ok (VInt <$> insert_Z x sorted).
Proof.
  induction sorted as [|y rest IH]; [done|].
  rewrite fmap_cons. cbn [sorted_insert insert_Z]. rewrite py_lt_int.
  cbn [mbind result_bind]. destruct (x <? y); [done|]. by rewrite IH.
Qed.

Lemma py_sorted_int (zs : list Z) :
  py_sorted (VInt <$> zs) = Ok (VInt <$> sort_Z zs).
Proof.
  induction zs as [|z rest IH]; [done|].
  rewrite fmap_cons. cbn [py_sorted]. rewrite IH. cbn [mbind result_bind].
  apply sorted_insert_int.
Qed.

Lemma insert_Z_Permutation (x : Z) (sorted : list Z) :
  insert_Z x sorted ≡ₚ x :: sorted.
Proof.
  induction sorted as [|y rest IH]; [done|]. cbn [insert_Z].
  destruct (x <? y); [done|]. rewrite IH. apply perm_swap.
Qed.

Lemma sort_Z_Permutation (zs : list Z) : sort_Z zs ≡ₚ zs.
Proof.
  induction zs as [|z rest IH]; [done|].
  cbn [sort_Z foldr]. fold (sort_Z rest).
  by rewrite insert_Z_Permutation, IH.
Qed.

Lemma insert_Z_sorted (x : Z) (sorted : list Z) :
  StronglySorted Z.le sorted → StronglySorted Z.le (insert_Z x sorted).
Proof.
  induction 1 as [|y rest Hrest IH Hy]; [by repeat constructor|].
  cbn [insert_Z]. destruct (Z.ltb_spec x y).
  - constructor; [by constructor|]. constructor; [lia|].
    eapply Forall_impl; [exact Hy|]. intros z Hz. cbn in Hz. lia.
  - constructor; [done|]. rewrite insert_Z_Permutation.
    constructor; [lia|done].
Qed.

Lemma sort_Z_sorted (zs : list Z) : StronglySorted Z.le (sort_Z zs).
Proof.
  induction zs as [|z rest IH]; [constructor|].
  cbn [sort_Z foldr]. fold (sort_Z rest). by apply insert_Z_sorted.
Qed.

Lemma sorted_NoDup_strict (zs : list Z) :
  StronglySorted Z.le zs → NoDup zs → StronglySorted Z.lt zs.
Proof.
  induction 1 as [|z rest Hrest IH Hz]; intros Hnodup; [constructor|].
  apply NoDup_cons in Hnodup as [Hfresh Hnodup].
  constructor; [by apply IH|].
  apply Forall_forall. intros y Hy.
  pose proof (proj1 (Forall_forall _ _) Hz y Hy) as Hle. cbn in Hle.
  assert (z ≠ y) by (intros ->; done). lia.
Qed.

Lemma integers_of_values (vs : list value) :
  Forall (fun v => is_integer v = true) vs → ∃ zs, vs = VInt <$> zs.
Proof.
  induction 1 as [|v rest Hv _ [zs ->]]; [by exists []|].
  destruct v as [| |z| |]; try done. by exists (z :: zs).
Qed.

Lemma int_invoice_numbers (all_orders : list record) :
  (∀ o, o ∈ all_orders →
        invoice_number_of o = VNone ∨ ∃ z, invoice_number_of o = VInt z) →
  ∃ zs, invoice_numbers_of all_orders = Ok (VInt <$> zs)
        ∧ StronglySorted Z.lt zs
        ∧ ∀ z, z ∈ zs ↔
               z ≠ 0 ∧ ∃ o, o ∈ all_orders ∧ invoice_number_of o = VInt z.
Proof.
  intros Hint. unfold invoice_numbers_of, invoice_number_of in *.
  set (truthy := List.filter py_truthy
                   (List.map (fun o => py_get o "invoice_number" VNone)
                      all_orders)) in *.
  assert (∀ v, v ∈ truthy ↔
               ∃ z, v = VInt z ∧ z ≠ 0
                    ∧ ∃ o, o ∈ all_orders
                           ∧ py_get o "invoice_number" VNone = VInt z)
    as Htruthy.
  { intros v. unfold truthy.
    rewrite list_elem_of_In, filter_In, in_map_iff. split.
    - intros [(o & <- & Ho%list_elem_of_In) Hyes].
      destruct (Hint o Ho) as [Hnone|[z Hz]]; [by rewrite Hnone in Hyes|].
      exists z. rewrite Hz in Hyes |- *. split_and!; [done| |by eauto].
      intros ->. done.
    - intros (z & -> & Hz & o & Ho & Hval). split.
      + exists o. split; [done|]. by apply list_elem_of_In.
      + cbn. by destruct (Z.eqb_spec z 0). }
  destruct (py_set_fold truthy []) as (Hsub & _ & Hrep & Hdist).
  fold (py_set truthy) in Hsub, Hrep, Hdist.
  destruct Hdist as [Hnodup _];
    [apply NoDup_nil_2|by intros ? ? ?%elem_of_nil|].
  destruct (integers_of_values (py_set truthy)) as [zs0 Hzs0].
  { apply Forall_forall. intros v Hv.
    destruct (Hsub v Hv) as [?%elem_of_nil|Hin]; [done|].
    by apply Htruthy in Hin as (z & -> & _). }
  rewrite Hzs0 in *. exists (sort_Z zs0). split_and!.
  - apply py_sorted_int.
  - apply sorted_NoDup_strict; [apply sort_Z_sorted|].
    rewrite sort_Z_Permutation. by eapply NoDup_fmap_1.
  - intros z. rewrite sort_Z_Permutation. split.
    + intros Hz.
      destruct (Hsub (VInt z)) as [?%elem_of_nil|Hin];
        [by apply list_elem_of_fmap_2|done|].
      apply Htruthy in Hin as (z' & [= <-] & Hnz & Ho). done.
    + intros [Hnz (o & Ho & Hval)].
      destruct (Hrep (VInt z)) as (v & Hv & Hsame).
      { apply Htruthy. exists z. eauto. }
      apply list_elem_of_fmap in Hv as (z' & -> & Hz').
      unfold same_element in Hsame. rewrite py_eq_int, orb_false_r in Hsame.
      by apply Z.eqb_eq in Hsame as ->.
Qed.

(** X10: for an order file in CSV form that loads, the menu of line 576
    never fails: it lists the invoice numbers of the rows that are not
    0, each once, as integers in strictly ascending order.  A row whose
    invoice number was not numeric was loaded as 0 and is in no entry of
    the menu. *)
Theorem csv_invoice_menu (directory : gmap string file) (path : string)
    (recs : list record)
    (Hsuffix : lower (suffix path) = ".csv")
    (Hload : load_data directory path = Ok recs) :
  ∃ zs, invoice_numbers_of recs = Ok (VInt <$> zs)
        ∧ StronglySorted Z.lt zs
        ∧ ∀ z, z ∈ zs ↔
               z ≠ 0 ∧ ∃ r, r ∈ recs ∧ r !! "invoice_number" = Some (VInt z).
Proof.
  unfold load_data, open_file in Hload. rewrite Hsuffix in Hload.
  simpl (String.eqb _ _) in Hload. cbv iota in Hload.
  destruct (directory !! path) as [f|]; [|done].
  cbn [mbind result_bind] in Hload.
  destruct (read_csv f) as [df|]; [|done]. cbn [call mbind result_bind] in Hload.
  destruct (load_csv_rows _ _ Hload) as [_ Hrows].
  assert (∀ r, r ∈ recs →
               r !! "invoice_number" = None
               ∨ ∃ z, r !! "invoice_number" = Some (VInt z)) as Hcell.
  { intros r [i Hi]%list_elem_of_lookup.
    destruct (Hrows i r Hi "invoice_number") as [Hco _].
    unfold coerced in Hco.
    destruct (row_at i (df_data df) !! "invoice_number").
    - destruct Hco as (z & _ & ->); [|by eauto].
      apply list_elem_of_In. simpl. auto.
    - left. apply Hco. apply list_elem_of_In. simpl. auto. }
  destruct (int_invoice_numbers recs) as (zs & Hzs & Hsorted & Hmem).
  { intros r Hr. unfold invoice_number_of, py_get.
    destruct (Hcell r Hr) as [-> |[z ->]]; [by left|right; by exists z]. }
  exists zs. split_and!; [done..|].
  intros z. rewrite Hmem. unfold invoice_number_of, py_get.
  split; intros [Hnz (r & Hr & Hval)]; (split; [done|]); exists r;
    (split; [done|]).
  - destruct (Hcell r Hr) as [Hnone|[z' Hz']].
    + by rewrite Hnone in Hval.
    + rewrite Hz' in Hval |- *. cbn in Hval. congruence.
  - by rewrite Hval.
Qed.

Lemma invoice_numbers_sound (all_orders : list record) (numbers : list value)
    (v : value) :
  invoice_numbers_of all_orders = Ok numbers →
  v ∈ numbers →
  py_truthy v = true ∧ ∃ o, o ∈ all_orders ∧ invoice_number_of o = v.
Proof.
  unfold invoice_numbers_of, invoice_number_of.
  intros Hperm%py_sorted_Permutation Hv. rewrite Hperm in Hv.
  destruct (py_set_fold
              (List.filter py_truthy
                 (List.map (fun o => py_get o "invoice_number" VNone)
                    all_orders)) []) as (Hsub & _).
  destruct (Hsub v Hv) as [?%elem_of_nil|Hin]; [done|].
  apply list_elem_of_In, filter_In in Hin as [Hin Hyes].
  apply in_map_iff in Hin as (o & <- & Ho%list_elem_of_In). eauto.
Qed.

(** X11: every entry of the menu of line 576, a NaN apart, has at least
    one order line: the filter of line 585 on the selected entry returns
    a record that carries exactly that invoice number, so the artifact
    of the OrderLine path is never without rows.  For a NaN the filter
    returns nothing, on any list, since NaN equals nothing. *)
Theorem menu_entry_has_lines (all_orders : list record) (numbers : list value)
    (selected : value)
    (Hnumbers : invoice_numbers_of all_orders = Ok numbers)
    (Hselected : selected ∈ numbers) :
  (selected ≠ VFloat S754_nan →
   ∃ o, o ∈ orders_for_invoice all_orders selected
        ∧ py_get o "invoice_number" VNone = selected)
  ∧ (selected = VFloat S754_nan →
     ∀ orders, orders_for_invoice orders selected = []).
Proof.
  split.
  - intros Hnan.
    destruct (invoice_numbers_sound _ _ _ Hnumbers Hselected)
      as (_ & o & Ho & Hval).
    exists o. split; [|done]. apply elem_of_orders_for_invoice.
    split; [done|]. unfold matches. unfold invoice_number_of in Hval.
    rewrite Hval. by apply py_eq_refl.
  - intros -> orders. apply orders_for_invoice_no_match.
    intros o _. unfold matches.
    by destruct (py_get o "invoice_number" VNone) as [| | |[]|].
Qed.

Lemma sum_from_Ok (orders : list record) (acc t : Z) :
  sum_from acc orders = Ok t → forallb order_line orders = true.
Proof.
  revert acc. induction orders as [|o rest IH]; intros acc; [done|].
  rewrite sum_from_cons. intros (x & Hx & Hrest)%bind_Ok.
  cbn [forallb]. rewrite (IH _ Hrest), andb_true_r.
  unfold line_total in Hx. unfold order_line, converts.
  apply bind_Ok in Hx as (q & -> & Hx). by apply bind_Ok in Hx as (p & -> & _).
Qed.

Lemma sum_from_first_raise (before after : list record) (o : record)
    (acc : Z) (e : exn) :
  forallb order_line before = true →
  line_total o = Raise e →
  sum_from acc (before ++ o :: after) = Raise e.
Proof.
  revert acc. induction before as [|b rest IH]; intros acc Hall Ho.
  - cbn [app]. by rewrite sum_from_cons, Ho.
  - cbn [forallb] in Hall. apply andb_prop in Hall as [Hb Hall].
    rewrite <- app_comm_cons, sum_from_cons, (line_total_order_line b Hb).
    cbn [mbind result_bind]. by apply IH.
Qed.

(** X12: the total of line 588 is computed exactly when every line it
    is given converts, and otherwise the exception is the one of the
    first line, in list order, whose quantity or price [int] refuses:
    [TypeError] for [None], [ValueError] for a text that is no integer
    or for NaN, [OverflowError] for an infinity.  The lines after it are
    not looked at. *)
Theorem total_sum_first_failure (orders : list record) :
  ((∃ t, total_sum orders = Ok t) ↔ forallb order_line orders = true)
  ∧ (∀ e, total_sum orders = Raise e ↔
          ∃ before o after,
            orders = before ++ o :: after
            ∧ forallb order_line before = true
            ∧ line_total o = Raise e)
  ∧ (∀ e, total_sum orders = Raise e →
          e = TypeError ∨ e = OverflowError ∨ e = ValueError).
Proof.
  unfold total_sum. split_and!.
  - split; [by intros [t ?%sum_from_Ok]|]. intros Hall.
    assert (∀ acc, ∃ t, sum_from acc orders = Ok t) as Hok; [|by apply Hok].
    induction orders as [|o rest IH]; intros acc; [by eexists|].
    cbn [forallb] in Hall. apply andb_prop in Hall as [Ho Hall].
    rewrite sum_from_cons, (line_total_order_line o Ho).
    cbn [mbind result_bind]. by apply IH.
  - intros e. split; [|by intros (b & o & a & -> & ? & ?);
                        apply sum_from_first_raise].
    generalize 0. induction orders as [|o rest IH]; intros acc; [done|].
    rewrite sum_from_cons. intros [Ho|(t & Ht & Hrest)]%bind_Raise.
    + by exists [], o, rest.
    + destruct (IH _ Hrest) as (before & o' & after & -> & Hall & Ho').
      exists (o :: before), o', after. split_and!; [done| |done].
      cbn [forallb]. rewrite Hall, andb_true_r.
      unfold line_total in Ht. unfold order_line, converts.
      apply bind_Ok in Ht as (q & -> & Ht).
      by apply bind_Ok in Ht as (p & -> & _).
  - intros e (o & _ & Ho)%sum_from_Raise. by eapply line_total_Raise.
Qed.

(** ** Further properties of the conversions *)

Lemma dyadic_compare_Eq (m1 e1 m2 e2 E : Z) :
  E ≤ e1 → E ≤ e2 →
  dyadic_compare m1 e1 m2 e2 = Eq ↔ m1 * 2 ^ (e1 - E) = m2 * 2 ^ (e2 - E).
Proof.
  intros H1 H2. unfold dyadic_compare. rewrite Z.compare_eq_iff.
  set (e := Z.min e1 e2).
  assert (0 < 2 ^ (e - E)) as Hpos by (apply Z.pow_pos_nonneg; lia).
  replace (e1 - E) with ((e1 - e) + (e - E)) by lia.
  replace (e2 - E) with ((e2 - e) + (e - E)) by lia.
  rewrite !Z.pow_add_r by lia. split; [intros Heq; nia|].
  rewrite !Z.mul_assoc. intros Heq. by apply Z.mul_cancel_r in Heq; [|lia].
Qed.

Lemma number_compare_trans (a b c : number) :
  number_compare a b = Some Eq → number_compare b c = Some Eq →
  number_compare a c = Some Eq.
Proof.
  destruct a as [m1 e1|[]|], b as [m2 e2|[]|], c as [m3 e3|[]|];
    cbn; try done.
  intros [= H12] [= H23]. f_equal.
  apply (dyadic_compare_Eq _ _ _ _ (Z.min e1 (Z.min e2 e3))) in H12; [|lia..].
  apply (dyadic_compare_Eq _ _ _ _ (Z.min e1 (Z.min e2 e3))) in H23; [|lia..].
  apply (dyadic_compare_Eq _ _ _ _ (Z.min e1 (Z.min e2 e3))); [lia..|].
  congruence.
Qed.

Lemma py_eq_trans (u v w : value) :
  py_eq u v = true → py_eq v w = true → py_eq u w = true.
Proof.
  assert (∀ x y a b, number_of_value x = Some a → number_of_value y = Some b →
            py_eq x y = match number_compare a b with
                        | Some Eq => true
                        | _ => false
                        end) as Hnum.
  { intros x y a b Hx Hy. destruct x; try done; destruct y; try done;
      unfold py_eq; cbv beta iota; by rewrite Hx, Hy. }
  destruct (number_of_value u) as [a|] eqn:Hu,
           (number_of_value v) as [b|] eqn:Hv,
           (number_of_value w) as [c|] eqn:Hw.
  - rewrite (Hnum u v a b), (Hnum v w b c), (Hnum u w a c) by done.
    destruct (number_compare a b) as [[]|] eqn:Hab; try done.
    destruct (number_compare b c) as [[]|] eqn:Hbc; try done.
    by rewrite (number_compare_trans _ _ _ Hab Hbc).
  - destruct v; try done; destruct w; done.
  - destruct u; try done; destruct v; done.
  - destruct u; try done; destruct v; done.
  - destruct u; try done; destruct v; done.
  - destruct u; try done; destruct v; done.
  - destruct v; try done; destruct w; done.
  - destruct u, v, w; try done. cbn.
    rewrite !String.eqb_eq. congruence.
Qed.

(** X14: two identifiers that are equal for [==] select the same order
    lines, on every list of records, and so give the same total: the
    integer 3 and the float 3.0 are one invoice for lines 526 and
    585. *)
Theorem equal_identifiers_same_orders (a b : value)
    (Hequal : py_eq a b = true) :
  ∀ all_orders,
    orders_for_invoice all_orders a = orders_for_invoice all_orders b
    ∧ total_sum (orders_for_invoice all_orders a)
      = total_sum (orders_for_invoice all_orders b).
Proof.
  intros all_orders.
  assert (orders_for_invoice all_orders a = orders_for_invoice all_orders b)
    as Hsame; [|by rewrite Hsame].
  induction all_orders as [|o rest IH]; [done|].
  rewrite !orders_for_invoice_cons, IH.
  assert (matches a o = matches b o) as ->; [|done].
  unfold matches.
  destruct (py_eq (py_get o "invoice_number" VNone) a) eqn:Ha.
  - symmetry. by eapply py_eq_trans.
  - destruct (py_eq (py_get o "invoice_number" VNone) b) eqn:Hb; [|done].
    rewrite py_eq_sym in Hequal.
    by rewrite (py_eq_trans _ _ _ Hb Hequal) in Ha.
Qed.
















Lemma within_spec (n : nat) (index : Z) :
  within n index = true ↔ 0 ≤ index < Z.of_nat n.
Proof. unfold within. rewrite andb_true_iff, Z.leb_le, Z.ltb_lt. done. Qed.

Lemma split_on_nonempty (sep : ascii) (s : string) : split_on sep s ≠ [].
Proof.
  destruct s as [|a rest]; [done|]. cbn [split_on].
  destruct (Ascii.eqb a sep); [done|]. by destruct (split_on sep rest).
Qed.

Lemma within_indices (n : nat) (numbers : list Z) :
  forallb (within n) ((fun number => number - 1) <$> numbers) = true →
  Forall (fun i => (i < n)%nat)
    (Z.to_nat <$> ((fun number => number - 1) <$> numbers))
  ∧ (fun i => Z.of_nat i + 1)
      <$> (Z.to_nat <$> ((fun number => number - 1) <$> numbers)) = numbers.
Proof.
  induction numbers as [|z numbers IH]; [done|].
  rewrite !fmap_cons. cbn [forallb]. rewrite andb_true_iff.
  intros [Hz%within_spec Hrest]. destruct (IH Hrest) as [IHrange IHback].
  split.
  - constructor; [lia|done].
  - rewrite IHback. f_equal. lia.
Qed.

(** X16: [display_menu] returns only an index of the list shown, and it
    is the answer of the first line typed that is a number from 1 to the
    length of the list; the lines before it were neither an exit word nor
    such a number, and no interruption came before it.  On an empty list
    it cannot return. *)
Theorem menu_answer_first_valid (n : nat) (input : list event) (i : nat)
    (rest : list event)
    (Hanswer : Console.display_menu n input = Answered i rest) :
  (i < n)%nat
  ∧ display_menu n (Choose i) = Ok i
  ∧ ∃ before s,
      input = (Line <$> before) ++ Line s :: rest
      ∧ covered s = true
      ∧ among exit_words (lower (strip s)) = false
      ∧ int_of_str (lower (strip s)) = Some (Z.of_nat i + 1)
      ∧ ∀ s', s' ∈ before →
          covered s' = true
          ∧ among exit_words (lower (strip s')) = false
          ∧ ∀ z, int_of_str (lower (strip s')) = Some z →
                 within n (z - 1) = false.
Proof.
  assert ((i < n)%nat
          ∧ ∃ before s,
              input = (Line <$> before) ++ Line s :: rest
              ∧ covered s = true
              ∧ among exit_words (lower (strip s)) = false
              ∧ int_of_str (lower (strip s)) = Some (Z.of_nat i + 1)
              ∧ ∀ s', s' ∈ before →
                  covered s' = true
                  ∧ among exit_words (lower (strip s')) = false
                  ∧ ∀ z, int_of_str (lower (strip s')) = Some z →
                         within n (z - 1) = false) as [Hrange Hlines].
  { induction input as [|[s|] input IH]; [done| |done].
    cbn [Console.display_menu] in Hanswer. cbv zeta in Hanswer.
    destruct (covered s) eqn:Hcovered; [|done]. cbn [negb] in Hanswer.
    destruct (among exit_words (lower (strip s))) eqn:Hexit; [done|].
    assert ((∀ z, int_of_str (lower (strip s)) = Some z →
                  within n (z - 1) = false) →
            Console.display_menu n input = Answered i rest →
            (i < n)%nat
            ∧ ∃ before s0,
                Line s :: input = (Line <$> before) ++ Line s0 :: rest
                ∧ covered s0 = true
                ∧ among exit_words (lower (strip s0)) = false
                ∧ int_of_str (lower (strip s0)) = Some (Z.of_nat i + 1)
                ∧ ∀ s', s' ∈ before →
                    covered s' = true
                    ∧ among exit_words (lower (strip s')) = false
                    ∧ ∀ z, int_of_str (lower (strip s')) = Some z →
                           within n (z - 1) = false) as Hskip.
    { intros Hrefused Hlater.
      destruct (IH Hlater)
        as (Hi & before & s0 & -> & Hc0 & Hs0 & Hnum & Hbefore).
      split; [done|]. exists (s :: before), s0. split_and!; [done..|].
      intros s' [->|Hin]%elem_of_cons; [|by apply Hbefore]. by split_and!. }
    destruct (int_of_str (lower (strip s))) as [number|] eqn:Hnumber;
      [|by apply Hskip].
    destruct (within n (number - 1)) eqn:Hwithin;
      [|apply Hskip; [by intros z [= <-]|done]].
    apply within_spec in Hwithin. injection Hanswer as <- <-.
    split; [lia|]. exists [], s. split_and!; [done..| |].
    - rewrite Hnumber. f_equal. lia.
    - by intros s' ?%elem_of_nil. }
  split_and!; [done| |done].
  unfold display_menu. by rewrite (proj2 (Nat.ltb_lt i n) Hrange).
Qed.

(** X17: [display_multi_select_menu] returns only indices of the list
    shown.  They are all of them, in order, after the line [all], or else
    the numbers of the first line that is a comma-separated list of
    numbers from 1 to the length of the list, each less one, repetitions
    kept; the indices are empty only for [all] on an empty list. *)
Theorem multi_answer_in_range (n : nat) (input : list event)
    (indices : list nat) (rest : list event)
    (Hanswer : Console.display_multi_select_menu n input
               = Answered indices rest) :
  Forall (fun i => (i < n)%nat) indices
  ∧ (indices = [] → n = 0%nat)
  ∧ (∃ a, display_multi_select_menu n a = Ok indices)
  ∧ ∃ before s,
      input = (Line <$> before) ++ Line s :: rest
      ∧ Forall (fun s' => covered s' = true) (s :: before)
      ∧ among exit_words (lower (strip s)) = false
      ∧ (lower (strip s) = "all" ∧ indices = seq 0 n
         ∨ mapM (fun x => int_of_str (strip x)) (split_on "," (lower (strip s)))
           = Some ((fun i => Z.of_nat i + 1) <$> indices)).
Proof.
  induction input as [|[s|] input IH]; [done| |done].
  cbn [Console.display_multi_select_menu] in Hanswer. cbv zeta in Hanswer.
  destruct (covered s) eqn:Hcovered; [|done]. cbn [negb] in Hanswer.
  destruct (among exit_words (lower (strip s))) eqn:Hexit; [done|].
  assert (Console.display_multi_select_menu n input = Answered indices rest →
          Forall (fun i => (i < n)%nat) indices
          ∧ (indices = [] → n = 0%nat)
          ∧ (∃ a, display_multi_select_menu n a = Ok indices)
          ∧ ∃ before s0,
              Line s :: input = (Line <$> before) ++ Line s0 :: rest
              ∧ Forall (fun s' => covered s' = true) (s0 :: before)
              ∧ among exit_words (lower (strip s0)) = false
              ∧ (lower (strip s0) = "all" ∧ indices = seq 0 n
                 ∨ mapM (fun x => int_of_str (strip x))
                     (split_on "," (lower (strip s0)))
                   = Some ((fun i => Z.of_nat i + 1) <$> indices))) as Hskip.
  { intros Hlater.
    destruct (IH Hlater) as (? & ? & ? & before & s0 & -> & Hall & ? & ?).
    split_and!; [done..|]. exists (s :: before), s0.
    split_and!; [done| |done..].
    apply Forall_cons in Hall as [? ?]. by repeat constructor. }
  destruct (String.eqb_spec (lower (strip s)) "all") as [Hall|Hnot].
  { injection Hanswer as <- <-. split_and!.
    - apply Forall_forall. intros i Hi%elem_of_seq. lia.
    - by destruct n.
    - by exists ChooseAll.
    - exists [], s. split_and!; [done|by repeat constructor|done|]. by left. }
  destruct (mapM _ (split_on "," (lower (strip s)))) as [numbers|] eqn:Hnumbers;
    [|by apply Hskip].
  destruct (forallb (within n) _) eqn:Hwithin; [|by apply Hskip].
  injection Hanswer as <- <-.
  destruct (within_indices n numbers Hwithin) as [Hrange Hback].
  assert (numbers ≠ []) as Hsome.
  { intros ->. apply length_mapM in Hnumbers.
    pose proof (split_on_nonempty "," (lower (strip s))) as Hfields.
    by destruct (split_on "," (lower (strip s))). }
  assert (Z.to_nat <$> ((fun number => number - 1) <$> numbers) ≠ []) as Hne.
  { by destruct numbers. }
  split_and!.
  - done.
  - done.
  - exists (ChooseSome (Z.to_nat <$> ((fun number => number - 1) <$> numbers))).
    unfold display_multi_select_menu.
    assert (forallb (fun i => (i <? n)%nat)
              (Z.to_nat <$> ((fun number => number - 1) <$> numbers)) = true)
      as ->.
    { apply forallb_forall. intros i Hi%list_elem_of_In.
      apply Nat.ltb_lt. by apply (proj1 (Forall_forall _ _) Hrange). }
    by destruct (Z.to_nat <$> _).
  - exists [], s. split_and!; [done|by repeat constructor|done|].
    right. by rewrite Hback.
Qed.

(** X18: [ask_continue] never ends the program itself.  It answers at
    the first event that is an interruption, which counts as a no, or a
    line that is a yes word or a no word; the lines before it were none
    of the words it knows. *)
Theorem ask_continue_first_answer (input : list event) :
  Console.ask_continue input ≠ SystemExit
  ∧ ∀ b rest, Console.ask_continue input = Answered b rest →
      ∃ before ev,
        input = (Line <$> before) ++ ev :: rest
        ∧ (∀ s, s ∈ before →
             covered s = true
             ∧ among (exit_words ++ yes_words ++ no_words) (lower (strip s))
               = false)
        ∧ match ev with
          | Interrupt => b = false
          | Line s =>
              covered s = true
              ∧ among exit_words (lower (strip s)) = false
              ∧ among yes_words (lower (strip s)) = b
              ∧ (b = false → among no_words (lower (strip s)) = true)
          end.
Proof.
  induction input as [|[s|] input [IHexit IH]].
  - done.
  - cbn [Console.ask_continue]. cbv zeta.
    destruct (covered s) eqn:Hcovered; [|done]. cbn [negb].
    destruct (among exit_words (lower (strip s))) eqn:Hexit; [done|].
    destruct (among yes_words (lower (strip s))) eqn:Hyes.
    { split; [done|]. intros b rest [= <- <-]. exists [], (Line s).
      split_and!; [done|by intros ? ?%elem_of_nil|done..]. }
    destruct (among no_words (lower (strip s))) eqn:Hno.
    { split; [done|]. intros b rest [= <- <-]. exists [], (Line s).
      split_and!; [done|by intros ? ?%elem_of_nil|done..]. }
    split; [done|]. intros b rest Hlater.
    destruct (IH b rest Hlater) as (before & ev & -> & Hbefore & Hev).
    exists (s :: before), ev. split_and!; [done| |done].
    intros s' [->|Hin]%elem_of_cons; [|by apply Hbefore].
    split; [done|].
    unfold among in *. rewrite !existsb_app. by rewrite Hexit, Hyes, Hno.
  - split; [done|]. intros b rest [= <- <-]. exists [], Interrupt.
    split_and!; [done|by intros ? ?%elem_of_nil|done].
Qed.



Lemma row_at_defined (i : nat) (data : list (string * list value)) (k : string) :
  Forall (fun col => (i < length col.2)%nat) data →
  is_Some (row_at i data !! k) ↔ k ∈ data.*1.
Proof.
  induction data as [|col rest IH]; intros Hcells.
  { cbn. rewrite lookup_empty, elem_of_nil. split; [by intros []|done]. }
  apply Forall_cons in Hcells as [Hcol Hrest].
  rewrite row_at_cons, fmap_cons, elem_of_cons.
  destruct (lookup_lt_is_Some_2 _ _ Hcol) as [v ->].
  destruct (decide (k = col.1)) as [->|Hne].
  - rewrite lookup_insert_eq. split; [by left|eauto].
  - rewrite lookup_insert_ne by done. rewrite (IH Hrest).
    split; [by right|by intros [|]].
Qed.

Lemma coerced_defined (raw loaded : option value) :
  coerced raw loaded → is_Some loaded ↔ is_Some raw.
Proof.
  destruct raw as [v|]; cbn [coerced].
  - intros (z & _ & ->). split; eauto.
  - by intros ->.
Qed.

(** X20: the records of a [.csv] file all have the same fields, the
    columns of the frame, and there is one record per row: coercing the
    three numeric columns neither adds nor removes a field.  So in a
    [.csv] file a field such as [id] is in every record or in none. *)
Theorem csv_records_shape (directory : gmap string file) (path : string)
    (f : file) (df : DataFrame) (recs : list record)
    (Hsuffix : lower (suffix path) = ".csv")
    (Hfile : directory !! path = Some f)
    (Hread : read_csv f = Returned df)
    (Hframe : Forall (fun col => length col.2 = df_index df) (df_data df))
    (Hload : load_data directory path = Ok recs) :
  length recs = df_index df
  ∧ ∀ r, r ∈ recs → ∀ k, is_Some (r !! k) ↔ k ∈ df_columns df.
Proof.
  rewrite (load_data_csv directory path f df Hsuffix Hfile Hread) in Hload.
  apply load_csv_rows in Hload as [Hlength Hrows]. split; [done|].
  intros r [i Hi]%list_elem_of_lookup k.
  assert (i < df_index df)%nat as Hrow.
  { rewrite <- Hlength. by eapply lookup_lt_Some. }
  assert (is_Some (row_at i (df_data df) !! k) ↔ k ∈ df_columns df) as <-.
  { apply row_at_defined. eapply Forall_impl; [exact Hframe|].
    intros col Hcol. cbv beta in Hcol. lia. }
  destruct (Hrows i r Hi k) as [Hcoerced Hsame].
  destruct (decide (k ∈ coerced_fields)) as [Hk|Hk].
  - by apply coerced_defined, Hcoerced.
  - by rewrite (Hsame Hk).
Qed.
End Pipeline.

(** ** The statements at sample inputs *)

(** Scenario A: the total is 15500 and both rows are kept, in input
    order. *)
Lemma scenario_A_total :
  total_sum (orders_for_invoice Sample.scenario_A (VInt 3)) = Ok 15500
  ∧ orders_for_invoice Sample.scenario_A (VInt 3) = [Sample.line_1; Sample.line_2].
Proof.
  destruct (total_sum_exact Sample.scenario_A (VInt 3))
    as (total & Htotal & Hsigma & _).
  - vm_compute. reflexivity.
  - rewrite Htotal. vm_compute in Hsigma. injection Hsigma as <-.
    split; vm_compute; reflexivity.
Defined.

(** An identifier that no record carries gives the empty list. *)
Lemma unknown_identifier_gives_empty_list :
  orders_for_invoice Sample.scenario_A (VInt 7) = [].
Proof.
  apply (orders_for_invoice_exact Sample.scenario_A (VInt 7)).
  intros o Ho. unfold Sample.scenario_A in Ho.
  apply elem_of_cons in Ho as [->|Ho]; [vm_compute; reflexivity|].
  apply elem_of_cons in Ho as [->|Ho]; [vm_compute; reflexivity|].
  by apply elem_of_nil in Ho.
Defined.

(** The JSON order file is returned as parsed, text quantity included. *)
Lemma json_order_file_unchanged :
  ∃ f, Sample.loader_dir !! "order_3.json" = Some f
       ∧ json_load f = Returned [Sample.text_quantity].
Proof.
  apply (load_data_fields Sample.text_numeric Sample.int_cast Sample.loader_dir
           "order_3.json" [Sample.text_quantity]);
    vm_compute; reflexivity.
Defined.

(** In the CSV order file the quantity "abc" is loaded as 0, and the
    total over the loaded records is computed. *)
Lemma csv_text_quantity_loaded_as_zero :
  ∃ recs,
    load_data Sample.text_numeric Sample.int_cast Sample.loader_dir "order_1.csv" = Ok recs
    ∧ (∀ r, recs !! 0%nat = Some r → r !! "quantity" = Some (VInt 0))
    ∧ ∃ total, total_sum (orders_for_invoice recs (VInt 3)) = Ok total.
Proof.
  destruct (csv_non_numeric_is_zero Sample.text_numeric Sample.int_cast Sample.loader_dir
              "order_1.csv" (Sample.a_csv_file Sample.orders_frame)
              Sample.orders_frame)
    as [Hreturns Hloaded]; [vm_compute; reflexivity..|].
  destruct Hreturns as [recs Hrecs].
  { intros col Hin _.
    repeat (apply elem_of_cons in Hin as [->|Hin];
            [repeat constructor; intros s; vm_compute; discriminate|]).
    by apply elem_of_nil in Hin. }
  exists recs. destruct (Hloaded recs Hrecs) as [Hzero Htotal].
  split_and!; [done| |done].
  intros r Hr. apply (Hzero 0%nat r "quantity" (VStr "abc") Hr).
  - apply list_elem_of_In. simpl. auto.
  - vm_compute. reflexivity.
  - vm_compute. reflexivity.
Defined.

(** A text file is refused for its extension. *)
Lemma text_file_refused :
  ∃ s, load_data Sample.text_numeric Sample.int_cast Sample.loader_dir "notes.txt"
       = Raise (UnsupportedFormat s).
Proof.
  apply (unsupported_format_iff Sample.text_numeric Sample.int_cast Sample.loader_dir "notes.txt").
  split; vm_compute; discriminate.
Defined.

(** The token [widget]: nothing is written. *)
Lemma widget_file_writes_nothing :
  process_document Sample.text_numeric Sample.int_cast Sample.float_repr Sample.render
      Sample.widget_world Sample.first_choices =
  (ReturnFalse (UnknownEntity "widget"), Sample.widget_world).
Proof.
  destruct (unknown_entity_aborts Sample.text_numeric Sample.int_cast Sample.float_repr
              Sample.render Sample.widget_world Sample.first_choices
              "widget_1.json" "invoice_template.html")
    as (_ & _ & Hrun).
  - vm_compute. reflexivity.
  - apply (bool_decide_unpack _). vm_compute. exact I.
  - apply (Hrun [Sample.invoice_4]). vm_compute. reflexivity.
Defined.

(** Scenario B: no order file, the invoice is rendered with no orders
    and [invoice_4.pdf] is written. *)
Lemma scenario_B_artifact :
  process_document Sample.text_numeric Sample.int_cast Sample.float_repr Sample.render
      Sample.scenario_B Sample.first_choices =
  (ReturnTrue,
   {| data_dir := data_dir Sample.scenario_B;
      templates_dir := templates_dir Sample.scenario_B;
      output_dir := {[ "invoice_4.pdf" := "<invoice> orders=0" ]} |}).
Proof.
  destruct (invoice_without_orders Sample.text_numeric Sample.int_cast Sample.float_repr
              Sample.render Sample.scenario_B Sample.first_choices
              "invoice_1.json" "invoice_template.html"
              [Sample.invoice_4] [VInt 4] 0 Sample.invoice_4 (VInt 4))
    as [Hrun _]; [vm_compute; reflexivity..| |].
  - left. vm_compute. reflexivity.
  - rewrite Hrun. vm_compute. reflexivity.
Defined.

(** Scenario C: items 0 and 2 of five, in that order, in
    [products_2.pdf]. *)
Lemma scenario_C_products :
  process_product Sample.float_repr Sample.render Sample.scenario_C
    "product_template.html" Sample.five_items
    (Sample.answer_of 0 0 0 (ChooseSome [0; 2]%nat)) =
  generate_pdf Sample.render "product_template.html"
    (ProductsContext [Sample.item 1 "a"; Sample.item 3 "c"])
    "products_2.pdf" Sample.scenario_C.
Proof.
  destruct (artifact_names Sample.text_numeric Sample.int_cast Sample.float_repr Sample.render
              Sample.scenario_C "product_template.html" Sample.five_items
              (Sample.answer_of 0 0 0 (ChooseSome [0; 2]%nat)))
    as (_ & Hproduct & _).
  destruct (Hproduct ["1 - a"; "2 - b"; "3 - c"; "4 - d"; "5 - e"]
              [0; 2]%nat [Sample.item 1 "a"; Sample.item 3 "c"])
    as [_ Hmany]; [vm_compute; reflexivity..|].
  apply Hmany. vm_compute. discriminate.
Defined.

(** The selected file is [order_a.json]; the records, and so the total,
    are those of [order_b.csv]. *)
Lemma selected_json_read_csv :
  process_document Sample.text_numeric Sample.int_cast Sample.float_repr Sample.render
      Sample.two_order_files Sample.first_choices =
  (ReturnTrue,
   {| data_dir := data_dir Sample.two_order_files;
      templates_dir := templates_dir Sample.two_order_files;
      output_dir := {[ "order_invoice_3.pdf" := "<order> orders=2 total=3000" ]} |}).
Proof.
  destruct (order_source_is_first_order_file Sample.text_numeric Sample.int_cast
              Sample.float_repr Sample.render Sample.two_order_files
              "order_a.json")
    as (first & rest & Hfiles & _ & _ & _ & _ & _ & Horder & _).
  - vm_compute. by eexists.
  - right. vm_compute. reflexivity.
  - vm_compute in Hfiles. injection Hfiles as <- <-.
    destruct (Horder Sample.first_choices "order_a.json"
                "order_template.html" [Sample.other_line]) as [_ Hrun];
      [vm_compute; reflexivity..|].
    pose (recs :=
            match
              load_data Sample.text_numeric Sample.int_cast (data_dir Sample.two_order_files)
                "order_b.csv"
            with
            | Ok loaded => loaded
            | Raise _ => []
            end).
    rewrite (Hrun recs [VInt 3] 0%nat (VInt 3) 3000);
      vm_compute; reflexivity.
Defined.

(** A text invoice number against the integer 3: nothing matches, the
    total is 0. *)
Lemma text_number_never_matches :
  orders_for_invoice [Sample.text_line] (VInt 3) = []
  ∧ total_sum (orders_for_invoice [Sample.text_line] (VInt 3)) = Ok 0.
Proof.
  apply (matching_is_python_equality [Sample.text_line] (VInt 3)).
  intros o Ho. apply list_elem_of_singleton in Ho as ->. vm_compute. reflexivity.
Defined.

(** ** Where the specification departs from the code *)

(** C1 as stated fails: for a record whose quantity is the float 2.5
    and whose price is 3, quantity × price is 7.5 and the total is 6,
    [int] truncating the quantity before the product; and for a record
    whose quantity is the text "abc" no total is computed. *)
Lemma total_is_not_quantity_times_price :
  total_sum (orders_for_invoice [Sample.half_line] (VInt 3)) = Ok 6
  ∧ (∃ x, sigma_quantity_price (VInt 3) [Sample.half_line] = Some x
          ∧ number_compare x (Finite 15 (-1)) = Some Eq
          ∧ number_compare x (Finite 6 0) = Some Gt)
  ∧ total_sum (orders_for_invoice [Sample.text_quantity] (VInt 3))
    = Raise ValueError.
Proof.
  split_and!; [vm_compute; reflexivity| |vm_compute; reflexivity].
  eexists. split_and!; vm_compute; reflexivity.
Qed.

(** C3 as stated fails: a negative quantity of a CSV source stays
    negative, and a text quantity of a JSON source stays text. *)
Lemma loaded_fields_not_non_negative_integers :
  (∃ r, load_data Sample.text_numeric Sample.int_cast Sample.loader_dir "order_2.csv" = Ok [r]
        ∧ r !! "quantity" = Some (VInt (-5))
        ∧ non_negative_integer (VInt (-5)) = false)
  ∧ load_data Sample.text_numeric Sample.int_cast Sample.loader_dir "order_3.json"
    = Ok [Sample.text_quantity]
  ∧ Sample.text_quantity !! "quantity" = Some (VStr "abc")
  ∧ non_negative_integer (VStr "abc") = false.
Proof.
  split_and!; [|vm_compute; reflexivity..].
  eexists. split_and!; vm_compute; reflexivity.
Qed.

(** C4 as stated fails: the text quantity of a JSON source is not
    coerced to 0, and the total of line 588 raises [ValueError], which
    leaves [process_document]. *)
Lemma json_text_quantity_raises :
  load_data Sample.text_numeric Sample.int_cast (data_dir Sample.json_orders) "order_1.json"
    = Ok [Sample.text_quantity]
  ∧ Sample.text_quantity !! "quantity" = Some (VStr "abc")
  ∧ total_sum (orders_for_invoice [Sample.text_quantity] (VInt 3))
    = Raise ValueError
  ∧ process_document Sample.text_numeric Sample.int_cast Sample.float_repr Sample.render
      Sample.json_orders Sample.first_choices
    = (Raised ValueError, Sample.json_orders).
Proof. split_and!; vm_compute; reflexivity. Qed.

(** C8 as stated fails: in the OrderLine path the entity token is
    [order] and the selected invoice number is 3, yet the artifact is
    [order_invoice_3.pdf], not [order_3.pdf]. *)
Lemma order_artifact_is_not_kind_id :
  entity_type_of "order_a.json" = "order"
  ∧ order_filename Sample.float_repr (VInt 3) = "order_invoice_3.pdf"
  ∧ order_filename Sample.float_repr (VInt 3)
    ≠ "order" +:+ "_" +:+ py_str Sample.float_repr (VInt 3) +:+ ".pdf"
  ∧ output_dir (process_document Sample.text_numeric Sample.int_cast Sample.float_repr Sample.render
      Sample.two_order_files Sample.first_choices).2 !! "order_invoice_3.pdf"
    = Some "<order> orders=2 total=3000"
  ∧ output_dir (process_document Sample.text_numeric Sample.int_cast Sample.float_repr Sample.render
      Sample.two_order_files Sample.first_choices).2 !! "order_3.pdf"
    = None.
Proof. split_and!; vm_compute; try reflexivity. discriminate. Qed.

(** C10 as stated fails: the float 3.0 and the integer 3 are of two
    types, and the record matches. *)
Lemma float_invoice_number_matches_integer :
  same_type (VFloat Sample.float_3) (VInt 3) = false
  ∧ py_eq (py_get Sample.float_line "invoice_number" VNone) (VInt 3) = true
  ∧ orders_for_invoice [Sample.float_line; Sample.text_line] (VInt 3)
    = [Sample.float_line].
Proof. split_and!; vm_compute; reflexivity. Qed.

(** ** The further properties at sample inputs *)

(** The parts of a file name in capitals, with an underscore in its
    number. *)
Lemma capital_invoice_name_parts :
  entity_type_of "Invoice_2024_05.json" = "invoice"
  ∧ stem "Invoice_2024_05.json" = "Invoice_2024_05"
  ∧ suffix "Invoice_2024_05.json" = ".json".
Proof.
  apply (entity_type_of_name "Invoice" "2024_05" "json");
    [vm_compute; reflexivity..|discriminate].
Defined.

(** [order_b.csv] is an order source in CSV form. *)
Lemma order_b_is_an_order_source :
  entity_type_of "order_b.csv" = "order" ∧ suffix "order_b.csv" = ".csv".
Proof.
  destruct (order_files_are_order_sources Sample.text_numeric Sample.int_cast
              Sample.two_order_files "order_b.csv")
    as (_ & Htype & [Hcsv|Hjson] & _).
  - apply (bool_decide_unpack _). vm_compute. exact I.
  - by split.
  - vm_compute in Hjson. discriminate.
Defined.

(** Leaving the menu of products raises [ExitCommand], which is not kept
    inside. *)
Lemma exit_at_the_products_menu :
  process_document Sample.text_numeric Sample.int_cast Sample.float_repr Sample.render
      Sample.scenario_C Sample.first_choices
  = (Raised ExitCommand, Sample.scenario_C)
  ∧ kept_inside ExitCommand = false.
Proof.
  assert (process_document Sample.text_numeric Sample.int_cast Sample.float_repr Sample.render
            Sample.scenario_C Sample.first_choices
          = (Raised ExitCommand, Sample.scenario_C)) as Hrun
    by (vm_compute; reflexivity).
  split; [done|].
  exact (process_document_exceptions Sample.text_numeric Sample.int_cast Sample.float_repr
           Sample.render Sample.scenario_C Sample.scenario_C
           Sample.first_choices ExitCommand Hrun).
Defined.

(** An invoice file with a record without [id]: the menu is not shown,
    [KeyError] leaves [process_document]. *)
Lemma invoice_record_without_id :
  process_document Sample.text_numeric Sample.int_cast Sample.float_repr Sample.render
      Sample.missing_id Sample.first_choices
  = (Raised (KeyError "id"), Sample.missing_id).
Proof.
  destruct (missing_key_raises Sample.text_numeric Sample.int_cast Sample.float_repr
              Sample.render Sample.missing_id Sample.first_choices
              "invoice_1.json" "invoice_template.html"
              [Sample.invoice_4; Sample.no_id])
    as [Hinvoice _]; [vm_compute; reflexivity..|].
  apply Hinvoice; [vm_compute; reflexivity|].
  exists Sample.no_id. split; [|vm_compute; reflexivity].
  apply list_elem_of_In. simpl. auto.
Defined.

(** Scenario A: the menu of invoice numbers has the one entry 3. *)
Lemma scenario_A_menu :
  invoice_numbers_of Sample.scenario_A = Ok [VInt 3] ∧ NoDup [VInt 3].
Proof.
  assert (invoice_numbers_of Sample.scenario_A = Ok [VInt 3]) as Hmenu
    by (vm_compute; reflexivity).
  split; [done|].
  exact (proj1 (proj2 (proj2
           (invoice_numbers_complete Sample.scenario_A [VInt 3] Hmenu)))).
Defined.

(** The text "3" beside the integer 3: the menu cannot be built. *)
Lemma text_beside_integer_raises :
  invoice_numbers_of [Sample.text_line; Sample.line_1] = Raise TypeError.
Proof.
  apply (invoice_numbers_type_error [Sample.text_line; Sample.line_1]). split.
  - exists Sample.text_line. split; [|vm_compute; split; reflexivity].
    apply list_elem_of_In. simpl. auto.
  - exists Sample.line_1. split; [|vm_compute; split; reflexivity].
    apply list_elem_of_In. simpl. auto.
Defined.

(** The menu of the CSV order file is a list of integers. *)
Lemma csv_orders_menu :
  ∃ recs zs,
    load_data Sample.text_numeric Sample.int_cast Sample.loader_dir "order_1.csv" = Ok recs
    ∧ invoice_numbers_of recs = Ok (VInt <$> zs)
    ∧ StronglySorted Z.lt zs.
Proof.
  pose (recs :=
          match load_data Sample.text_numeric Sample.int_cast Sample.loader_dir "order_1.csv" with
          | Ok loaded => loaded
          | Raise _ => []
          end).
  assert (load_data Sample.text_numeric Sample.int_cast Sample.loader_dir "order_1.csv"
          = Ok recs) as Hload by (vm_compute; reflexivity).
  destruct (csv_invoice_menu Sample.text_numeric Sample.int_cast Sample.loader_dir
              "order_1.csv" recs) as (zs & Hmenu & Hsorted & _);
    [vm_compute; reflexivity|exact Hload|].
  by exists recs, zs.
Defined.

(** Scenario A: the entry 3 of the menu has a line. *)
Lemma scenario_A_entry_has_a_line :
  ∃ o, o ∈ orders_for_invoice Sample.scenario_A (VInt 3)
       ∧ py_get o "invoice_number" VNone = VInt 3.
Proof.
  apply (menu_entry_has_lines Sample.scenario_A [VInt 3] (VInt 3)).
  - vm_compute. reflexivity.
  - apply list_elem_of_In. simpl. auto.
  - discriminate.
Defined.

(** A text quantity in the second line: the total stops there. *)
Lemma total_stops_at_text_quantity :
  total_sum [Sample.line_1; Sample.text_quantity; Sample.line_2]
  = Raise ValueError.
Proof.
  apply (total_sum_first_failure
           [Sample.line_1; Sample.text_quantity; Sample.line_2]).
  exists [Sample.line_1], Sample.text_quantity, [Sample.line_2].
  split_and!; vm_compute; reflexivity.
Defined.

(** The integer 3 and the float 3.0 select the same lines. *)
Lemma integer_and_float_select_alike :
  orders_for_invoice Sample.scenario_A (VInt 3)
  = orders_for_invoice Sample.scenario_A (VFloat Sample.float_3).
Proof.
  apply (equal_identifiers_same_orders (VInt 3) (VFloat Sample.float_3)).
  vm_compute. reflexivity.
Defined.

(** At a menu of three entries, "abc" and "7" are asked again and " 2 "
    gives the index 1. *)
Lemma second_entry_chosen :
  (1 < 3)%nat ∧ display_menu 3 (Choose 1%nat) = Ok 1%nat.
Proof.
  destruct (menu_answer_first_valid 3 Sample.typed_at_menu 1 [Line "q"])
    as (Hrange & Hanswer & _); [vm_compute; reflexivity|].
  by split.
Defined.

(** At a menu of five entries, "1,,2" and "0,1" are asked again and
    "1, 3 ,3" gives the indices 0, 2 and 2. *)
Lemma three_indices_chosen :
  Forall (fun i => (i < 5)%nat) [0; 2; 2]%nat.
Proof.
  apply (multi_answer_in_range 5 Sample.typed_at_multi_menu [0; 2; 2]%nat
           [Line "all"]).
  vm_compute. reflexivity.
Defined.

(** After a line that is no answer, the Cyrillic yes is a yes. *)
Lemma cyrillic_yes_answers :
  ∃ before ev,
    [Line "может"; Line " да "; Line "no"] = (Line <$> before) ++ ev :: [Line "no"]
    ∧ (∀ s, s ∈ before →
         covered s = true
         ∧ among (exit_words ++ yes_words ++ no_words) (lower (strip s)) = false)
    ∧ match ev with
      | Interrupt => true = false
      | Line s =>
          covered s = true
          ∧ among exit_words (lower (strip s)) = false
          ∧ among yes_words (lower (strip s)) = true
          ∧ (true = false → among no_words (lower (strip s)) = true)
      end.
Proof.
  apply (ask_continue_first_answer [Line "может"; Line " да "; Line "no"]).
  vm_compute. reflexivity.
Defined.

(** The records of the CSV order file have the five columns of the
    frame. *)
Lemma csv_orders_have_the_columns :
  ∃ recs,
    load_data Sample.text_numeric Sample.int_cast Sample.loader_dir "order_1.csv" = Ok recs
    ∧ length recs = 2%nat
    ∧ ∀ r, r ∈ recs → is_Some (r !! "product_name").
Proof.
  pose (recs :=
          match load_data Sample.text_numeric Sample.int_cast Sample.loader_dir "order_1.csv" with
          | Ok loaded => loaded
          | Raise _ => []
          end).
  assert (load_data Sample.text_numeric Sample.int_cast Sample.loader_dir "order_1.csv"
          = Ok recs) as Hload by (vm_compute; reflexivity).
  destruct (csv_records_shape Sample.text_numeric Sample.int_cast Sample.loader_dir
              "order_1.csv" (Sample.a_csv_file Sample.orders_frame)
              Sample.orders_frame recs) as [Hlength Hfields];
    [vm_compute; reflexivity..| |exact Hload|].
  - repeat constructor.
  - exists recs. split_and!; [done..|].
    intros r Hr. apply (Hfields r Hr). apply list_elem_of_In. simpl. auto.
Defined.
